(** * command-start-stop: the [/start] eligibility engine

    A shallow embedding of
    - [src/handlers/shared/check-assignments.ts] (reassignment history),
    - [src/utils/issue.ts] (both revisions kept in the repository),
    - [src/handlers/shared/start.ts] (the orchestrator),
    followed by the properties of the specification that concern them.

    Asynchronous functions are embedded in a small monad [M] that records the
    remote calls a run performs, in order, and either returns a value or
    carries the thrown object. *)

From Stdlib Require Import ZArith List String Ascii Bool Lia Permutation Sorted.
From Stdlib Require DecimalString DecimalPos.
Import ListNotations.
Local Open Scope string_scope.
Local Open Scope list_scope.
Local Open Scope Z_scope.

(* ===================================================================== *)
(** ** JavaScript primitives used by the sources *)
(* ===================================================================== *)

Module Js.

(** [c.toLowerCase()] on one code unit (logins are ASCII). *)
Definition lowerAscii (c : ascii) : ascii :=
  let n := nat_of_ascii c in
  if (Nat.leb 65 n && Nat.leb n 90)%bool then ascii_of_nat (n + 32) else c.

(** [s.toLowerCase()] *)
Fixpoint toLowerCase (s : string) : string :=
  match s with
  | EmptyString => EmptyString
  | String c r => String (lowerAscii c) (toLowerCase r)
  end.

(** [s.startsWith(p)] *)
Definition startsWith (s p : string) : bool := String.prefix p s.

(** [s.includes(p)] *)
Definition includes (s p : string) : bool :=
  match String.index 0 p s with Some _ => true | None => false end.

(** Truthiness of a string: only the empty string is falsy. *)
Definition truthy (s : string) : bool :=
  match s with EmptyString => false | _ => true end.

(** [s.split(sep)] for a one-character separator; [cur] is the piece being
    read. *)
Fixpoint splitAux (sep : ascii) (s : string) (cur : string) : list string :=
  match s with
  | EmptyString => [cur]
  | String c r =>
      if Ascii.eqb c sep then cur :: splitAux sep r EmptyString
      else splitAux sep r (String.append cur (String c EmptyString))
  end.

Definition split (s : string) (sep : ascii) : list string :=
  splitAux sep s EmptyString.

(** [\s] and [\d] of the regular expressions, on ASCII. *)
Definition isSpace (c : ascii) : bool :=
  let n := nat_of_ascii c in
  ((Nat.leb 9 n && Nat.leb n 13) || Nat.eqb n 32)%bool.

Definition isDigit (c : ascii) : bool :=
  let n := nat_of_ascii c in (Nat.leb 48 n && Nat.leb n 57)%bool.

(** [parseInt(s, 10)]: leading white space, an optional sign, then the longest
    run of decimal digits; [None] is [NaN]. *)
Fixpoint digitsAux (s : string) (acc : option Z) : option Z :=
  match s with
  | EmptyString => acc
  | String c r =>
      if isDigit c then
        let d := Z.of_nat (nat_of_ascii c - 48) in
        digitsAux r (Some (match acc with Some a => 10 * a + d | None => d end))
      else acc
  end.

Fixpoint skipSpaces (s : string) : string :=
  match s with
  | String c r => if isSpace c then skipSpaces r else s
  | EmptyString => s
  end.

Definition parseInt (s : string) : option Z :=
  match skipSpaces s with
  | String "-" r => option_map Z.opp (digitsAux r None)
  | String "+" r => digitsAux r None
  | t => digitsAux t None
  end.


(** Numbers. A number of JavaScript is a double. [toDouble n] is the double
    nearest to the integer [n >= 0], as an integer: an integer below 2^53 is
    a double; from there on the significand keeps 53 bits, a tie goes to the
    even significand, and what rounds to 2^1024 or more is infinity
    ([None]). *)
Definition toDouble (n : Z) : option Z :=
  if n <? 2 ^ 53 then Some n
  else
    let e := Z.log2 n - 52 in
    let q := n / 2 ^ e in
    let r := n mod 2 ^ e in
    let half := 2 ^ (e - 1) in
    let m := if ((half <? r) || ((r =? half) && Z.odd q))%bool then q + 1 else q in
    let x := m * 2 ^ e in
    if 2 ^ 1024 <=? x then None else Some x.

(** The decimal digits of an integer. *)
Definition decimal (n : Z) : string := DecimalString.NilZero.string_of_int (Z.to_int n).

(** [Number::toString] writes the digits of the shortest decimal that reads
    back as the number: for the double [x >= 1], the value [s * 10^p] with
    the fewest digits in [s] whose nearest double is [x]; of two such values
    the one closer to [x], and of two equally close the one with [s] even.
    [p] runs down from the number of digits of [x] less one; at [p = 0] the
    value is [x] itself. *)
Fixpoint shortest (fuel : nat) (x p : Z) : Z :=
  match fuel with
  | O => x
  | S fuel' =>
      let unit := 10 ^ p in
      let lo := x / unit * unit in
      let hi := lo + unit in
      let reads v := match toDouble v with Some y => y =? x | None => false end in
      if (reads lo && reads hi)%bool then
        if x - lo <? hi - x then lo
        else if hi - x <? x - lo then hi
        else if Z.even (x / unit) then lo else hi
      else if reads lo then lo
      else if reads hi then hi
      else shortest fuel' x (p - 1)
  end.

Fixpoint dropTrailingZeros (s : string) : string :=
  match s with
  | EmptyString => EmptyString
  | String c r =>
      let r' := dropTrailingZeros r in
      if (Ascii.eqb c "0" && negb (truthy r'))%bool then EmptyString else String c r'
  end.

(** The writing with an exponent: "1e+21", "1.5e+22". *)
Definition exponentForm (v : Z) : string :=
  let ds := decimal v in
  let e := decimal (Z.of_nat (String.length ds) - 1) in
  match dropTrailingZeros ds with
  | EmptyString => EmptyString
  | String c EmptyString => String c (String.append "e+" e)
  | String c rest => String c (String.append "." (String.append rest (String.append "e+" e)))
  end.

(** [n.toString()] for an integer [n]: plain digits while the shortest
    decimal is below 10^21, the writing with an exponent from there on. *)
Definition toString (n : Z) : string :=
  let sign := if n <? 0 then "-" else "" in
  match toDouble (Z.abs n) with
  | None => String.append sign "Infinity"
  | Some x =>
      if x =? 0 then "0"
      else
        let digits := String.length (decimal x) in
        let v := shortest digits x (Z.of_nat digits - 1) in
        String.append sign (if v <? 10 ^ 21 then decimal v else exponentForm v)
  end.

End Js.

(* ===================================================================== *)
(** ** Thrown objects, results and the call-recording monad *)
(* ===================================================================== *)

(** What a [throw] carries: the [LogReturn] built by [logger.error], a plain
    [Error] built by the sources, or whatever a remote request or an imported
    helper rejected with. Only the message is kept. *)
Inductive Thrown : Type :=
| LogErr (msg : string)
| JsErr (msg : string)
| Foreign (reason : string).

Inductive Res (A : Type) : Type :=
| Ok (a : A)
| Err (e : Thrown).
Arguments Ok {A} a.
Arguments Err {A} e.

(** The calls that leave the process: methods of [context.octokit] and the
    helpers of the repository whose sources are not part of this
    development. *)
Inductive Call : Type :=
| repos_getCommit
| issues_createComment (body : string)
| issues_addAssignees (issue_number : Z) (assignees : list string)
| issues_get (issue_number : Z)
| issues_listEventsForTimeline (paginated : bool) (owner repo : string) (issue_number : Z)
| search_issuesAndPullRequests (q : string)
| graphql_reviews (owner repo : string) (pullNumber : Z)
| pulls_listReviews (owner repo : string) (pull_number : Z)
| users_getByUsername (username : string)
| ext_getAssignedIssuesFallback (username : string)
| ext_getAllPullRequestsFallback (username : string)
| ext_getUserRoleAndTaskLimit (username : string)
| ext_isUserCollaborator (username : string)
| ext_generateAssignmentComment.

(** A run: the calls performed, oldest first, and the outcome. *)
Definition M (A : Type) : Type := (list Call * Res A)%type.

Definition ret {A} (a : A) : M A := ([], Ok a).
Definition throw {A} (e : Thrown) : M A := ([], Err e).

Definition bind {A B} (m : M A) (k : A -> M B) : M B :=
  match m with
  | (t1, Ok a) => let (t2, r) := k a in (t1 ++ t2, r)
  | (t1, Err e) => (t1, Err e)
  end.

(** [try { m } catch (e) { h e }] *)
Definition try_catch {A} (m : M A) (h : Thrown -> M A) : M A :=
  match m with
  | (t1, Ok a) => (t1, Ok a)
  | (t1, Err e) => let (t2, r) := h e in (t1 ++ t2, r)
  end.

(** The answer of a remote request or of an imported helper. *)
Inductive Answer (A : Type) : Type :=
| Resolved (a : A)
| Rejected (reason : string).
Arguments Resolved {A} a.
Arguments Rejected {A} reason.

(** One awaited call: recorded, then resolved or rejected. *)
Definition call {A} (c : Call) (r : Answer A) : M A :=
  ([c], match r with Resolved a => Ok a | Rejected reason => Err (Foreign reason) end).

Definition trace {A} (m : M A) : list Call := fst m.
Definition outcome {A} (m : M A) : Res A := snd m.

Declare Scope m_scope.
Delimit Scope m_scope with m.
Notation "x <- c1 ;; c2" := (bind c1 (fun x => c2))
  (at level 61, c1 at next level, right associativity) : m_scope.
Notation "c1 ;; c2" := (bind c1 (fun _ => c2))
  (at level 61, right associativity) : m_scope.
Notation "' pat <- c1 ;; c2" :=
  (bind c1 (fun x => match x with pat => c2 end))
  (at level 61, pat pattern, c1 at next level, right associativity) : m_scope.
Local Open Scope m_scope.

(** [for (const x of xs) { acc = body x acc }] with awaits in the body. *)
Fixpoint forOf {A S} (xs : list A) (body : A -> S -> M S) (acc : S) : M S :=
  match xs with
  | [] => ret acc
  | x :: rest => acc' <- body x acc ;; forOf rest body acc'
  end.

(* ===================================================================== *)
(** ** Data model: payloads, configuration, remote services *)
(* ===================================================================== *)

(** Instants are carried as the millisecond count [new Date(s).getTime()]
    yields for the ISO strings the platform sends. *)
Definition Millis := Z.

Record User : Type := { login : string; id : Z }.

Record Label : Type := { label_name : string; label_description : option string }.

(** [Context<"issue_comment.created">["payload"]["issue"]] *)
Record Issue : Type := {
  issue_number : Z;
  issue_state : string;
  issue_body : option string;
  issue_assignees : option (list (option User));
  issue_labels : option (list Label);
  issue_created_at : Millis
}.

Record Repository : Type := {
  repo_owner_login : string;
  repo_name : string;
  repo_default_branch : string;
  repo_private : bool
}.

Record Payload : Type := {
  repository : Repository;
  issue : Issue;
  sender : User;
  comment_user : option User
}.

Record Config : Type := {
  reviewDelayTolerance : option string;
  taskStaleTimeoutDuration : string;
  rolesWithReviewAuthority : list string
}.

(** What [JSON.parse(env.APP_ID || "0")] evaluates to, for the values an
    application id is configured with: an integer or a quoted string. An
    unset or empty variable is [ParsedNumber 0]. *)
Inductive ParsedAppId : Type :=
| ParseThrows
| ParsedNumber (n : Z)
| ParsedString (s : string).

Record Env : Type := { APP_ID : ParsedAppId }.

(** An entry of [issues.listEventsForTimeline]. *)
Record TimelineEvent : Type := {
  te_event : string;
  te_actor : option User;
  te_assignee : option User;
  te_created_at : Millis
}.

(** An item of [search.issuesAndPullRequests]. *)
Record SearchItem : Type := {
  html_url : string;
  number : Z;
  state : string;
  created_at : Millis;
  pull_request : bool;
  assignee : option User;
  assignees : option (list User)
}.

(** A node of the GraphQL [reviews(last: 10)] selection. *)
Record ReviewNode : Type := { node_state : string; submittedAt : option Millis }.

(** An entry of [pulls.listReviews]. *)
Record Review : Type := {
  review_state : string;
  review_submitted_at : option Millis;
  author_association : string
}.

(** [generateAssignmentComment]'s result. *)
Record AssignmentComment : Type := {
  ac_daysElapsedSinceTaskCreation : Z;
  ac_deadline : option string;
  ac_registeredWallet : string;
  ac_tips : string
}.

(** [context.octokit]: what each request answers. [paginated] tells
    [octokit.paginate(...)] from a single-page request. *)
Record Octokit : Type := {
  rest_repos_getCommit : Answer string;
  rest_issues_createComment : string -> Answer unit;
  rest_issues_addAssignees : Z -> list string -> Answer unit;
  rest_issues_get : Z -> Answer (option (list User));
  rest_issues_listEventsForTimeline :
    forall (paginated : bool) (owner repo : string) (issue_number : Z), Answer (list TimelineEvent);
  rest_search_issuesAndPullRequests : string -> Answer (list SearchItem);
  graphql_pullRequest_reviews : string -> string -> Z -> Answer (list ReviewNode);
  rest_pulls_listReviews : string -> string -> Z -> Answer (list Review);
  rest_users_getByUsername : string -> Answer Z
}.

(** Functions and constants the sources import from modules that are not part
    of this development, and the logger of the context; they are taken as
    parameters. [ms] answers a number of milliseconds or [undefined], or
    throws (as the package does on an empty string). [logMessage_diff level
    message] is [context.logger.<level>(message, ...).logMessage.diff], the
    text the logger makes of the message for a comment; [.logMessage.raw] is
    the message itself. *)
Record Externals : Type := {
  ms : string -> Answer (option Z);
  logMessage_diff : string -> string -> string;
  getAssignedIssuesFallback : string -> Answer (list SearchItem);
  getAllPullRequestsFallback : string -> string -> Answer (list SearchItem);
  getUserRoleAndTaskLimit : string -> Answer (string * Z);
  isUserCollaborator : string -> Answer bool;
  getDeadline : list Label -> option string;
  generateAssignmentComment : Millis -> Z -> Z -> option string -> Answer AssignmentComment;
  checkTaskStale : Z -> Millis -> bool;
  assignTableComment : bool -> AssignmentComment -> string;
  structuredMetadata_create : option string -> list Z -> option string -> string
}.

Record Context : Type := {
  payload : Payload;
  config : Config;
  env : Env;
  octokit : Octokit;
  ext : Externals;
  (** [new Date().getTime()], one reading for the whole run *)
  now : Millis
}.

(** A synchronous step that may throw. *)
Definition lift {A} (r : Res A) : M A := ([], r).

(** Rejections of a request are rethrown by the sources under a message of
    their own. *)
Definition rethrow {A} (msg : string) (m : M A) : M A :=
  try_catch m (fun _ => throw (JsErr msg)).

(* ===================================================================== *)
(** ** [src/handlers/shared/check-assignments.ts] *)
(* ===================================================================== *)

Module CheckAssignments.

(** The object [getAssignmentEvents] builds for each timeline entry. *)
Record AssignmentEvent : Type := {
  event : string;
  actor : option string;
  actorId : option Z;
  assignee : option string;
  createdAt : option Millis
}.

Definition invalidAppId : Thrown := JsErr "Invalid APP_ID".

Definition getAppId (ctx : Context) : Res Z :=
  match APP_ID (env ctx) with
  | ParseThrows => Err invalidAppId
  | ParsedNumber n => if 0 <? n then Ok n else Err invalidAppId
  | ParsedString s =>
      match Js.parseInt s with
      | Some n => if 0 <? n then Ok n else Err invalidAppId
      | None => Err invalidAppId
      end
  end.

Definition isAssignmentKind (k : string) : bool :=
  (String.eqb k "assigned" || String.eqb k "unassigned")%bool.

(** The callback of [.map(...)]: the four fields are copied only when both
    [actor] and [assignee] are present. *)
Definition toAssignmentEvent (e : TimelineEvent) : AssignmentEvent :=
  match te_actor e, te_assignee e with
  | Some a, Some u =>
      if isAssignmentKind (te_event e) then
        {| event := te_event e; actor := Some (login a); actorId := Some (id a);
           assignee := Some (login u); createdAt := Some (te_created_at e) |}
      else
        {| event := te_event e; actor := None; actorId := None;
           assignee := None; createdAt := None |}
  | _, _ =>
      {| event := te_event e; actor := None; actorId := None;
         assignee := None; createdAt := None |}
  end.

(** The comparator of [.sort(...)]: a difference of instants; when either
    [createdAt] is missing the difference is [NaN], which sorting reads
    as [+0]. *)
Definition byCreatedAt (a b : AssignmentEvent) : Z :=
  match createdAt a, createdAt b with
  | Some x, Some y => x - y
  | _, _ => 0
  end.

(** [Array.prototype.sort] is stable: insertion from the right. *)
Fixpoint insertBy {A} (cmp : A -> A -> Z) (x : A) (l : list A) : list A :=
  match l with
  | [] => [x]
  | y :: r => if 0 <? cmp x y then y :: insertBy cmp x r else x :: y :: r
  end.

Definition sortBy {A} (cmp : A -> A -> Z) (l : list A) : list A :=
  fold_right (insertBy cmp) [] l.

Definition getAssignmentEvents (ctx : Context) : M (list AssignmentEvent) :=
  let repository := repository (payload ctx) in
  let issue := issue (payload ctx) in
  rethrow (logMessage_diff (ext ctx) "error" "Error while getting assignment events")
    (data <- call (issues_listEventsForTimeline false (repo_owner_login repository)
                     (repo_name repository) (issue_number issue))
               (rest_issues_listEventsForTimeline (octokit ctx) false
                  (repo_owner_login repository) (repo_name repository)
                  (issue_number issue)) ;;
     let events :=
       map toAssignmentEvent
         (filter (fun e => isAssignmentKind (te_event e)) data) in
     ret (sortBy byCreatedAt events)).

(** [context.payload.comment.user?.login.toLowerCase() ||
     context.payload.sender.login.toLowerCase()] *)
Definition senderLogin (ctx : Context) : string :=
  match comment_user (payload ctx) with
  | Some u =>
      if Js.truthy (Js.toLowerCase (login u)) then Js.toLowerCase (login u)
      else Js.toLowerCase (login (sender (payload ctx)))
  | None => Js.toLowerCase (login (sender (payload ctx)))
  end.

(** [x?.toLowerCase() === s] *)
Definition lowerIs (x : option string) (s : string) : bool :=
  match x with
  | Some v => String.eqb (Js.toLowerCase v) s
  | None => false
  end.

(** [event.actorId === APP_ID] *)
Definition idIs (x : option Z) (n : Z) : bool :=
  match x with
  | Some v => Z.eqb v n
  | None => false
  end.

(** The synchronous part of [hasUserBeenUnassigned], after the two awaits. *)
Definition decide (APP_ID : Z) (events : list AssignmentEvent) (senderLogin : string) : bool :=
  let userAssignments := filter (fun e => lowerIs (assignee e) senderLogin) events in
  if (List.length userAssignments =? 0)%nat then false
  else
    let unassignedEvents :=
      filter (fun e => String.eqb (event e) "unassigned") userAssignments in
    let botUnassigned := filter (fun e => idIs (actorId e) APP_ID) unassignedEvents in
    let adminUnassigned :=
      filter (fun e => (negb (lowerIs (actor e) senderLogin)
                        && negb (idIs (actorId e) APP_ID))%bool) unassignedEvents in
    ((0 <? List.length botUnassigned)%nat || (0 <? List.length adminUnassigned)%nat)%bool.

(** [hasUserBeenUnassigned(context)]: one parameter. *)
Definition hasUserBeenUnassigned (ctx : Context) : M bool :=
  APP_ID <- lift (getAppId ctx) ;;
  events <- getAssignmentEvents ctx ;;
  ret (decide APP_ID events (senderLogin ctx)).

End CheckAssignments.

(* ===================================================================== *)
(** ** [src/utils/issue.ts], current revision *)
(* ===================================================================== *)

Definition str (parts : list string) : string := String.concat "" parts.

Module IssueUtils.

(** One attempt of [/-\s+\[( |x)\]\s+#\d+/] at the head of [s]. Each [\s+]
    is followed by a character that is not white space, so the greedy match
    is the only one. *)
Definition parentPatternHere (s : string) : bool :=
  match s with
  | String "-" (String c r) =>
      if Js.isSpace c then
        match Js.skipSpaces r with
        | String "[" (String b (String "]" (String c2 r2))) =>
            if ((Ascii.eqb b " " || Ascii.eqb b "x") && Js.isSpace c2)%bool then
              match Js.skipSpaces r2 with
              | String "#" (String d _) => Js.isDigit d
              | _ => false
              end
            else false
        | _ => false
        end
      else false
  | _ => false
  end.

(** [body.match(parentPattern)], read as a truth value. *)
Fixpoint isParentIssue (body : string) : bool :=
  (parentPatternHere body ||
   match body with
   | String _ r => isParentIssue r
   | EmptyString => false
   end)%bool.

Definition isAssignedTo (username : string) (it : SearchItem) : bool :=
  (match assignee it with
   | Some u => String.eqb (login u) username
   | None => false
   end ||
   match assignees it with
   | Some us => existsb (fun a => String.eqb (login a) username) us
   | None => false
   end)%bool.

Definition getAssignedIssues (ctx : Context) (username : string) : M (list SearchItem) :=
  let q := str ["org:"; repo_owner_login (repository (payload ctx));
                " assignee:"; username; " is:open is:issue"] in
  try_catch
    (issues <- call (search_issuesAndPullRequests q)
                 (rest_search_issuesAndPullRequests (octokit ctx) q) ;;
     ret (filter (fun it => (String.eqb (state it) "open" && isAssignedTo username it)%bool)
            issues))
    (fun _ => call (ext_getAssignedIssuesFallback username)
                (getAssignedIssuesFallback (ext ctx) username)).

Definition addCommentToIssue (ctx : Context) (message : option string) : M unit :=
  match message with
  | None => ret tt
  | Some body =>
      if Js.truthy body then
        rethrow "Adding a comment failed!"
          (call (issues_createComment body) (rest_issues_createComment (octokit ctx) body))
      else ret tt
  end.

Definition privateRepoNotice : string :=
  "This task belongs to a private repo and can only be assigned to one user without an official paid GitHub subscription.".

Definition confirmMultiAssignment (ctx : Context) (issueNumber : Z) (usernames : list string) : M unit :=
  if (List.length usernames <? 2)%nat then ret tt
  else
    assignees <- call (issues_get issueNumber) (rest_issues_get (octokit ctx) issueNumber) ;;
    match assignees with
    | None | Some [] =>
        throw (LogErr "We detected that this task was not assigned to anyone. Please report this to the maintainers.")
    | Some l =>
        if (repo_private (repository (payload ctx)) && (List.length l <=? 1)%nat)%bool
        then addCommentToIssue ctx (Some (logMessage_diff (ext ctx) "info" privateRepoNotice))
        else ret tt
    end.

Definition addAssignees (ctx : Context) (issueNo : Z) (assignees : list string) : M unit :=
  rethrow "Adding the assignee failed"
    (call (issues_addAssignees issueNo assignees)
       (rest_issues_addAssignees (octokit ctx) issueNo assignees)) ;;
  confirmMultiAssignment ctx issueNo assignees.

Definition pullRequestQuery (ctx : Context) (state username : string) : string :=
  str ["org:"; repo_owner_login (repository (payload ctx)); " author:"; username;
       " state:"; state; " is:pr"].

Definition getAllPullRequests (ctx : Context) (state username : string) : M (list SearchItem) :=
  let q := pullRequestQuery ctx state username in
  rethrow "Fetching all pull requests failed!"
    (call (search_issuesAndPullRequests q) (rest_search_issuesAndPullRequests (octokit ctx) q)).

Definition getAllPullRequestsWithRetry (ctx : Context) (state username : string) : M (list SearchItem) :=
  try_catch (getAllPullRequests ctx state username)
    (fun _ => call (ext_getAllPullRequestsFallback username)
                (getAllPullRequestsFallback (ext ctx) state username)).

Definition isReviewRequestKind (k : string) : bool :=
  (String.eqb k "review_requested" || String.eqb k "review_request_removed")%bool.

Definition getReviewRequestsTimeline (ctx : Context) (pullNumber : Z) (owner repo : string)
  : M (list TimelineEvent) :=
  try_catch
    (data <- call (issues_listEventsForTimeline true owner repo pullNumber)
               (rest_issues_listEventsForTimeline (octokit ctx) true owner repo pullNumber) ;;
     ret (filter (fun e => isReviewRequestKind (te_event e)) data))
    (fun _ => ret []).

Record LatestReviewStatus : Type := {
  latestReview : option ReviewNode;
  hasUnresolvedChanges : bool
}.

(** [reviewNodes[reviewNodes.length - 1]] *)
Definition lastNode (nodes : list ReviewNode) : option ReviewNode :=
  match nodes with
  | [] => None
  | n :: r => Some (last r n)
  end.

Definition getLatestReviewStatus (ctx : Context) (owner repo : string) (pullNumber : Z)
  : M LatestReviewStatus :=
  reviewNodes <- call (graphql_reviews owner repo pullNumber)
                   (graphql_pullRequest_reviews (octokit ctx) owner repo pullNumber) ;;
  let hasUnresolvedChanges :=
    existsb (fun review => String.eqb (node_state review) "CHANGES_REQUESTED") reviewNodes in
  ret {| latestReview := lastNode reviewNodes;
         hasUnresolvedChanges := hasUnresolvedChanges |}.

Definition getOwnerRepoFromHtmlUrl (url : string) : Res (string * string) :=
  let parts := Js.split url "/" in
  if (List.length parts <? 5)%nat then Err (JsErr "Invalid URL")
  else Ok (nth 3 parts "", nth 4 parts "").

Definition getTimeValue (ctx : Context) (timeString : string) : Res Z :=
  match ms (ext ctx) timeString with
  | Rejected reason => Err (Foreign reason)
  | Resolved (Some timeValue) =>
      if (timeValue =? 0) || (timeValue <=? 0) then Err (JsErr "Invalid config time value")
      else Ok timeValue
  | Resolved None => Err (JsErr "Invalid config time value")
  end.

Definition getOpenedPullRequestsForUser (ctx : Context) (username : string) : M (list SearchItem) :=
  getAllPullRequestsWithRetry ctx "open" username.

(** The two arrays the loop of [getAvailableOpenedPullRequests] fills. *)
Definition Buckets : Type := (list SearchItem * list SearchItem)%type.

(** [lastChangesRequestedTime ? reviewRequests.some(...) : false]; a missing
    [submittedAt] gives [null], and [null] and [0] are both falsy. *)
Definition isReviewRequestedAfterChanges
  (lastChangesRequestedTime : option Millis) (reviewRequests : list TimelineEvent) : bool :=
  match lastChangesRequestedTime with
  | Some t =>
      if t =? 0 then false
      else existsb (fun request => t <? te_created_at request) reviewRequests
  | None => false
  end.

(** The last [if] of the loop body. [getTimeValue] is reached only when there
    is no latest review. *)
Definition unreviewedTail (ctx : Context) (reviewDelayTolerance : string)
  (latestReview : option ReviewNode) (openedPullRequest : SearchItem) (b : Buckets) : M Buckets :=
  match latestReview with
  | Some _ => ret b
  | None =>
      tolerance <- lift (getTimeValue ctx reviewDelayTolerance) ;;
      if tolerance <=? now ctx - created_at openedPullRequest
      then ret (fst b ++ [openedPullRequest], snd b)
      else ret b
  end.

(** One iteration of the [for] loop. *)
Definition classifyPullRequest (ctx : Context) (reviewDelayTolerance : string)
  (openedPullRequest : SearchItem) (b : Buckets) : M Buckets :=
  let (approved, changes) := b in
  '(owner, repo) <- lift (getOwnerRepoFromHtmlUrl (html_url openedPullRequest)) ;;
  status <- getLatestReviewStatus ctx owner repo (number openedPullRequest) ;;
  let latestReviewState := option_map node_state (latestReview status) in
  let stateIs s :=
    match latestReviewState with Some v => String.eqb v s | None => false end in
  if (stateIs "APPROVED" || negb (hasUnresolvedChanges status))%bool then
    ret (approved ++ [openedPullRequest], changes)
  else if stateIs "CHANGES_REQUESTED" then
    let changes := changes ++ [openedPullRequest] in
    let lastChangesRequestedTime :=
      match latestReview status with
      | Some r => submittedAt r
      | None => None
      end in
    reviewRequests <-
      getReviewRequestsTimeline ctx (number openedPullRequest) owner repo ;;
    if isReviewRequestedAfterChanges lastChangesRequestedTime reviewRequests then
      ret (approved ++ [openedPullRequest], removelast changes)
    else
      unreviewedTail ctx reviewDelayTolerance (latestReview status) openedPullRequest
        (approved, changes)
  else
    unreviewedTail ctx reviewDelayTolerance (latestReview status) openedPullRequest
      (approved, changes).

Definition getAvailableOpenedPullRequests (ctx : Context) (username : string) : M Buckets :=
  match reviewDelayTolerance (config ctx) with
  | None => ret ([], [])
  | Some reviewDelayTolerance =>
      if negb (Js.truthy reviewDelayTolerance) then ret ([], [])
      else
        openedPullRequests <- getOpenedPullRequestsForUser ctx username ;;
        forOf openedPullRequests (classifyPullRequest ctx reviewDelayTolerance) ([], [])
  end.

End IssueUtils.

(* ===================================================================== *)
(** ** [src/utils/issue.ts], earlier revision kept in the repository *)
(* ===================================================================== *)

Module IssueUtilsPrev.

Definition pullRequestQuery (ctx : Context) (state username : string) : string :=
  str ["org:"; repo_owner_login (repository (payload ctx)); " author:"; username;
       " state:"; state].

Definition getAllPullRequests (ctx : Context) (state username : string) : M (list SearchItem) :=
  let q := pullRequestQuery ctx state username in
  rethrow "Fetching all pull requests failed!"
    (call (search_issuesAndPullRequests q) (rest_search_issuesAndPullRequests (octokit ctx) q)).

Definition getAllPullRequestReviews (ctx : Context) (pullNumber : Z) (owner repo : string)
  : M (list Review) :=
  rethrow "Fetching all pull request reviews failed!"
    (reviews <- call (pulls_listReviews owner repo pullNumber)
                  (rest_pulls_listReviews (octokit ctx) owner repo pullNumber) ;;
     ret (filter (fun review =>
                    existsb (String.eqb (author_association review))
                      (rolesWithReviewAuthority (config ctx)))
            reviews)).

Definition getOwnerRepoFromHtmlUrl := IssueUtils.getOwnerRepoFromHtmlUrl.
Definition getTimeValue := IssueUtils.getTimeValue.

Definition getOpenedPullRequests (ctx : Context) (username : string) : M (list SearchItem) :=
  prs <- getAllPullRequests ctx "open" username ;;
  ret (filter (fun pr => (pull_request pr && String.eqb (state pr) "open")%bool) prs).

(** [approved] holds pull requests, [changes] holds reviews. *)
Definition Buckets : Type := (list SearchItem * list Review)%type.

Definition findState (s : string) (reviews : list Review) : option Review :=
  find (fun review => String.eqb (review_state review) s) reviews.

(** One iteration of the [for] loop. *)
Definition classifyPullRequest (ctx : Context) (reviewDelayTolerance : string)
  (openedPullRequest : SearchItem) (b : Buckets) : M Buckets :=
  let (approved, changes) := b in
  '(owner, repo) <- lift (getOwnerRepoFromHtmlUrl (html_url openedPullRequest)) ;;
  reviews <- getAllPullRequestReviews ctx (number openedPullRequest) owner repo ;;
  let approved :=
    if (0 <? List.length reviews)%nat then
      match findState "APPROVED" reviews with
      | Some _ => approved ++ [openedPullRequest]
      | None => approved
      end
    else approved in
  let changes :=
    if (0 <? List.length reviews)%nat then
      match findState "CHANGES_REQUESTED" reviews with
      | Some changesRequested => changes ++ [changesRequested]
      | None => changes
      end
    else changes in
  if (List.length reviews =? 0)%nat then
    tolerance <- lift (getTimeValue ctx reviewDelayTolerance) ;;
    if tolerance <=? now ctx - created_at openedPullRequest
    then ret (approved ++ [openedPullRequest], changes)
    else ret (approved, changes)
  else ret (approved, changes).

Definition getAvailableOpenedPullRequests (ctx : Context) (username : string) : M Buckets :=
  match reviewDelayTolerance (config ctx) with
  | None => ret ([], [])
  | Some reviewDelayTolerance =>
      if negb (Js.truthy reviewDelayTolerance) then ret ([], [])
      else
        openedPullRequests <- getOpenedPullRequests ctx username ;;
        forOf openedPullRequests (classifyPullRequest ctx reviewDelayTolerance) ([], [])
  end.

End IssueUtilsPrev.

(* ===================================================================== *)
(** ** [src/handlers/shared/start.ts] *)
(* ===================================================================== *)

Module Start.

Import CheckAssignments IssueUtils.

(** [{ content, status }] *)
Record Result : Type := { content : string; status : Z }.

Definition nl : string := String (ascii_of_nat 10) EmptyString.

(** Modelled from the spec: [ISSUE_TYPE.CLOSED], declared with the types of
    the repository, is the state "closed" of a work item (open/closed). *)
Definition ISSUE_TYPE_CLOSED : string := "closed".

(** Modelled from the spec: [HttpStatusCode.OK], declared with the result
    types of the repository, is the status of a committed request. *)
Definition HttpStatusCode_OK : Z := 200.

Definition msgNoSender : string :=
  "Skipping '/start' since there is no sender in the context.".
Definition msgParentComment : string :=
  str ["```diff"; nl;
       "# Please select a child issue from the specification checklist to work on. The '/start' command is disabled on parent issues.";
       nl; "```"].
Definition msgParent : string := "Skipping '/start' since the issue is a parent issue".
Definition msgClosed : string := "This issue is closed, please choose another.".
Definition msgSelfAssigned : string := "You are already assigned to this task.".
Definition msgOtherAssigned : string :=
  "This issue is already assigned. Please choose another unassigned task.".
Definition msgAllTeammatesLimit : string :=
  "All teammates have reached their max task limit. Please close out some tasks before assigning new ones.".
Definition msgSelfLimit : string :=
  "You have reached your max task limit. Please close out some tasks before assigning new ones.".
Definition msgNoPriceLabel : string := "No price label is set to calculate the duration".
Definition msgCollaboratorsOnly : string := "Only collaborators can be assigned to this issue.".
Definition msgPreviouslyUnassigned (username : string) : string :=
  str [username; " you were previously unassigned from this task. You cannot be reassigned."].

Definition fetchUserIds (ctx : Context) (username : list string) : M (list Z) :=
  ids <- forOf username
           (fun user ids =>
              data_id <- call (users_getByUsername user)
                           (rest_users_getByUsername (octokit ctx) user) ;;
              ret (ids ++ [data_id]))
           [] ;;
  if (0 <? List.length (filter (fun i => Z.eqb i 0) ids))%nat
  then throw (JsErr "Error while fetching user ids")
  else ret ids.

(** [assignedIssues.length - approved.length + changes.length] *)
Definition adjustedAssignedIssues {A B C} (assignedIssues : list A) (approved : list B)
  (changes : list C) : Z :=
  Z.of_nat (List.length assignedIssues) - Z.of_nat (List.length approved)
  + Z.of_nat (List.length changes).

(** The call [hasUserBeenUnassigned(context, username)] passes two arguments
    to a function declared with one; the second is not received. *)
Definition handleTaskLimitChecks (username : string) (ctx : Context) (sender : string) : M bool :=
  '(approved, changes) <- getAvailableOpenedPullRequests ctx username ;;
  assignedIssues <- getAssignedIssues ctx username ;;
  '(_, limit) <- call (ext_getUserRoleAndTaskLimit username)
                   (getUserRoleAndTaskLimit (ext ctx) username) ;;
  if limit <=? Z.abs (adjustedAssignedIssues assignedIssues approved changes) then
    ret false
  else
    barred <- hasUserBeenUnassigned ctx ;;
    if barred then throw (LogErr (msgPreviouslyUnassigned username))
    else ret true.

Definition isPriceLabel (label : Label) : bool :=
  Js.startsWith (label_name label) "Price: ".

Definition isCollaboratorOnly (label : Label) : bool :=
  match label_description label with
  | Some d => Js.includes d "collaborator only"
  | None => false
  end.

Definition assigneeIs (senderLogin : string) (assignee : option User) : bool :=
  match assignee with
  | Some a => String.eqb (login a) senderLogin
  | None => false
  end.

(** The loop over [teammates] that fills [toAssign]. *)
Definition checkLimits (ctx : Context) (senderLogin : string) (teammates : list string)
  : M (list string) :=
  forOf teammates
    (fun user toAssign =>
       ok <- handleTaskLimitChecks user ctx senderLogin ;;
       ret (if ok then toAssign ++ [user] else toAssign))
    [].

(** The nested loops over [labels] and [toAssign]. *)
Definition checkCollaborators (ctx : Context) (labels : list Label) (toAssign : list string)
  : M unit :=
  forOf labels
    (fun label _ =>
       if isCollaboratorOnly label then
         forOf toAssign
           (fun user _ =>
              isCollaborator <- call (ext_isUserCollaborator user)
                                  (isUserCollaborator (ext ctx) user) ;;
              if isCollaborator then ret tt
              else throw (LogErr msgCollaboratorsOnly))
           tt
       else ret tt)
    tt.

(** From [getDeadline] to the [return]: the assignment itself. *)
Definition commit (ctx : Context) (issue : Issue) (sender : User) (labels : list Label)
  (toAssign : list string) (commitHash : option string) : M Result :=
  let deadline := getDeadline (ext ctx) labels in
  toAssignIds <- fetchUserIds ctx toAssign ;;
  assignmentComment <-
    call ext_generateAssignmentComment
      (generateAssignmentComment (ext ctx) (issue_created_at issue) (issue_number issue)
         (id sender) deadline) ;;
  let metadata :=
    structuredMetadata_create (ext ctx) (ac_deadline assignmentComment) toAssignIds
      (option_map (fun h => String.substring 0 7 h) commitHash) in
  addAssignees ctx (issue_number issue) toAssign ;;
  staleTimeout <- lift (getTimeValue ctx (taskStaleTimeoutDuration (config ctx))) ;;
  let isTaskStale := checkTaskStale (ext ctx) staleTimeout (issue_created_at issue) in
  addCommentToIssue ctx
    (Some (String.concat nl
             [assignTableComment (ext ctx) isTaskStale assignmentComment;
              ac_tips assignmentComment; metadata])) ;;
  ret {| content := "Task assigned successfully"; status := HttpStatusCode_OK |}.

(** [issue.body && isParentIssue(issue.body)] *)
Definition isParent (issue : Issue) : bool :=
  match issue_body issue with
  | Some body => (Js.truthy body && isParentIssue body)%bool
  | None => false
  end.

(** The [try]/[catch] around [repos.getCommit]. *)
Definition fetchCommitHash (ctx : Context) : M (option string) :=
  try_catch (sha <- call repos_getCommit (rest_repos_getCommit (octokit ctx)) ;;
             ret (Some sha))
    (fun _ => ret None).

(** [issue?.assignees ?? []] and [issue.labels ?? []] *)
Definition assigneesOf (issue : Issue) : list (option User) :=
  match issue_assignees issue with Some l => l | None => [] end.

Definition labelsOf (issue : Issue) : list Label :=
  match issue_labels issue with Some l => l | None => [] end.

(** [teammates.push(sender.login)] *)
Definition candidates (teammates : list string) (sender : User) : list string :=
  teammates ++ [login sender].

(** From the test on [toAssign.length] to the end; [teammates] already holds
    the sender. *)
Definition afterLimits (ctx : Context) (issue : Issue) (sender : User) (teammates : list string)
  (toAssign : list string) (commitHash : option string) : M Result :=
  if ((List.length toAssign =? 0)%nat && (1 <? List.length teammates)%nat)%bool then
    throw (LogErr msgAllTeammatesLimit)
  else if (List.length toAssign =? 0)%nat then
    throw (LogErr msgSelfLimit)
  else
    let labels := labelsOf issue in
    match find isPriceLabel labels with
    | None => throw (LogErr msgNoPriceLabel)
    | Some priceLabel =>
        checkCollaborators ctx labels toAssign ;;
        commit ctx issue sender labels toAssign commitHash
    end.

Definition start (ctx : Context) (issue : Issue) (sender : option User) (teammates : list string)
  : M Result :=
  match sender with
  | None => throw (LogErr msgNoSender)
  | Some sender =>
      (if isParent issue then
         addCommentToIssue ctx (Some msgParentComment) ;;
         throw (LogErr msgParent)
       else ret tt) ;;
      commitHash <- fetchCommitHash ctx ;;
      if String.eqb (issue_state issue) ISSUE_TYPE_CLOSED then throw (LogErr msgClosed)
      else
        let assignees := assigneesOf issue in
        if negb (List.length assignees =? 0)%nat then
          let isCurrentUserAssigned := existsb (assigneeIs (login sender)) assignees in
          throw (LogErr (if isCurrentUserAssigned then msgSelfAssigned else msgOtherAssigned))
        else
          let teammates := candidates teammates sender in
          toAssign <- checkLimits ctx (login sender) teammates ;;
          afterLimits ctx issue sender teammates toAssign commitHash
  end.

End Start.

(* ===================================================================== *)
(** ** Concrete repositories used to exercise the embedding *)
(* ===================================================================== *)

Module Fixtures.

Definition alice : User := {| login := "alice"; id := 1 |}.
Definition bob : User := {| login := "bob"; id := 2 |}.
Definition carol : User := {| login := "carol"; id := 3 |}.
Definition botUser : User := {| login := "ubiquity-os[bot]"; id := 99 |}.

Definition repo : Repository :=
  {| repo_owner_login := "ubiquity"; repo_name := "work";
     repo_default_branch := "main"; repo_private := false |}.

Definition priceLabel : Label :=
  {| label_name := "Price: 100 USD"; label_description := None |}.

Definition mkIssue (assignees : list (option User)) (labels : list Label) : Issue :=
  {| issue_number := 7; issue_state := "open"; issue_body := Some "Implement the parser";
     issue_assignees := Some assignees; issue_labels := Some labels;
     issue_created_at := 1000 |}.

Definition ev (kind : string) (actor assignee : User) (at_ : Millis) : TimelineEvent :=
  {| te_event := kind; te_actor := Some actor; te_assignee := Some assignee;
     te_created_at := at_ |}.

Definition reviewRequested (at_ : Millis) : TimelineEvent :=
  {| te_event := "review_requested"; te_actor := None; te_assignee := None;
     te_created_at := at_ |}.

Definition pr (n : Z) (created : Millis) : SearchItem :=
  {| html_url := "https://github.com/ubiquity/work/pull/1"; number := n; state := "open";
     created_at := created; pull_request := true; assignee := None; assignees := None |}.

Definition comment : AssignmentComment :=
  {| ac_daysElapsedSinceTaskCreation := 0; ac_deadline := Some "Fri";
     ac_registeredWallet := "0x0"; ac_tips := "tips" |}.

(** A repository service: [issueTimeline] answers the single-page timeline
    of the issue, [prTimeline] the paginated one of a pull request, [prs] the
    pull-request searches, [nodes] and [reviews] the two review queries. *)
Definition mkOctokit (issueTimeline prTimeline : list TimelineEvent) (prs : list SearchItem)
  (nodes : list ReviewNode) (reviews : list Review) : Octokit :=
  {| rest_repos_getCommit := Resolved "0123456789abcdef";
     rest_issues_createComment := fun _ => Resolved tt;
     rest_issues_addAssignees := fun _ _ => Resolved tt;
     rest_issues_get := fun _ => Resolved (Some [alice; bob]);
     rest_issues_listEventsForTimeline :=
       fun paginated _ _ _ => Resolved (if paginated then prTimeline else issueTimeline);
     rest_search_issuesAndPullRequests :=
       fun q => if Js.includes q " author:" then Resolved prs else Resolved [];
     graphql_pullRequest_reviews := fun _ _ _ => Resolved nodes;
     rest_pulls_listReviews := fun _ _ _ => Resolved reviews;
     rest_users_getByUsername :=
       fun u => if String.eqb u "alice" then Resolved 1 else Resolved 2 |}.

(** The logger's text for a comment: a diff block, the message after the
    mark of its level. *)
Definition diffBlock (level message : string) : string :=
  str ["```diff"; Start.nl; (if String.eqb level "error" then "! " else "# "); message;
       Start.nl; "```"].

Definition mkExt (limit : Z) : Externals :=
  {| ms := fun s => if String.eqb s "1 Day" then Resolved (Some 86400000)
                    else Resolved (Some 2592000000);
     logMessage_diff := diffBlock;
     getAssignedIssuesFallback := fun _ => Resolved [];
     getAllPullRequestsFallback := fun _ _ => Resolved [];
     getUserRoleAndTaskLimit := fun _ => Resolved ("contributor", limit);
     isUserCollaborator := fun _ => Resolved true;
     getDeadline := fun _ => Some "Fri";
     generateAssignmentComment := fun _ _ _ _ => Resolved comment;
     checkTaskStale := fun timeout created => timeout <=? 5000 - created;
     assignTableComment := fun _ _ => "table";
     structuredMetadata_create := fun _ _ _ => "metadata" |}.

Definition mkCtx (commenter : User) (iss : Issue) (tolerance : option string)
  (o : Octokit) (limit : Z) : Context :=
  {| payload := {| repository := repo; issue := iss; sender := commenter;
                   comment_user := Some commenter |};
     config := {| reviewDelayTolerance := tolerance; taskStaleTimeoutDuration := "30 Days";
                  rolesWithReviewAuthority := ["OWNER"; "ADMIN"; "MEMBER"; "COLLABORATOR"] |};
     env := {| APP_ID := ParsedNumber 99 |};
     octokit := o;
     ext := mkExt limit;
     now := 5000 |}.

(** Bob was assigned, then removed by Carol; Alice has no history. *)
Definition bobRemovedByCarol : list TimelineEvent :=
  [ev "assigned" bob bob 10; ev "unassigned" carol bob 20].

(** Alice was assigned, then removed by the bot. *)
Definition aliceRemovedByBot : list TimelineEvent :=
  [ev "assigned" alice alice 10; ev "unassigned" botUser alice 20].

(** Alice was assigned, then stepped down herself. *)
Definition aliceSteppedDown : list TimelineEvent :=
  [ev "assigned" alice alice 10; ev "unassigned" alice alice 20].

Definition quiet (issueTimeline : list TimelineEvent) : Octokit :=
  mkOctokit issueTimeline [] [] [] [].

(** Bob is at his limit of one task, Alice and Carol are not. *)
Definition octokitBobBusy : Octokit :=
  {| rest_repos_getCommit := Resolved "0123456789abcdef";
     rest_issues_createComment := fun _ => Resolved tt;
     rest_issues_addAssignees := fun _ _ => Resolved tt;
     rest_issues_get := fun _ => Resolved (Some [carol; alice]);
     rest_issues_listEventsForTimeline := fun _ _ _ _ => Resolved [];
     rest_search_issuesAndPullRequests :=
       fun q => if Js.includes q " assignee:bob "
                then Resolved [{| html_url := "https://github.com/ubiquity/work/issues/3";
                                  number := 3; state := "open"; created_at := 100;
                                  pull_request := false; assignee := Some bob;
                                  assignees := Some [bob] |}]
                else Resolved [];
     graphql_pullRequest_reviews := fun _ _ _ => Resolved [];
     rest_pulls_listReviews := fun _ _ _ => Resolved [];
     rest_users_getByUsername := fun _ => Resolved 5 |}.

Definition ctxBobBusy : Context :=
  mkCtx alice (mkIssue [] [priceLabel]) None octokitBobBusy 1.

Definition ctxSteppedDown : Context :=
  mkCtx alice (mkIssue [] [priceLabel]) None (quiet aliceSteppedDown) 2.

Definition ctxBobRemoved : Context :=
  mkCtx alice (mkIssue [] [priceLabel]) None (quiet bobRemovedByCarol) 2.

Definition ctxAliceRemoved : Context :=
  mkCtx alice (mkIssue [] [priceLabel]) None (quiet aliceRemovedByBot) 2.

Definition ctxReRequested : Context :=
  mkCtx alice (mkIssue [] [priceLabel]) (Some "1 Day")
    (mkOctokit [] [reviewRequested 200] [pr 1 4000]
       [{| node_state := "CHANGES_REQUESTED"; submittedAt := Some 100 |}] [])
    2.

Definition ctxQuiet : Context :=
  mkCtx alice (mkIssue [Some bob] [priceLabel]) None (quiet []) 2.

Definition ctxNoPrice : Context :=
  mkCtx alice (mkIssue [] []) None (quiet []) 2.

Definition ctxOpen : Context :=
  mkCtx alice (mkIssue [] [priceLabel]) None (quiet []) 2.

Definition ctxBarredNoPrice : Context :=
  mkCtx alice (mkIssue [] []) None (quiet aliceRemovedByBot) 2.

(** A pull request opened a moment ago, without any review. *)
Definition ctxFresh : Context :=
  mkCtx alice (mkIssue [] [priceLabel]) (Some "1 Day")
    (mkOctokit [] [] [pr 1 4000] [] []) 2.

(** One review requesting changes, by a member, and no review request
    since. *)
Definition ctxChangesPending : Context :=
  mkCtx alice (mkIssue [] [priceLabel]) (Some "1 Day")
    (mkOctokit [] [reviewRequested 50] [pr 1 4000]
       [{| node_state := "CHANGES_REQUESTED"; submittedAt := Some 100 |}]
       [{| review_state := "CHANGES_REQUESTED"; review_submitted_at := Some 100;
           author_association := "MEMBER" |}]) 2.


(** An open task assigned to Bob. *)
Definition task (n : Z) : SearchItem :=
  {| html_url := "https://github.com/ubiquity/work/issues/1"; number := n; state := "open";
     created_at := 100; pull_request := false; assignee := Some bob;
     assignees := Some [bob] |}.

(** Three open tasks and three open pull requests: the first approved, the
    other two with changes requested and no review request since. *)
Definition octokitMixed : Octokit :=
  {| rest_repos_getCommit := Resolved "0123456789abcdef";
     rest_issues_createComment := fun _ => Resolved tt;
     rest_issues_addAssignees := fun _ _ => Resolved tt;
     rest_issues_get := fun _ => Resolved (Some [alice; bob]);
     rest_issues_listEventsForTimeline := fun _ _ _ _ => Resolved [];
     rest_search_issuesAndPullRequests :=
       fun q => if Js.includes q " author:"
                then Resolved [pr 1 4000; pr 2 4000; pr 3 4000]
                else Resolved [task 11; task 12; task 13];
     graphql_pullRequest_reviews :=
       fun _ _ n => if n =? 1
                    then Resolved [{| node_state := "APPROVED"; submittedAt := Some 100 |}]
                    else Resolved [{| node_state := "CHANGES_REQUESTED";
                                      submittedAt := Some 100 |}];
     rest_pulls_listReviews := fun _ _ _ => Resolved [];
     rest_users_getByUsername := fun _ => Resolved 2 |}.

Definition ctxMixed (limit : Z) : Context :=
  mkCtx alice (mkIssue [] [priceLabel]) (Some "1 Day") octokitMixed limit.

(** One approved pull request and no task, under a limit of one. *)
Definition ctxOneApproval : Context :=
  mkCtx alice (mkIssue [] [priceLabel]) (Some "1 Day")
    (mkOctokit [] [] [pr 1 4000]
       [{| node_state := "APPROVED"; submittedAt := Some 100 |}] []) 1.

(** The comment's author has the identifier of the application. *)
Definition ctxSelfIsApp : Context :=
  {| payload := {| repository := repo; issue := mkIssue [] [priceLabel];
                   sender := alice; comment_user := Some alice |};
     config := {| reviewDelayTolerance := None; taskStaleTimeoutDuration := "30 Days";
                  rolesWithReviewAuthority := ["OWNER"] |};
     env := {| APP_ID := ParsedNumber 1 |};
     octokit := quiet aliceSteppedDown;
     ext := mkExt 2;
     now := 5000 |}.

End Fixtures.

(* ===================================================================== *)
(** ** Vocabulary of the properties *)
(* ===================================================================== *)

(** [Only P m]: every call of the run [m] satisfies [P]. *)
Definition Only {A} (P : Call -> Prop) (m : M A) : Prop := Forall P (trace m).

Module Vocabulary.

Import CheckAssignments IssueUtils Start.

(** The timeline entry [e] removes the contributor [who] (a lower-cased
    login) and its actor is the application, or is neither [who] nor the
    application. *)
Definition Bars (appId : Z) (who : string) (e : TimelineEvent) : Prop :=
  exists a u,
    te_event e = "unassigned" /\ te_actor e = Some a /\ te_assignee e = Some u /\
    Js.toLowerCase (login u) = who /\
    (id a = appId \/ (Js.toLowerCase (login a) <> who /\ id a <> appId)).

(** The same test on the objects [getAssignmentEvents] builds. *)
Definition bars (appId : Z) (who : string) (e : AssignmentEvent) : bool :=
  (lowerIs (assignee e) who &&
   (String.eqb (event e) "unassigned" &&
    (idIs (actorId e) appId ||
     (negb (lowerIs (actor e) who) && negb (idIs (actorId e) appId)))))%bool.

(** Appending the buckets of later iterations to those of earlier ones. *)
Definition extend {X Y} (b d : list X * list Y) : list X * list Y :=
  (fst b ++ fst d, snd b ++ snd d).

Definition extendRes {X Y} (b : list X * list Y) (r : Res (list X * list Y))
  : Res (list X * list Y) :=
  match r with Ok d => Ok (extend b d) | Err e => Err e end.

(** Calls that change the repository. *)
Definition isWrite (c : Call) : bool :=
  match c with
  | issues_createComment _ | issues_addAssignees _ _ => true
  | _ => false
  end.

(** Calls made by [handleTaskLimitChecks]. *)
Definition inLimitStage (c : Call) : bool :=
  match c with
  | search_issuesAndPullRequests _ | graphql_reviews _ _ _
  | issues_listEventsForTimeline _ _ _ _
  | ext_getAssignedIssuesFallback _ | ext_getAllPullRequestsFallback _
  | ext_getUserRoleAndTaskLimit _ => true
  | _ => false
  end.

(** The request by which the history check reads the issue's timeline. *)
Definition historyCheckCall (ctx : Context) : Call :=
  issues_listEventsForTimeline false
    (repo_owner_login (repository (payload ctx))) (repo_name (repository (payload ctx)))
    (issue_number (issue (payload ctx))).

(** [handleTaskLimitChecks] accepted the contributor. *)
Definition passes (ctx : Context) (sender : string) (username : string) : bool :=
  match outcome (handleTaskLimitChecks username ctx sender) with
  | Ok true => true
  | _ => false
  end.

(** [commitHash] after the [try]/[catch]. *)
Definition commitHashOf (ctx : Context) : option string :=
  match rest_repos_getCommit (octokit ctx) with
  | Resolved sha => Some sha
  | Rejected _ => None
  end.

(** [Raises Q m]: whatever the run [m] throws satisfies [Q]. *)
Definition Raises {A} (Q : Thrown -> Prop) (m : M A) : Prop :=
  forall e, outcome m = Err e -> Q e.

(** The two rejections for an exhausted task limit. *)
Definition isLimitRejection (e : Thrown) : bool :=
  match e with
  | LogErr m => (String.eqb m msgAllTeammatesLimit || String.eqb m msgSelfLimit)%bool
  | _ => false
  end.

(** C6, as stated: the candidates hold no login twice, and neither does any
    assignee update. *)
Definition Deduplicated (ctx : Context) (issue : Issue) (s : User) (tm : list string) : Prop :=
  NoDup (candidates tm s) /\
  forall n l, In (issues_addAssignees n l) (trace (start ctx issue (Some s) tm)) -> NoDup l.

(** C5, as stated. [hasUserBeenUnassigned ctx] is the check that
    [handleTaskLimitChecks] runs for each candidate [who]: when the timeline
    of the issue is [data] and holds an assignment event of [who], it
    answers "barred" exactly when [data] holds an unassignment of [who] by
    the application or by somebody who is neither [who] nor the application,
    and it does not bar a contributor all of whose unassignments are their
    own. *)
Definition BarredIffRemoved (ctx : Context) (appId : Z) (data : list TimelineEvent)
  (who : string) : Prop :=
  getAppId ctx = Ok appId ->
  rest_issues_listEventsForTimeline (octokit ctx) false
    (repo_owner_login (repository (payload ctx))) (repo_name (repository (payload ctx)))
    (issue_number (issue (payload ctx))) = Resolved data ->
  (exists e u, In e data /\ isAssignmentKind (te_event e) = true /\
               te_assignee e = Some u /\ Js.toLowerCase (login u) = Js.toLowerCase who) ->
  exists barred,
    outcome (hasUserBeenUnassigned ctx) = Ok barred /\
    (barred = true <-> exists e, In e data /\ Bars appId (Js.toLowerCase who) e) /\
    ((forall e a u,
         In e data -> te_event e = "unassigned" ->
         te_actor e = Some a -> te_assignee e = Some u ->
         Js.toLowerCase (login u) = Js.toLowerCase who ->
         Js.toLowerCase (login a) = Js.toLowerCase who) ->
     barred = false).

(** C2, as stated: the history check is sent only once the set of
    candidates left by the limit checks is not empty, a price label has been
    found and the collaborator test has passed. *)
Definition HistoryAfterGates (ctx : Context) (issue : Issue) (s : User) (tm : list string) : Prop :=
  In (historyCheckCall ctx) (trace (start ctx issue (Some s) tm)) ->
  exists toAssign priceLabel,
    outcome (checkLimits ctx (login s) (candidates tm s)) = Ok toAssign /\
    toAssign <> [] /\
    find isPriceLabel (labelsOf issue) = Some priceLabel /\
    outcome (checkCollaborators ctx (labelsOf issue) toAssign) = Ok tt.

(** The request is past the first three gates: the issue is no parent issue,
    not closed and without assignee. *)
Definition Workable (issue : Issue) : Prop :=
  isParent issue = false /\ issue_state issue <> ISSUE_TYPE_CLOSED /\ assigneesOf issue = [].

(** What [handleTaskLimitChecks] sends for [username] up to the limit
    test. *)
Definition limitReads (ctx : Context) (username : string) : list Call :=
  trace (IssueUtils.getAvailableOpenedPullRequests ctx username)
  ++ trace (getAssignedIssues ctx username) ++ [ext_getUserRoleAndTaskLimit username].

(** What the GraphQL selection keeps of a review. *)
Definition toNode (r : Review) : ReviewNode :=
  {| node_state := review_state r; submittedAt := review_submitted_at r |}.

(** [last: n] *)
Definition lastN {A} (n : nat) (l : list A) : list A := skipn (List.length l - n) l.

(** Both review queries read the same reviews of each pull request: the REST
    listing returns them all, the GraphQL selection the last ten. *)
Definition SameReviews (ctx : Context) : Prop :=
  forall owner repo n,
    exists all,
      rest_pulls_listReviews (octokit ctx) owner repo n = Resolved all /\
      graphql_pullRequest_reviews (octokit ctx) owner repo n
      = Resolved (map toNode (lastN 10 all)).

(** C10, as stated: on the same data the two revisions return the same
    [approved] and as many [changes]. *)
Definition Equivalent (ctx : Context) (username : string) : Prop :=
  SameReviews ctx ->
  forall a1 c1 a2 c2,
    outcome (IssueUtils.getAvailableOpenedPullRequests ctx username) = Ok (a1, c1) ->
    outcome (IssueUtilsPrev.getAvailableOpenedPullRequests ctx username) = Ok (a2, c2) ->
    a1 = a2 /\ List.length c1 = List.length c2.

Definition hasState (s : string) (rs : list Review) : bool :=
  existsb (fun r => String.eqb (review_state r) s) rs.

Definition hasAuthority (ctx : Context) (r : Review) : bool :=
  existsb (String.eqb (author_association r)) (rolesWithReviewAuthority (config ctx)).

(** The pull requests on which the two revisions meet: at most ten reviews,
    all by roles with review authority, and either
    - no review at all and the tolerance has elapsed, or
    - an approval and no request for changes, or
    - a latest review requesting changes, no approval, and no later review
      request. *)
Definition Settled (ctx : Context) (tol : string) (pr : SearchItem) : Prop :=
  exists owner repo rs,
    IssueUtils.getOwnerRepoFromHtmlUrl (html_url pr) = Ok (owner, repo) /\
    rest_pulls_listReviews (octokit ctx) owner repo (number pr) = Resolved rs /\
    graphql_pullRequest_reviews (octokit ctx) owner repo (number pr)
    = Resolved (map toNode (lastN 10 rs)) /\
    (List.length rs <= 10)%nat /\
    forallb (hasAuthority ctx) rs = true /\
    ((rs = [] /\
      exists tv, IssueUtils.getTimeValue ctx tol = Ok tv /\ tv <= now ctx - created_at pr) \/
     (hasState "APPROVED" rs = true /\ hasState "CHANGES_REQUESTED" rs = false) \/
     (exists latest reqs,
        IssueUtils.lastNode (map toNode rs) = Some latest /\
        node_state latest = "CHANGES_REQUESTED" /\
        hasState "APPROVED" rs = false /\
        outcome (IssueUtils.getReviewRequestsTimeline ctx (number pr) owner repo) = Ok reqs /\
        IssueUtils.isReviewRequestedAfterChanges (submittedAt latest) reqs = false)).

End Vocabulary.

(* ===================================================================== *)
(** ** [src/utils/issue.ts]: closing the pull requests linked to an issue *)
(* ===================================================================== *)

Module LinkedPullRequests.

(** [issueNumber.toString()], for an integer. *)
Definition numberToString (n : Z) : string := Js.toString n.

(** A literal of a regular expression under the flag [i], at the head of
    [s]: what follows it. *)
Fixpoint literal (p s : string) : option string :=
  match p with
  | EmptyString => Some s
  | String a p' =>
      match s with
      | String b s' =>
          if Ascii.eqb (Js.lowerAscii a) (Js.lowerAscii b) then literal p' s' else None
      | EmptyString => None
      end
  end.

(** [\d+] at the head of [s]: what follows the longest run of digits. *)
Fixpoint skipDigits (s : string) : string :=
  match s with
  | String c r => if Js.isDigit c then skipDigits r else s
  | EmptyString => s
  end.

Definition digits (s : string) : option string :=
  match s with
  | String c r => if Js.isDigit c then Some (skipDigits r) else None
  | EmptyString => None
  end.

(** [[^\/]+] followed by [\/]: what follows the slash. *)
Fixpoint untilSlash (s : string) : option string :=
  match s with
  | String c r => if Ascii.eqb c "/" then Some r else untilSlash r
  | EmptyString => None
  end.

Definition segment (s : string) : option string :=
  match s with
  | String c r => if Ascii.eqb c "/" then None else untilSlash r
  | EmptyString => None
  end.

Definition andThen {A B} (x : option A) (k : A -> option B) : option B :=
  match x with Some a => k a | None => None end.

Definition orElse {A} (x y : option A) : option A :=
  match x with Some a => Some a | None => y end.

(** [ #(\d+)] after one of the keywords, tried in the order of the
    alternation. *)
Fixpoint keywordReference (keywords : list string) (s : string) : option string :=
  match keywords with
  | [] => None
  | k :: rest =>
      orElse (andThen (literal k s) (fun r => andThen (literal " #" r) digits))
        (keywordReference rest s)
  end.

(** [github.com\/([^\/]+)\/([^\/]+)\/(issue|issues)\/(\d+)]; the unescaped
    dot stands for any character but a line terminator. *)
Definition urlTail (s : string) : option string :=
  andThen (literal "github" s) (fun r =>
    match r with
    | String c r1 =>
        if (Ascii.eqb c (ascii_of_nat 10) || Ascii.eqb c (ascii_of_nat 13))%bool then None
        else
          andThen (literal "com/" r1) (fun r2 =>
          andThen (segment r2) (fun r3 =>
          andThen (segment r3) (fun r4 =>
            orElse (andThen (literal "issue" r4) (fun r5 => andThen (literal "/" r5) digits))
                   (andThen (literal "issues" r4) (fun r5 => andThen (literal "/" r5) digits)))))
    | EmptyString => None
    end).

(** [https:\/\/(?:www\.)?] and the rest. *)
Definition urlReference (s : string) : option string :=
  andThen (literal "https://" s) (fun r =>
    match literal "www." r with
    | Some r' => orElse (urlTail r') (urlTail r)
    | None => urlTail r
    end).

(** One attempt of the whole expression at the head of [s]: what follows
    the match. *)
Definition referenceHere (s : string) : option string :=
  orElse (keywordReference ["Resolves"; "Fixes"; "Closes"; "Depends on"; "Related to"] s)
    (orElse (urlReference s)
       (andThen (literal "#" s) digits)).

(** The first [n] characters of [s]. *)
Fixpoint take (n : nat) (s : string) : string :=
  match n, s with
  | S k, String c r => String c (take k r)
  | _, _ => EmptyString
  end.

(** [prBody.match(regex)] under the flag [g]: the matches from left to
    right, none overlapping another; [skip] counts the characters still
    inside the last match. *)
Fixpoint matches (skip : nat) (s : string) : list string :=
  match s with
  | EmptyString => []
  | String c r =>
      match skip with
      | S k => matches k r
      | O =>
          match referenceHere s with
          | Some rest =>
              let n := (String.length s - String.length rest)%nat in
              take n s :: matches (n - 1) r
          | None => matches 0 r
          end
      end
  end.

Fixpoint hasGt (s : string) : bool :=
  match s with
  | String c r => (Ascii.eqb c ">" || hasGt r)%bool
  | EmptyString => false
  end.

(** [prBody.replace(/<!-*[\s\S]*?-*>/g, "")]: each "<!" is removed together
    with what follows up to the next ">"; [inside] tells that such a span is
    being removed. *)
Fixpoint removeComments (inside : bool) (s : string) : string :=
  match s with
  | EmptyString => EmptyString
  | String c r =>
      if inside then removeComments (negb (Ascii.eqb c ">")) r
      else
        match r with
        | String "!" r' =>
            if (Ascii.eqb c "<" && hasGt r')%bool then removeComments true r
            else String c (removeComments false r)
        | _ => String c (removeComments false r)
        end
  end.

(** The callback of [matches.map(...)]. *)
Definition issueIdOf (m : string) : string :=
  if Js.startsWith m "http" then last (Js.split m "/") ""
  else last (Js.split m "#") "".

Definition issueLinkedViaPrBody (prBody : option string) (issueNumber : Z) : bool :=
  match prBody with
  | None => false
  | Some body =>
      if negb (Js.truthy body) then false
      else
        match matches 0 (removeComments false body) with
        | [] => false
        | m :: ms => String.eqb (issueIdOf (last ms m)) (numberToString issueNumber)
        end
  end.

(** [GetLinkedResults], as far as this file reads it. *)
Record GetLinkedResults : Type := {
  pr_organization : string;
  pr_repository : string;
  pr_number : Z;
  pr_href : string;
  pr_author : string;
  pr_body : option string
}.

(** The two requests of this part of the file: [getLinkedPullRequests], which
    is imported, and [context.octokit.rest.pulls.update]. *)
Inductive CloseCall : Type :=
| ext_getLinkedPullRequests (owner repository : string) (issue : Z)
| pulls_update (owner repo : string) (pull_number : Z) (state : string).

Record CloseServices : Type := {
  getLinkedPullRequests : string -> string -> Z -> Answer (list GetLinkedResults);
  rest_pulls_update : string -> string -> Z -> string -> Answer unit
}.

(** Runs of this part of the file. *)
Definition Run (A : Type) : Type := (list CloseCall * Res A)%type.

Definition done {A} (a : A) : Run A := ([], Ok a).

Definition failed {A} (e : Thrown) : Run A := ([], Err e).

Definition request {A} (c : CloseCall) (r : Answer A) : Run A :=
  ([c], match r with Resolved a => Ok a | Rejected reason => Err (Foreign reason) end).

Definition next {A B} (m : Run A) (k : A -> Run B) : Run B :=
  match m with
  | (t1, Ok a) => let (t2, r) := k a in (t1 ++ t2, r)
  | (t1, Err e) => (t1, Err e)
  end.

Definition closePullRequest (ctx : Context) (svc : CloseServices) (results : GetLinkedResults)
  : Run unit :=
  match request (pulls_update (repo_owner_login (repository (payload ctx)))
                   (repo_name (repository (payload ctx))) (pr_number results) "closed")
          (rest_pulls_update svc (repo_owner_login (repository (payload ctx)))
             (repo_name (repository (payload ctx))) (pr_number results) "closed") with
  | (t, Ok a) => (t, Ok a)
  | (t, Err _) => (t, Err (JsErr "Closing pull requests failed!"))
  end.

Definition closedHeader : string :=
  String.append "```diff"
    (String.append (String (ascii_of_nat 10) EmptyString)
       "# These linked pull requests are closed: ").

(** The loop over [linkedPullRequests]; the state is [comment] and
    [isClosed]. *)
Fixpoint closeLinked (ctx : Context) (svc : CloseServices) (issueNumber : Z) (owner author : string)
  (linked : list GetLinkedResults) (comment : string) (isClosed : bool)
  : Run (string * bool) :=
  match linked with
  | [] => done (comment, isClosed)
  | pr :: rest =>
      if (negb (String.eqb (pr_author pr) author)
          || negb (String.eqb (pr_organization pr) owner))%bool then
        closeLinked ctx svc issueNumber owner author rest comment isClosed
      else if negb (issueLinkedViaPrBody (pr_body pr) issueNumber) then
        closeLinked ctx svc issueNumber owner author rest comment isClosed
      else
        next (closePullRequest ctx svc pr) (fun _ =>
          closeLinked ctx svc issueNumber owner author rest
            (String.append comment (String.append " " (String.append (pr_href pr) " ")))
            true)
  end.

(** [closePullRequestForAnIssue]; the result is the message of the
    [LogReturn] it returns. *)
Definition closePullRequestForAnIssue (ctx : Context) (svc : CloseServices) (issueNumber : Z)
  (repository : Repository) (author : string) : Run string :=
  if issueNumber =? 0 then failed (JsErr "Issue is not defined")
  else
    next (request (ext_getLinkedPullRequests (repo_owner_login repository)
                     (repo_name repository) issueNumber)
            (getLinkedPullRequests svc (repo_owner_login repository) (repo_name repository)
               issueNumber))
      (fun linkedPullRequests =>
         match linkedPullRequests with
         | [] => done "No linked pull requests to close"
         | _ =>
             next (closeLinked ctx svc issueNumber (repo_owner_login repository) author
                     linkedPullRequests closedHeader false)
               (fun '(comment, isClosed) =>
                  if isClosed then done comment else done "No PRs were closed")
         end).

End LinkedPullRequests.

(* ===================================================================== *)
(** ** Further vocabulary and repositories *)
(* ===================================================================== *)

Module MoreFixtures.

Import Fixtures.

(** A service whose timelines cannot be read. *)
Definition timelineDown : Octokit :=
  {| rest_repos_getCommit := Resolved "0123456789abcdef";
     rest_issues_createComment := fun _ => Resolved tt;
     rest_issues_addAssignees := fun _ _ => Resolved tt;
     rest_issues_get := fun _ => Resolved (Some [alice; bob]);
     rest_issues_listEventsForTimeline := fun _ _ _ _ => Rejected "502";
     rest_search_issuesAndPullRequests := fun _ => Resolved [];
     graphql_pullRequest_reviews := fun _ _ _ => Resolved [];
     rest_pulls_listReviews := fun _ _ _ => Resolved [];
     rest_users_getByUsername := fun _ => Resolved 1 |}.

Definition ctxTimelineDown : Context :=
  mkCtx alice (mkIssue [] [priceLabel]) None timelineDown 2.

(** Alice was removed by the bot, then took the task again and stepped
    down. *)
Definition aliceRemovedThenBack : list TimelineEvent :=
  [ev "unassigned" alice alice 40; ev "assigned" alice alice 30;
   ev "unassigned" botUser alice 20; ev "assigned" alice alice 10].

Definition ctxAliceBack : Context :=
  mkCtx alice (mkIssue [] [priceLabel]) None (quiet aliceRemovedThenBack) 2.

(** A change request followed by an approval. *)
Definition ctxApprovedLater : Context :=
  mkCtx alice (mkIssue [] [priceLabel]) (Some "1 Day")
    (mkOctokit [] [] [pr 1 4000]
       [{| node_state := "CHANGES_REQUESTED"; submittedAt := Some 100 |};
        {| node_state := "APPROVED"; submittedAt := Some 300 |}]
       [{| review_state := "CHANGES_REQUESTED"; review_submitted_at := Some 100;
           author_association := "MEMBER" |};
        {| review_state := "APPROVED"; review_submitted_at := Some 300;
           author_association := "MEMBER" |}]) 2.

Definition restrictedLabel : Label :=
  {| label_name := "Core"; label_description := Some "Core team, collaborator only" |}.

(** Helpers whose durations cannot be parsed, and for whom Bob is no
    collaborator. *)
Definition strictExt : Externals :=
  {| ms := fun _ => Resolved None;
     logMessage_diff := diffBlock;
     getAssignedIssuesFallback := fun _ => Resolved [];
     getAllPullRequestsFallback := fun _ _ => Resolved [];
     getUserRoleAndTaskLimit := fun _ => Resolved ("contributor", 2);
     isUserCollaborator := fun u => Resolved (negb (String.eqb u "bob"));
     getDeadline := fun _ => Some "Fri";
     generateAssignmentComment := fun _ _ _ _ => Resolved comment;
     checkTaskStale := fun timeout created => timeout <=? 5000 - created;
     assignTableComment := fun _ _ => "table";
     structuredMetadata_create := fun _ _ _ => "metadata" |}.

Definition ctxStrict : Context :=
  {| payload := {| repository := repo; issue := mkIssue [] [priceLabel; restrictedLabel];
                   sender := alice; comment_user := Some alice |};
     config := {| reviewDelayTolerance := None; taskStaleTimeoutDuration := "soon";
                  rolesWithReviewAuthority := ["OWNER"] |};
     env := {| APP_ID := ParsedNumber 99 |};
     octokit := quiet [];
     ext := strictExt;
     now := 5000 |}.


(** A service whose searches are refused and which shows no assignee after
    an update. *)
Definition searchDown : Octokit :=
  {| rest_repos_getCommit := Resolved "0123456789abcdef";
     rest_issues_createComment := fun _ => Resolved tt;
     rest_issues_addAssignees := fun _ _ => Resolved tt;
     rest_issues_get := fun _ => Resolved (Some []);
     rest_issues_listEventsForTimeline := fun _ _ _ _ => Resolved [];
     rest_search_issuesAndPullRequests := fun _ => Rejected "503";
     graphql_pullRequest_reviews := fun _ _ _ => Resolved [];
     rest_pulls_listReviews := fun _ _ _ => Resolved [];
     rest_users_getByUsername := fun _ => Resolved 1 |}.

Definition ctxSearchDown : Context :=
  mkCtx alice (mkIssue [] [priceLabel]) None searchDown 2.

(** An installation whose APP_ID reads as 0. *)
Definition ctxNoAppId : Context :=
  {| payload := {| repository := repo; issue := mkIssue [] [priceLabel];
                   sender := alice; comment_user := Some alice |};
     config := {| reviewDelayTolerance := None; taskStaleTimeoutDuration := "30 Days";
                  rolesWithReviewAuthority := ["OWNER"] |};
     env := {| APP_ID := ParsedNumber 0 |};
     octokit := quiet aliceRemovedByBot;
     ext := mkExt 2;
     now := 5000 |}.

(** A closed issue that still has an assignee. *)
Definition closedIssue : Issue :=
  {| issue_number := 7; issue_state := "closed"; issue_body := Some "Implement the parser";
     issue_assignees := Some [Some bob]; issue_labels := Some [priceLabel];
     issue_created_at := 1000 |}.


(** A private repository whose issue shows one assignee after an update for
    two. *)
Definition privateRepo : Repository :=
  {| repo_owner_login := "ubiquity"; repo_name := "vault";
     repo_default_branch := "main"; repo_private := true |}.

Definition oneShown : Octokit :=
  {| rest_repos_getCommit := Resolved "0123456789abcdef";
     rest_issues_createComment := fun _ => Resolved tt;
     rest_issues_addAssignees := fun _ _ => Resolved tt;
     rest_issues_get := fun _ => Resolved (Some [alice]);
     rest_issues_listEventsForTimeline := fun _ _ _ _ => Resolved [];
     rest_search_issuesAndPullRequests := fun _ => Resolved [];
     graphql_pullRequest_reviews := fun _ _ _ => Resolved [];
     rest_pulls_listReviews := fun _ _ _ => Resolved [];
     rest_users_getByUsername :=
       fun u => if String.eqb u "alice" then Resolved 1 else Resolved 2 |}.

Definition ctxPrivate : Context :=
  {| payload := {| repository := privateRepo; issue := mkIssue [] [priceLabel];
                   sender := alice; comment_user := Some alice |};
     config := {| reviewDelayTolerance := None; taskStaleTimeoutDuration := "30 Days";
                  rolesWithReviewAuthority := ["OWNER"] |};
     env := {| APP_ID := ParsedNumber 99 |};
     octokit := oneShown;
     ext := mkExt 2;
     now := 5000 |}.


(** Helpers whose [ms] throws on the empty string, as the package does, and
    a configuration whose stale timeout is empty. *)
Definition throwingExt : Externals :=
  {| ms := fun s => if String.eqb s ""
                    then Rejected "val is not a non-empty string or a valid number"
                    else Resolved (Some 86400000);
     logMessage_diff := diffBlock;
     getAssignedIssuesFallback := fun _ => Resolved [];
     getAllPullRequestsFallback := fun _ _ => Resolved [];
     getUserRoleAndTaskLimit := fun _ => Resolved ("contributor", 2);
     isUserCollaborator := fun _ => Resolved true;
     getDeadline := fun _ => Some "Fri";
     generateAssignmentComment := fun _ _ _ _ => Resolved comment;
     checkTaskStale := fun timeout created => timeout <=? 5000 - created;
     assignTableComment := fun _ _ => "table";
     structuredMetadata_create := fun _ _ _ => "metadata" |}.

Definition ctxNoTimeout : Context :=
  {| payload := {| repository := repo; issue := mkIssue [] [priceLabel];
                   sender := alice; comment_user := Some alice |};
     config := {| reviewDelayTolerance := None; taskStaleTimeoutDuration := "";
                  rolesWithReviewAuthority := ["OWNER"] |};
     env := {| APP_ID := ParsedNumber 99 |};
     octokit := quiet [];
     ext := throwingExt;
     now := 5000 |}.


(** Nobody has capacity, and the issue carries no price label. *)
Definition ctxFullNoPrice : Context :=
  mkCtx alice (mkIssue [] []) None (quiet []) 0.

(** A service that knows no identifier for anybody. *)
Definition noIdentifier : Octokit :=
  {| rest_repos_getCommit := Resolved "0123456789abcdef";
     rest_issues_createComment := fun _ => Resolved tt;
     rest_issues_addAssignees := fun _ _ => Resolved tt;
     rest_issues_get := fun _ => Resolved (Some [alice; bob]);
     rest_issues_listEventsForTimeline := fun _ _ _ _ => Resolved [];
     rest_search_issuesAndPullRequests := fun _ => Resolved [];
     graphql_pullRequest_reviews := fun _ _ _ => Resolved [];
     rest_pulls_listReviews := fun _ _ _ => Resolved [];
     rest_users_getByUsername := fun _ => Resolved 0 |}.

Definition ctxNoIdentifier : Context :=
  mkCtx alice (mkIssue [] [priceLabel]) None noIdentifier 2.

End MoreFixtures.

Module CloseVocabulary.

Import LinkedPullRequests.

(** The pull requests [closePullRequestForAnIssue] closes: written by
    [author], in the organisation [owner], with a body that links the
    issue. *)
Definition eligible (issueNumber : Z) (owner author : string) (pr : GetLinkedResults) : bool :=
  (String.eqb (pr_author pr) author && String.eqb (pr_organization pr) owner
   && issueLinkedViaPrBody (pr_body pr) issueNumber)%bool.

(** The update that closes [pr]: it is addressed to the repository of the
    payload. *)
Definition closing (ctx : Context) (pr : GetLinkedResults) : CloseCall :=
  pulls_update (repo_owner_login (repository (payload ctx)))
    (repo_name (repository (payload ctx))) (pr_number pr) "closed".

Definition closes (ctx : Context) (svc : CloseServices) (pr : GetLinkedResults) : Prop :=
  rest_pulls_update svc (repo_owner_login (repository (payload ctx)))
    (repo_name (repository (payload ctx))) (pr_number pr) "closed" = Resolved tt.

(** The text appended to the comment for the pull requests closed. *)
Fixpoint closedList (prs : list GetLinkedResults) : string :=
  match prs with
  | [] => EmptyString
  | pr :: rest =>
      String.append (String.append " " (String.append (pr_href pr) " ")) (closedList rest)
  end.

(** A string of decimal digits. *)
Fixpoint allDigits (s : string) : bool :=
  match s with
  | EmptyString => true
  | String c r => (Js.isDigit c && allDigits r)%bool
  end.

Definition linkedPr (n : Z) (author org : string) (body : option string) : GetLinkedResults :=
  {| pr_organization := org; pr_repository := "work"; pr_number := n;
     pr_href := String.append "https://github.com/ubiquity/work/pull/" (numberToString n);
     pr_author := author; pr_body := body |}.

(** Four pull requests linked to issue 7: Alice's own, one of Bob, one of
    Alice in another organisation, and one of Alice that names another
    issue. *)
Definition linkedToSeven : list GetLinkedResults :=
  [linkedPr 11 "alice" "ubiquity" (Some "Resolves #7");
   linkedPr 12 "bob" "ubiquity" (Some "Resolves #7");
   linkedPr 13 "alice" "elsewhere" (Some "Resolves #7");
   linkedPr 14 "alice" "ubiquity" (Some "Resolves #8");
   linkedPr 15 "alice" "ubiquity" (Some "see https://github.com/ubiquity/work/issues/7")].

Definition closingWorks : CloseServices :=
  {| getLinkedPullRequests := fun _ _ _ => Resolved linkedToSeven;
     rest_pulls_update := fun _ _ _ _ => Resolved tt |}.

(** Pull request 11 cannot be closed. *)
Definition closingFails : CloseServices :=
  {| getLinkedPullRequests := fun _ _ _ => Resolved linkedToSeven;
     rest_pulls_update := fun _ _ n _ => if n =? 11 then Rejected "422" else Resolved tt |}.

(** What may stand before the "#" of a reference by keyword, in three
    spellings, and nothing for a bare reference. *)
Definition referencePrefixes : list string :=
  ["Resolves "; "Fixes "; "Closes "; "Depends on "; "Related to ";
   "resolves "; "fixes "; "closes "; "depends on "; "related to ";
   "RESOLVES "; "FIXES "; "CLOSES "; "DEPENDS ON "; "RELATED TO "; ""].

(** [ref] is "#" and the digits [ds], alone or after one of the keywords. *)
Definition reference (p ds : string) : string := String.append p (String "#" ds).

End CloseVocabulary.

Module ReadVocabulary.

(** [username] is the assignee of the item or one of its assignees. *)
Definition AssignedTo (username : string) (it : SearchItem) : Prop :=
  (exists u, assignee it = Some u /\ login u = username) \/
  (exists us u, assignees it = Some us /\ In u us /\ login u = username).

(** A rejected request, as the sources see it. *)
Definition answerRes {A} (r : Answer A) : Res A :=
  match r with Resolved a => Ok a | Rejected reason => Err (Foreign reason) end.

End ReadVocabulary.

Module MoreVocabulary.

Import CheckAssignments IssueUtils Start.

(** Both events carry an instant and the first is not later than the
    second. *)
Definition notLater (a b : AssignmentEvent) : Prop :=
  exists x y, createdAt a = Some x /\ createdAt b = Some y /\ x <= y.

(** The timeline entry names both an actor and an assignee. *)
Definition complete (e : TimelineEvent) : Prop :=
  te_actor e <> None /\ te_assignee e <> None.

(** A non-empty run of white space. *)
Fixpoint allSpaces (s : string) : bool :=
  match s with
  | EmptyString => true
  | String c r => (Js.isSpace c && allSpaces r)%bool
  end.

Definition whitespace (s : string) : bool :=
  (Js.truthy s && allSpaces s)%bool.

(** The character [c] occurs in [s]. *)
Fixpoint occurs (c : ascii) (s : string) : bool :=
  match s with
  | EmptyString => false
  | String d r => (Ascii.eqb d c || occurs c r)%bool
  end.

(** [s] holds no "/". *)
Definition slashFree (s : string) : bool := negb (occurs "/" s).

(** Some node has state "CHANGES_REQUESTED". *)
Definition anyChangesRequested (nodes : list ReviewNode) : bool :=
  existsb (fun review => String.eqb (node_state review) "CHANGES_REQUESTED") nodes.

End MoreVocabulary.

(* ===================================================================== *)
(** ** General facts about the monad and the list helpers *)
(* ===================================================================== *)

Lemma bind_trace_outcome {A B} (m : M A) (k : A -> M B) :
  bind m k =
  match outcome m with
  | Ok a => (trace m ++ trace (k a), outcome (k a))
  | Err e => (trace m, Err e)
  end.
Proof.
  destruct m as [t [a|e]]; simpl; [destruct (k a); reflexivity | reflexivity].
Qed.

(* ===================================================================== *)

Lemma filter_nonempty_existsb {A} (f : A -> bool) (l : list A) :
  (0 <? List.length (filter f l))%nat = existsb f l.
Proof.
  induction l as [|x l IH]; simpl; [reflexivity|].
  destruct (f x); simpl; [reflexivity | exact IH].
Qed.

Lemma filter_empty_existsb {A} (f : A -> bool) (l : list A) :
  (List.length (filter f l) =? 0)%nat = negb (existsb f l).
Proof.
  induction l as [|x l IH]; simpl; [reflexivity|].
  destruct (f x); simpl; [reflexivity | exact IH].
Qed.

Lemma existsb_filter {A} (f g : A -> bool) (l : list A) :
  existsb g (filter f l) = existsb (fun x => (f x && g x)%bool) l.
Proof.
  induction l as [|x l IH]; simpl; [reflexivity|].
  destruct (f x); simpl; rewrite IH; reflexivity.
Qed.

Lemma existsb_ext_in {A} (f g : A -> bool) (l : list A) :
  (forall x, In x l -> f x = g x) -> existsb f l = existsb g l.
Proof.
  induction l as [|x l IH]; simpl; intros H; [reflexivity|].
  rewrite (H x (or_introl eq_refl)), IH; [reflexivity|].
  intros y Hy. apply H. right. exact Hy.
Qed.

Lemma existsb_perm {A} (f : A -> bool) (l l' : list A) :
  Permutation l l' -> existsb f l = existsb f l'.
Proof.
  induction 1; simpl; try congruence.
  destruct (f x), (f y); reflexivity.
Qed.

Section SortFacts.
Import CheckAssignments.
Context {A : Type} (cmp : A -> A -> Z).

Lemma insertBy_perm (x : A) (l : list A) : Permutation (insertBy cmp x l) (x :: l).
Proof.
  induction l as [|y l IH]; simpl; [apply Permutation_refl|].
  destruct (0 <? cmp x y).
  - eapply Permutation_trans; [apply perm_skip, IH | apply perm_swap].
  - apply Permutation_refl.
Qed.

Lemma sortBy_perm (l : list A) : Permutation (sortBy cmp l) l.
Proof.
  induction l as [|x l IH]; simpl; [apply perm_nil|].
  eapply Permutation_trans; [apply insertBy_perm | apply perm_skip, IH].
Qed.
End SortFacts.

Lemma existsb_orb {A} (p q : A -> bool) (l : list A) :
  existsb (fun x => (p x || q x)%bool) l = (existsb p l || existsb q l)%bool.
Proof.
  induction l as [|x l IH]; simpl; [reflexivity|].
  rewrite IH. destruct (p x), (q x), (existsb p l); reflexivity.
Qed.

Lemma existsb_andb_l {A} (f g : A -> bool) (l : list A) :
  existsb f l = false -> existsb (fun x => (f x && g x)%bool) l = false.
Proof.
  induction l as [|x l IH]; simpl; [reflexivity|].
  destruct (f x); simpl; [discriminate | exact IH].
Qed.

Lemma existsb_map {A B} (f : A -> B) (p : B -> bool) (l : list A) :
  existsb p (map f l) = existsb (fun x => p (f x)) l.
Proof.
  induction l as [|x l IH]; simpl; [reflexivity | rewrite IH; reflexivity].
Qed.

(* ===================================================================== *)
(** ** Reassignment history *)
(* ===================================================================== *)

Module HistoryFacts.

Import CheckAssignments Vocabulary.

Lemma decide_existsb (appId : Z) (events : list AssignmentEvent) (who : string) :
  decide appId events who = existsb (bars appId who) events.
Proof.
  unfold decide.
  rewrite filter_empty_existsb, !filter_nonempty_existsb, !existsb_filter.
  destruct (existsb (fun e => lowerIs (assignee e) who) events) eqn:Hany; simpl.
  - rewrite <- existsb_orb. apply existsb_ext_in. intros e _. unfold bars.
    destruct (lowerIs (assignee e) who), (String.eqb (event e) "unassigned");
      reflexivity.
  - symmetry. unfold bars. apply existsb_andb_l. exact Hany.
Qed.

Lemma bars_raw (appId : Z) (who : string) (e : TimelineEvent) :
  (isAssignmentKind (te_event e) && bars appId who (toAssignmentEvent e))%bool = true
  <-> Bars appId who e.
Proof.
  unfold Bars, bars, toAssignmentEvent, lowerIs, idIs.
  destruct (te_actor e) as [a|], (te_assignee e) as [u|];
    destruct (isAssignmentKind (te_event e)) eqn:K; simpl;
    try (split; [discriminate | intros (a' & u' & _ & Ha & Hu & _); discriminate]).
  - split.
    + intros H. apply andb_prop in H as [Hu H]. apply andb_prop in H as [Hk H].
      apply String.eqb_eq in Hu, Hk. exists a, u. repeat split; try assumption.
      destruct (Z.eqb_spec (id a) appId) as [E|E]; [left; exact E|].
      right. simpl in H. rewrite andb_true_r in H.
      split; [|exact E]. intros Heq. apply String.eqb_eq in Heq.
      rewrite Heq in H. discriminate.
    + intros (a' & u' & Hk & Ha & Hu & Hw & Hact).
      injection Ha as <-. injection Hu as <-.
      apply String.eqb_eq in Hw, Hk. rewrite Hw, Hk. simpl.
      destruct Hact as [E | [Hn E]].
      * apply Z.eqb_eq in E. rewrite E. reflexivity.
      * apply Z.eqb_neq in E. rewrite E. simpl. rewrite andb_true_r.
        destruct (String.eqb_spec (Js.toLowerCase (login a)) who); [contradiction | reflexivity].
  - split.
    + discriminate.
    + intros (a' & u' & Hk & _). unfold isAssignmentKind in K. rewrite Hk in K. discriminate.
Qed.

(** What [hasUserBeenUnassigned] computes once both awaits have resolved. *)
Lemma hasUserBeenUnassigned_outcome (ctx : Context) (appId : Z) (data : list TimelineEvent) :
  getAppId ctx = Ok appId ->
  rest_issues_listEventsForTimeline (octokit ctx) false
    (repo_owner_login (repository (payload ctx))) (repo_name (repository (payload ctx)))
    (issue_number (issue (payload ctx))) = Resolved data ->
  outcome (hasUserBeenUnassigned ctx) =
  Ok (existsb (fun e => (isAssignmentKind (te_event e)
                         && bars appId (senderLogin ctx) (toAssignmentEvent e))%bool) data).
Proof.
  intros Happ Htl.
  unfold hasUserBeenUnassigned, getAssignmentEvents, rethrow, lift, call.
  rewrite Happ, Htl. simpl. f_equal.
  rewrite decide_existsb, (existsb_perm _ _ _ (sortBy_perm byCreatedAt _)).
  rewrite existsb_map, existsb_filter. reflexivity.
Qed.

End HistoryFacts.

(* ===================================================================== *)
(** ** Reasoning about runs *)
(* ===================================================================== *)

Section RunFacts.
Context {A B : Type}.

Lemma outcome_bind (m : M A) (k : A -> M B) :
  outcome (bind m k) =
  match outcome m with Ok a => outcome (k a) | Err e => Err e end.
Proof. rewrite bind_trace_outcome. destruct (outcome m); reflexivity. Qed.

Lemma trace_bind (m : M A) (k : A -> M B) :
  trace (bind m k) =
  match outcome m with Ok a => trace m ++ trace (k a) | Err _ => trace m end.
Proof. rewrite bind_trace_outcome. destruct (outcome m); reflexivity. Qed.

Lemma outcome_try_catch (m : M A) (h : Thrown -> M A) :
  outcome (try_catch m h) =
  match outcome m with Ok a => Ok a | Err e => outcome (h e) end.
Proof. destruct m as [t [a|e]]; simpl; [reflexivity | destruct (h e); reflexivity]. Qed.

Lemma trace_try_catch (m : M A) (h : Thrown -> M A) :
  trace (try_catch m h) =
  match outcome m with Ok _ => trace m | Err e => trace m ++ trace (h e) end.
Proof. destruct m as [t [a|e]]; simpl; [reflexivity | destruct (h e); reflexivity]. Qed.
End RunFacts.

Section OnlyFacts.
Variable P : Call -> Prop.

Lemma Only_ret {A} (a : A) : Only P (ret a).
Proof. constructor. Qed.

Lemma Only_throw {A} (e : Thrown) : Only P (@throw A e).
Proof. constructor. Qed.

Lemma Only_lift {A} (r : Res A) : Only P (lift r).
Proof. constructor. Qed.

Lemma Only_call {A} (c : Call) (r : Answer A) : P c -> Only P (call c r).
Proof. intros H. unfold Only. simpl. auto. Qed.

Lemma Only_bind {A B} (m : M A) (k : A -> M B) :
  Only P m -> (forall a, outcome m = Ok a -> Only P (k a)) -> Only P (bind m k).
Proof.
  unfold Only. intros Hm Hk. rewrite trace_bind.
  destruct (outcome m) as [a|e] eqn:E; [|exact Hm].
  apply Forall_app. split; [exact Hm | apply Hk; reflexivity].
Qed.

Lemma Only_try_catch {A} (m : M A) (h : Thrown -> M A) :
  Only P m -> (forall e, Only P (h e)) -> Only P (try_catch m h).
Proof.
  unfold Only. intros Hm Hh. rewrite trace_try_catch.
  destruct (outcome m) as [a|e]; [exact Hm|].
  apply Forall_app. split; [exact Hm | apply Hh].
Qed.

Lemma Only_rethrow {A} (msg : string) (m : M A) : Only P m -> Only P (rethrow msg m).
Proof. intros H. apply Only_try_catch; [exact H | intros; apply Only_throw]. Qed.

Lemma Only_forOf {A S} (xs : list A) (body : A -> S -> M S) (acc : S) :
  (forall x s, In x xs -> Only P (body x s)) -> Only P (forOf xs body acc).
Proof.
  revert acc. induction xs as [|x xs IH]; intros acc H; simpl.
  - apply Only_ret.
  - apply Only_bind; [apply H; left; reflexivity|].
    intros a _. apply IH. intros y s Hy. apply H. right. exact Hy.
Qed.
End OnlyFacts.

Create HintDb only.
#[local] Hint Resolve Only_ret Only_throw Only_lift Only_rethrow : only.

(** Loops: the outcome over [l1 ++ l2] is the outcome over [l2] started from
    the result of [l1]. *)
Lemma forOf_app {A S} (l1 l2 : list A) (body : A -> S -> M S) (acc : S) :
  forOf (l1 ++ l2) body acc = bind (forOf l1 body acc) (forOf l2 body).
Proof.
  revert acc. induction l1 as [|x l1 IH]; intros acc; simpl.
  - destruct (forOf l2 body acc). reflexivity.
  - destruct (body x acc) as [t [a|e]]; simpl; [|reflexivity].
    rewrite IH. destruct (forOf l1 body a) as [t1 [a1|e1]]; simpl.
    + destruct (forOf l2 body a1). rewrite app_assoc. reflexivity.
    + reflexivity.
Qed.

(* ===================================================================== *)
(** ** Properties of the reassignment-history check *)
(* ===================================================================== *)

Module HistoryProperties.

Import CheckAssignments HistoryFacts Fixtures Vocabulary.

(** C5 fails for a named teammate, and for a contributor whose identifier is
    the application's. With Alice commenting and Bob named, the timeline
    holds Bob's removal by Carol, and the check answers "not barred". And
    Alice, whose identifier is that of the application, is barred by her own
    stepping down. *)
Lemma history_check_not_per_contributor :
  ~ BarredIffRemoved ctxBobRemoved 99 bobRemovedByCarol "bob" /\
  ~ BarredIffRemoved ctxSelfIsApp 1 aliceSteppedDown "alice".
Proof.
  split; intros H.
  - destruct (H eq_refl eq_refl) as (barred & Hout & Hiff & Hself).
    { exists (ev "assigned" bob bob 10), bob. repeat split. left. reflexivity. }
    assert (barred = false) by (vm_compute in Hout; congruence). subst barred.
    assert (Hex : exists e, In e bobRemovedByCarol /\ Bars 99 (Js.toLowerCase "bob") e).
    { exists (ev "unassigned" carol bob 20). split; [right; left; reflexivity|].
      exists carol, bob. repeat split; try reflexivity. right. split; discriminate. }
    apply Hiff in Hex. discriminate.
  - destruct (H eq_refl eq_refl) as (barred & Hout & Hiff & Hself).
    { exists (ev "assigned" alice alice 10), alice. repeat split. left. reflexivity. }
    assert (barred = true) by (vm_compute in Hout; congruence). subst barred.
    assert (Hf : true = false); [|discriminate].
    apply Hself. intros e a u [<- | [<- | []]] Hk Ha Hu Hw; simpl in *; try discriminate.
    injection Ha as <-. reflexivity.
Qed.

(** C5, amended. The history check, for the contributor it examines (the
    lower-cased login [senderLogin] of the comment's author, by which it
    filters the timeline the request returns), answers "barred" exactly when
    some unassignment of that contributor was performed by an actor whose
    id is the application id, or by an actor who is neither the contributor
    nor the application. A contributor all of whose unassignments were
    performed by themselves, acting under an id that is not the
    application's, is not barred. *)
Theorem history_barred_iff (ctx : Context) (appId : Z) (data : list TimelineEvent) :
  getAppId ctx = Ok appId ->
  rest_issues_listEventsForTimeline (octokit ctx) false
    (repo_owner_login (repository (payload ctx))) (repo_name (repository (payload ctx)))
    (issue_number (issue (payload ctx))) = Resolved data ->
  exists barred,
    outcome (hasUserBeenUnassigned ctx) = Ok barred /\
    (barred = true <-> exists e, In e data /\ Bars appId (senderLogin ctx) e) /\
    ((forall e a u,
         In e data -> te_event e = "unassigned" ->
         te_actor e = Some a -> te_assignee e = Some u ->
         Js.toLowerCase (login u) = senderLogin ctx ->
         Js.toLowerCase (login a) = senderLogin ctx /\ id a <> appId) ->
     barred = false).
Proof.
  intros Happ Htl.
  rewrite (hasUserBeenUnassigned_outcome ctx appId data Happ Htl).
  eexists. split; [reflexivity|].
  assert (Hiff : existsb (fun e => (isAssignmentKind (te_event e)
                   && bars appId (senderLogin ctx) (toAssignmentEvent e))%bool) data = true
                 <-> exists e, In e data /\ Bars appId (senderLogin ctx) e).
  { rewrite existsb_exists. split; intros (e & Hin & H); exists e; split; trivial;
      apply bars_raw; exact H. }
  split; [exact Hiff|].
  intros Hself.
  destruct (existsb _ data) eqn:E; [|reflexivity].
  destruct (proj1 Hiff eq_refl) as (e & Hin & a & u & Hk & Ha & Hu & Hw & Hact).
  destruct (Hself e a u Hin Hk Ha Hu Hw) as [Hsame Hid].
  destruct Hact as [Hbot | [Hother _]]; contradiction.
Qed.

Lemma history_barred_iff_witness :
  exists barred,
    outcome (hasUserBeenUnassigned ctxSteppedDown) = Ok barred /\
    (barred = true <-> exists e, In e aliceSteppedDown /\ Bars 99 "alice" e) /\
    ((forall e a u,
         In e aliceSteppedDown -> te_event e = "unassigned" ->
         te_actor e = Some a -> te_assignee e = Some u ->
         Js.toLowerCase (login u) = "alice" ->
         Js.toLowerCase (login a) = "alice" /\ id a <> 99) ->
     barred = false).
Proof.
  apply (history_barred_iff ctxSteppedDown 99 aliceSteppedDown); reflexivity.
Defined.

(** The verdict does not depend on the order in which the platform lists the
    timeline. *)
Lemma decide_order_irrelevant (appId : Z) (who : string) (l l' : list AssignmentEvent) :
  Permutation l l' -> decide appId l who = decide appId l' who.
Proof. intros H. rewrite !decide_existsb. apply existsb_perm. exact H. Qed.

(** Boundary of the last clause of C5: the actor is compared with the
    application by id only, so a self-removal by an account whose id equals the
    application id is read as a removal by the application. *)
Example self_removal_under_application_id :
  decide 1 (map toAssignmentEvent aliceSteppedDown) "alice" = true.
Proof. reflexivity. Qed.

(** C1. [handleTaskLimitChecks] asks the history check about [username], but
    the check filters the timeline by the login of the comment's author.
    With Alice commenting and Bob named as teammate: Bob, whom Carol removed
    from the task, is not found barred; and when it is Alice whom the
    application removed, Bob is rejected although no timeline entry
    concerns him. *)
Theorem history_check_ignores_contributor :
  (exists e, In e bobRemovedByCarol /\ Bars 99 "bob" e) /\
  outcome (Start.handleTaskLimitChecks "bob" ctxBobRemoved "alice") = Ok true /\
  (forall e, In e aliceRemovedByBot -> ~ Bars 99 "bob" e) /\
  outcome (Start.handleTaskLimitChecks "bob" ctxAliceRemoved "alice")
  = Err (LogErr (Start.msgPreviouslyUnassigned "bob")).
Proof.
  split; [|split; [reflexivity | split; [|reflexivity]]].
  - exists (ev "unassigned" carol bob 20). split; [right; left; reflexivity|].
    exists carol, bob. repeat split; try reflexivity.
    right. split; discriminate.
  - intros e [<- | [<- | []]] (a & u & Hk & Ha & Hu & Hw & _);
      simpl in *; try discriminate.
    injection Hu as <-. discriminate.
Qed.

End HistoryProperties.

(* ===================================================================== *)
(** ** Properties of the task-limit check *)
(* ===================================================================== *)

Module LimitProperties.

Import CheckAssignments IssueUtils Start Fixtures Vocabulary.

(** What is left of [handleTaskLimitChecks] once its three reads resolved. *)
Lemma handleTaskLimitChecks_outcome (ctx : Context) (username sender : string)
  (approved changes assignedIssues : list SearchItem) (role : string) (limit : Z) :
  outcome (getAvailableOpenedPullRequests ctx username) = Ok (approved, changes) ->
  outcome (getAssignedIssues ctx username) = Ok assignedIssues ->
  getUserRoleAndTaskLimit (ext ctx) username = Resolved (role, limit) ->
  outcome (handleTaskLimitChecks username ctx sender) =
  if limit <=? Z.abs (adjustedAssignedIssues assignedIssues approved changes)
  then Ok false
  else match outcome (hasUserBeenUnassigned ctx) with
       | Ok true => Err (LogErr (msgPreviouslyUnassigned username))
       | Ok false => Ok true
       | Err e => Err e
       end.
Proof.
  intros Hpr Hiss Hlim. unfold handleTaskLimitChecks.
  rewrite outcome_bind, Hpr, outcome_bind, Hiss, outcome_bind.
  unfold call at 1. rewrite Hlim. cbn [outcome snd].
  destruct (limit <=? _); [reflexivity|].
  rewrite outcome_bind. destruct (outcome (hasUserBeenUnassigned ctx)) as [[|]|e]; reflexivity.
Qed.

(** C3. Once the counts and the limit have been read, the task-limit check
    turns the contributor down (returns [false]) exactly when the absolute
    value of [assigned - approved + changes] reaches the limit, the three
    numbers being those of the open issues assigned to the contributor, of
    the contributor's open pull requests counted as approved and of those
    counted as changes requested; below the limit the contributor goes on to
    the history check and, unless barred, is accepted. At an absolute value
    equal to the limit the contributor is turned down, at [limit - 1] not. *)
Theorem task_limit_abs_strict (ctx : Context) (username sender : string)
  (approved changes assignedIssues : list SearchItem) (role : string) (limit : Z) :
  outcome (getAvailableOpenedPullRequests ctx username) = Ok (approved, changes) ->
  outcome (getAssignedIssues ctx username) = Ok assignedIssues ->
  getUserRoleAndTaskLimit (ext ctx) username = Resolved (role, limit) ->
  let count := Z.of_nat (List.length assignedIssues) - Z.of_nat (List.length approved)
               + Z.of_nat (List.length changes) in
  (outcome (handleTaskLimitChecks username ctx sender) <> Ok false <-> Z.abs count < limit) /\
  (Z.abs count < limit ->
   outcome (hasUserBeenUnassigned ctx) = Ok false ->
   outcome (handleTaskLimitChecks username ctx sender) = Ok true) /\
  (Z.abs count = limit ->
   outcome (handleTaskLimitChecks username ctx sender) = Ok false) /\
  (Z.abs count = limit - 1 ->
   outcome (handleTaskLimitChecks username ctx sender) <> Ok false).
Proof.
  intros Hpr Hiss Hlim count.
  rewrite (handleTaskLimitChecks_outcome ctx username sender _ _ _ role limit Hpr Hiss Hlim).
  change (adjustedAssignedIssues assignedIssues approved changes) with count.
  destruct (Z.leb_spec limit (Z.abs count)) as [Hle|Hlt].
  - repeat split; try lia. intros H. exfalso. apply H. reflexivity.
  - assert (Hne : match outcome (hasUserBeenUnassigned ctx) with
                  | Ok true => Err (LogErr (msgPreviouslyUnassigned username))
                  | Ok false => Ok true
                  | Err e => Err e
                  end <> Ok false).
    { destruct (outcome (hasUserBeenUnassigned ctx)) as [[|]|e]; discriminate. }
    repeat split; try lia; auto.
    intros _ Hh. rewrite Hh. reflexivity.
Qed.

(** Three tasks, one approved pull request and two with changes requested
    count 3 - 1 + 2 = 4: under a limit of five Bob is not turned down. *)
Lemma task_limit_abs_strict_witness :
  (outcome (handleTaskLimitChecks "bob" (ctxMixed 5) "alice") <> Ok false
   <-> Z.abs (3 - 1 + 2) < 5) /\
  (Z.abs (3 - 1 + 2) < 5 ->
   outcome (hasUserBeenUnassigned (ctxMixed 5)) = Ok false ->
   outcome (handleTaskLimitChecks "bob" (ctxMixed 5) "alice") = Ok true) /\
  (Z.abs (3 - 1 + 2) = 5 ->
   outcome (handleTaskLimitChecks "bob" (ctxMixed 5) "alice") = Ok false) /\
  (Z.abs (3 - 1 + 2) = 5 - 1 ->
   outcome (handleTaskLimitChecks "bob" (ctxMixed 5) "alice") <> Ok false).
Proof.
  apply (task_limit_abs_strict (ctxMixed 5) "bob" "alice"
           [pr 1 4000] [pr 2 4000; pr 3 4000] [task 11; task 12; task 13] "contributor" 5);
    reflexivity.
Defined.

(** The same contributor under a limit of four is turned down, and so is one
    with no task and one approved pull request under a limit of one: the
    count is -1, and it is its absolute value that is compared. *)
Example task_limit_examples :
  outcome (handleTaskLimitChecks "bob" (ctxMixed 4) "alice") = Ok false /\
  outcome (handleTaskLimitChecks "bob" (ctxMixed 5) "alice") = Ok true /\
  outcome (getAvailableOpenedPullRequests ctxOneApproval "carol") = Ok ([pr 1 4000], []) /\
  outcome (getAssignedIssues ctxOneApproval "carol") = Ok [] /\
  outcome (handleTaskLimitChecks "carol" ctxOneApproval "alice") = Ok false.
Proof. repeat split; reflexivity. Qed.

End LimitProperties.

(* ===================================================================== *)
(** ** Properties of the pull-request classification *)
(* ===================================================================== *)

Module ReviewProperties.

Import IssueUtils Fixtures Vocabulary.

Lemma extend_nil_r {X Y} (b : list X * list Y) : extend b ([], []) = b.
Proof. destruct b. unfold extend. simpl. rewrite !app_nil_r. reflexivity. Qed.

Lemma extend_assoc {X Y} (a b c : list X * list Y) :
  extend (extend a b) c = extend a (extend b c).
Proof. unfold extend. simpl. rewrite !app_assoc. reflexivity. Qed.

Ltac finish_buckets :=
  unfold extend; simpl; rewrite ?removelast_last, ?app_nil_r; reflexivity.

Lemma lastNode_In (nodes : list ReviewNode) (x : ReviewNode) :
  lastNode nodes = Some x -> In x nodes.
Proof.
  destruct nodes as [|n r]; simpl; [discriminate|].
  intros H. injection H as <-. revert n.
  induction r as [|y r IH]; intros n; [left; reflexivity|].
  change (last (y :: r) n) with (match r with [] => y | _ :: _ => last r n end).
  destruct r as [|z r]; [right; left; reflexivity|].
  destruct (IH n) as [H|H]; [left; exact H | right; right; exact H].
Qed.

(** An iteration only appends to the buckets it receives: the entry it pops
    from [changes] is the one it has just pushed. *)
Lemma classifyPullRequest_extend (ctx : Context) (tol : string) (pr : SearchItem) (b : Buckets) :
  classifyPullRequest ctx tol pr b =
  (trace (classifyPullRequest ctx tol pr ([], [])),
   extendRes b (outcome (classifyPullRequest ctx tol pr ([], [])))).
Proof.
  destruct b as [A C].
  unfold classifyPullRequest, unreviewedTail, getLatestReviewStatus,
    getReviewRequestsTimeline, lift, call.
  destruct (getOwnerRepoFromHtmlUrl (html_url pr)) as [[owner repo]|e]; simpl; [|reflexivity].
  destruct (graphql_pullRequest_reviews (octokit ctx) owner repo (number pr)) as [nodes|];
    simpl; [|reflexivity].
  destruct (lastNode nodes) as [latest|]; simpl.
  - destruct (String.eqb (node_state latest) "APPROVED"
              || negb (existsb (fun review => String.eqb (node_state review) "CHANGES_REQUESTED")
                         nodes))%bool; simpl; [finish_buckets|].
    destruct (String.eqb (node_state latest) "CHANGES_REQUESTED"); simpl; [|finish_buckets].
    destruct (rest_issues_listEventsForTimeline (octokit ctx) true owner repo (number pr))
      as [data|]; simpl;
      destruct (isReviewRequestedAfterChanges _ _); simpl; finish_buckets.
  - destruct (negb (existsb _ nodes)); simpl; [finish_buckets|].
    destruct (getTimeValue ctx tol) as [tv|e]; simpl; [|reflexivity].
    destruct (tv <=? now ctx - created_at pr); simpl; finish_buckets.
Qed.

Lemma classifyLoop_extend (ctx : Context) (tol : string) (prs : list SearchItem) (b : Buckets) :
  outcome (forOf prs (classifyPullRequest ctx tol) b) =
  extendRes b (outcome (forOf prs (classifyPullRequest ctx tol) ([], []))).
Proof.
  revert b. induction prs as [|pr prs IH]; intros b; cbn [forOf].
  - simpl. rewrite extend_nil_r. reflexivity.
  - rewrite !outcome_bind.
    rewrite (classifyPullRequest_extend ctx tol pr b). cbn [outcome snd].
    destruct (outcome (classifyPullRequest ctx tol pr ([], []))) as [d|e];
      cbn [extendRes]; [|reflexivity].
    rewrite (IH (extend b d)), (IH d).
    destruct (outcome (forOf prs (classifyPullRequest ctx tol) ([], []))) as [d'|e'];
      cbn [extendRes]; [rewrite extend_assoc|]; reflexivity.
Qed.

(** One iteration on a pull request whose latest review requested changes. *)
Lemma classify_changes_requested (ctx : Context) (tol : string) (pr : SearchItem)
  (owner repo : string) (nodes : list ReviewNode) (latest : ReviewNode) (t : Millis)
  (data : list TimelineEvent) (A C : list SearchItem) :
  getOwnerRepoFromHtmlUrl (html_url pr) = Ok (owner, repo) ->
  graphql_pullRequest_reviews (octokit ctx) owner repo (number pr) = Resolved nodes ->
  lastNode nodes = Some latest ->
  node_state latest = "CHANGES_REQUESTED" ->
  submittedAt latest = Some t -> t <> 0 ->
  rest_issues_listEventsForTimeline (octokit ctx) true owner repo (number pr) = Resolved data ->
  outcome (classifyPullRequest ctx tol pr (A, C)) =
  Ok (if existsb (fun r => (isReviewRequestKind (te_event r) && (t <? te_created_at r))%bool) data
      then (A ++ [pr], C) else (A, C ++ [pr])).
Proof.
  intros Hurl Hq Hlast Hstate Hsub Ht Htl.
  assert (Hany : existsb (fun review => String.eqb (node_state review) "CHANGES_REQUESTED")
                   nodes = true).
  { apply existsb_exists. exists latest. split; [apply lastNode_In; exact Hlast|].
    rewrite Hstate. reflexivity. }
  unfold classifyPullRequest, unreviewedTail, getLatestReviewStatus,
    getReviewRequestsTimeline, lift, call.
  rewrite Hurl. simpl. rewrite Hq. simpl. rewrite Hlast, Hany. simpl.
  rewrite Hstate. simpl. rewrite Htl. simpl. rewrite Hsub.
  unfold isReviewRequestedAfterChanges.
  destruct (Z.eqb_spec t 0) as [E|_]; [contradiction|].
  rewrite existsb_filter.
  destruct (existsb _ data); simpl; rewrite ?removelast_last; reflexivity.
Qed.

(** C4. Take an open pull request whose latest review (among those the query
    returns) has state "CHANGES_REQUESTED" and a submission instant. If some
    entry of its review-request timeline is strictly later than that instant,
    the pull request is put in [approved] and not in [changes]; if every
    entry is at or before it, the pull request is put in [changes] and not in
    [approved]. The other pull requests contribute as they do on their
    own. *)
Theorem changes_requested_rerequest_override (ctx : Context) (username tol : string)
  (before after : list SearchItem) (pr : SearchItem) (owner repo : string)
  (nodes : list ReviewNode) (latest : ReviewNode) (t : Millis) (data : list TimelineEvent)
  (A1 C1 A2 C2 : list SearchItem) :
  reviewDelayTolerance (config ctx) = Some tol -> Js.truthy tol = true ->
  outcome (getOpenedPullRequestsForUser ctx username) = Ok (before ++ pr :: after) ->
  outcome (forOf before (classifyPullRequest ctx tol) ([], [])) = Ok (A1, C1) ->
  outcome (forOf after (classifyPullRequest ctx tol) ([], [])) = Ok (A2, C2) ->
  getOwnerRepoFromHtmlUrl (html_url pr) = Ok (owner, repo) ->
  graphql_pullRequest_reviews (octokit ctx) owner repo (number pr) = Resolved nodes ->
  lastNode nodes = Some latest ->
  node_state latest = "CHANGES_REQUESTED" ->
  submittedAt latest = Some t -> t <> 0 ->
  rest_issues_listEventsForTimeline (octokit ctx) true owner repo (number pr) = Resolved data ->
  ((exists r, In r data /\ isReviewRequestKind (te_event r) = true /\ t < te_created_at r) ->
   outcome (getAvailableOpenedPullRequests ctx username) = Ok (A1 ++ pr :: A2, C1 ++ C2)) /\
  ((forall r, In r data -> isReviewRequestKind (te_event r) = true -> te_created_at r <= t) ->
   outcome (getAvailableOpenedPullRequests ctx username) = Ok (A1 ++ A2, C1 ++ pr :: C2)).
Proof.
  intros Htol Htruthy Hprs Hbefore Hafter Hurl Hq Hlast Hstate Hsub Ht Htl.
  assert (Hrun : outcome (getAvailableOpenedPullRequests ctx username) =
                 extendRes
                   (if existsb (fun r => (isReviewRequestKind (te_event r)
                                          && (t <? te_created_at r))%bool) data
                    then (A1 ++ [pr], C1) else (A1, C1 ++ [pr]))
                   (Ok (A2, C2))).
  { unfold getAvailableOpenedPullRequests. rewrite Htol, Htruthy. cbn [negb].
    rewrite outcome_bind, Hprs, forOf_app, outcome_bind, Hbefore. cbn [forOf].
    rewrite outcome_bind.
    rewrite (classify_changes_requested ctx tol pr owner repo nodes latest t data A1 C1
               Hurl Hq Hlast Hstate Hsub Ht Htl).
    rewrite classifyLoop_extend, Hafter. reflexivity. }
  split.
  - intros (r & Hin & Hk & Hlater).
    assert (E : existsb (fun r => (isReviewRequestKind (te_event r)
                                   && (t <? te_created_at r))%bool) data = true).
    { apply existsb_exists. exists r. split; [exact Hin|].
      rewrite Hk. simpl. apply Z.ltb_lt. exact Hlater. }
    rewrite Hrun, E. unfold extendRes, extend. simpl. rewrite <- app_assoc. reflexivity.
  - intros Hnone.
    assert (E : existsb (fun r => (isReviewRequestKind (te_event r)
                                   && (t <? te_created_at r))%bool) data = false).
    { destruct (existsb _ data) eqn:E; [|reflexivity].
      apply existsb_exists in E as (r & Hin & H). apply andb_prop in H as [Hk Hl].
      apply Z.ltb_lt in Hl. specialize (Hnone r Hin Hk). lia. }
    rewrite Hrun, E. unfold extendRes, extend. simpl. rewrite <- app_assoc. reflexivity.
Qed.

Lemma changes_requested_rerequest_override_witness :
  ((exists r, In r [reviewRequested 200] /\ isReviewRequestKind (te_event r) = true
              /\ 100 < te_created_at r) ->
   outcome (getAvailableOpenedPullRequests ctxReRequested "alice")
   = Ok ([] ++ pr 1 4000 :: [], [] ++ [])) /\
  ((forall r, In r [reviewRequested 200] -> isReviewRequestKind (te_event r) = true ->
              te_created_at r <= 100) ->
   outcome (getAvailableOpenedPullRequests ctxReRequested "alice")
   = Ok ([] ++ [], [] ++ pr 1 4000 :: [])).
Proof.
  apply (changes_requested_rerequest_override ctxReRequested "alice" "1 Day"
           [] [] (pr 1 4000) "ubiquity" "work"
           [{| node_state := "CHANGES_REQUESTED"; submittedAt := Some 100 |}]
           {| node_state := "CHANGES_REQUESTED"; submittedAt := Some 100 |}
           100 [reviewRequested 200] [] [] [] []);
    try reflexivity.
  discriminate.
Defined.

End ReviewProperties.

(* ===================================================================== *)
(** ** The orchestrator: structure of a run *)
(* ===================================================================== *)

Module StartFacts.

Import CheckAssignments IssueUtils Start Vocabulary.

Ltac only_step :=
  match goal with
  | |- Only _ (ret _) => apply Only_ret
  | |- Only _ (throw _) => apply Only_throw
  | |- Only _ (lift _) => apply Only_lift
  | |- Only _ (call _ _) => apply Only_call
  | |- Only _ (rethrow _ _) => apply Only_rethrow
  | |- Only _ (bind _ _) => apply Only_bind; [|intros ? _]
  | |- Only _ (try_catch _ _) => apply Only_try_catch; [|intros ?]
  | |- Only _ (forOf _ _ _) => apply Only_forOf; intros ? ? _
  | |- Only _ (if ?c then _ else _) => destruct c
  | |- Only _ (match ?x with _ => _ end) => destruct x
  end.

Ltac calls_only := repeat only_step; try reflexivity.

Lemma Only_impl {A} (P Q : Call -> Prop) (m : M A) :
  (forall c, P c -> Q c) -> Only P m -> Only Q m.
Proof. intros H. unfold Only. apply Forall_impl. exact H. Qed.

Lemma getAvailableOpenedPullRequests_limitStage (ctx : Context) (username : string) :
  Only (fun c => inLimitStage c = true) (getAvailableOpenedPullRequests ctx username).
Proof.
  unfold getAvailableOpenedPullRequests, getOpenedPullRequestsForUser,
    getAllPullRequestsWithRetry, getAllPullRequests.
  calls_only.
  unfold classifyPullRequest, unreviewedTail, getLatestReviewStatus, getReviewRequestsTimeline.
  calls_only.
Qed.

Lemma hasUserBeenUnassigned_limitStage (ctx : Context) :
  Only (fun c => inLimitStage c = true) (hasUserBeenUnassigned ctx).
Proof. unfold hasUserBeenUnassigned, getAssignmentEvents. calls_only. Qed.

Lemma handleTaskLimitChecks_limitStage (username : string) (ctx : Context) (sender : string) :
  Only (fun c => inLimitStage c = true) (handleTaskLimitChecks username ctx sender).
Proof.
  unfold handleTaskLimitChecks.
  apply Only_bind; [apply getAvailableOpenedPullRequests_limitStage|]. intros [approved changes] _.
  apply Only_bind; [unfold getAssignedIssues; calls_only|]. intros assigned _.
  apply Only_bind; [calls_only|]. intros [role limit] _.
  destruct (limit <=? _); [calls_only|].
  apply Only_bind; [apply hasUserBeenUnassigned_limitStage|]. intros b _. calls_only.
Qed.

Lemma checkLimits_limitStage (ctx : Context) (sender : string) (l : list string) :
  Only (fun c => inLimitStage c = true) (checkLimits ctx sender l).
Proof.
  unfold checkLimits. apply Only_forOf. intros u acc _.
  apply Only_bind; [apply handleTaskLimitChecks_limitStage | intros; calls_only].
Qed.

(** The loop keeps, in order, the candidates [handleTaskLimitChecks]
    accepted. *)
Lemma checkLimits_loop_inv (ctx : Context) (sender : string) (l acc r : list string) :
  outcome (forOf l (fun user toAssign =>
                      ok <- handleTaskLimitChecks user ctx sender ;;
                      ret (if ok then toAssign ++ [user] else toAssign)) acc) = Ok r ->
  r = acc ++ filter (passes ctx sender) l.
Proof.
  revert acc. induction l as [|u l IH]; intros acc; cbn [forOf filter].
  - simpl. intros H. injection H as <-. rewrite app_nil_r. reflexivity.
  - rewrite !outcome_bind. unfold passes at 1.
    destruct (outcome (handleTaskLimitChecks u ctx sender)) as [[|]|e];
      cbn [outcome ret snd]; intros H; try discriminate;
      apply IH in H; rewrite H, <- ?app_assoc; reflexivity.
Qed.

Lemma checkLimits_loop_ok (ctx : Context) (sender : string) (l acc : list string) :
  (forall u, In u l -> exists b, outcome (handleTaskLimitChecks u ctx sender) = Ok b) ->
  outcome (forOf l (fun user toAssign =>
                      ok <- handleTaskLimitChecks user ctx sender ;;
                      ret (if ok then toAssign ++ [user] else toAssign)) acc)
  = Ok (acc ++ filter (passes ctx sender) l).
Proof.
  revert acc. induction l as [|u l IH]; intros acc Hall; cbn [forOf filter].
  - simpl. rewrite app_nil_r. reflexivity.
  - rewrite !outcome_bind. unfold passes at 1.
    destruct (Hall u (or_introl eq_refl)) as [b Hb]. rewrite Hb. cbn [outcome ret snd].
    rewrite IH by (intros v Hv; apply Hall; right; exact Hv).
    destruct b; rewrite <- ?app_assoc; reflexivity.
Qed.

Lemma checkLimits_inv (ctx : Context) (sender : string) (l r : list string) :
  outcome (checkLimits ctx sender l) = Ok r -> r = filter (passes ctx sender) l.
Proof. apply (checkLimits_loop_inv ctx sender l [] r). Qed.

Lemma checkLimits_ok (ctx : Context) (sender : string) (l : list string) :
  (forall u, In u l -> exists b, outcome (handleTaskLimitChecks u ctx sender) = Ok b) ->
  outcome (checkLimits ctx sender l) = Ok (filter (passes ctx sender) l).
Proof. apply (checkLimits_loop_ok ctx sender l []). Qed.

Lemma bind_ret_l {A B} (a : A) (k : A -> M B) : bind (ret a) k = k a.
Proof. unfold bind, ret. destruct (k a). reflexivity. Qed.

Lemma run_eta {A} (m : M A) : m = (trace m, outcome m).
Proof. destruct m. reflexivity. Qed.

Lemma fetchCommitHash_run (ctx : Context) :
  fetchCommitHash ctx = ([repos_getCommit], Ok (commitHashOf ctx)).
Proof.
  unfold fetchCommitHash, commitHashOf, call.
  destruct (rest_repos_getCommit (octokit ctx)); reflexivity.
Qed.

(** A run of [start], stage by stage. *)
Lemma start_run (ctx : Context) (issue : Issue) (s : User) (tm : list string) :
  start ctx issue (Some s) tm =
  if isParent issue then
    (trace (addCommentToIssue ctx (Some msgParentComment)),
     Err (match outcome (addCommentToIssue ctx (Some msgParentComment)) with
          | Ok _ => LogErr msgParent
          | Err e => e
          end))
  else if String.eqb (issue_state issue) ISSUE_TYPE_CLOSED then
    ([repos_getCommit], Err (LogErr msgClosed))
  else if negb (List.length (assigneesOf issue) =? 0)%nat then
    ([repos_getCommit],
     Err (LogErr (if existsb (assigneeIs (login s)) (assigneesOf issue)
                  then msgSelfAssigned else msgOtherAssigned)))
  else
    match outcome (checkLimits ctx (login s) (candidates tm s)) with
    | Err e => (repos_getCommit :: trace (checkLimits ctx (login s) (candidates tm s)), Err e)
    | Ok toAssign =>
        (repos_getCommit :: trace (checkLimits ctx (login s) (candidates tm s))
           ++ trace (afterLimits ctx issue s (candidates tm s) toAssign (commitHashOf ctx)),
         outcome (afterLimits ctx issue s (candidates tm s) toAssign (commitHashOf ctx)))
    end.
Proof.
  unfold start. destruct (isParent issue).
  - destruct (addCommentToIssue ctx (Some msgParentComment)) as [t [[]|e]]; simpl;
      rewrite ?app_nil_r; reflexivity.
  - rewrite bind_ret_l, fetchCommitHash_run. cbn [bind].
    destruct (String.eqb (issue_state issue) ISSUE_TYPE_CLOSED); [reflexivity|].
    destruct (negb (List.length (assigneesOf issue) =? 0)%nat); [reflexivity|].
    cbv zeta.
    rewrite (run_eta (checkLimits ctx (login s) (candidates tm s))) at 1.
    destruct (outcome (checkLimits ctx (login s) (candidates tm s))) as [toAssign|e];
      cbn [bind]; [|reflexivity].
    destruct (afterLimits ctx issue s (candidates tm s) toAssign (commitHashOf ctx)).
    reflexivity.
Qed.

Section RaisesFacts.
Variable Q : Thrown -> Prop.

Lemma Raises_ret {A} (a : A) : Raises Q (ret a).
Proof. intros e H. discriminate. Qed.

Lemma Raises_throw {A} (e : Thrown) : Q e -> Raises Q (@throw A e).
Proof. intros H e' E. injection E as <-. exact H. Qed.

Lemma Raises_lift {A} (r : Res A) : (forall e, r = Err e -> Q e) -> Raises Q (lift r).
Proof. intros H e E. apply H. exact E. Qed.

Lemma Raises_call {A} (c : Call) (r : Answer A) :
  (forall reason, Q (Foreign reason)) -> Raises Q (call c r).
Proof. intros H e E. destruct r; simpl in E; [discriminate|]. injection E as <-. apply H. Qed.

Lemma Raises_bind {A B} (m : M A) (k : A -> M B) :
  Raises Q m -> (forall a, Raises Q (k a)) -> Raises Q (bind m k).
Proof.
  intros Hm Hk e. rewrite outcome_bind.
  destruct (outcome m) as [a|e'] eqn:E.
  - apply Hk.
  - intros H. injection H as <-. apply Hm. exact E.
Qed.

Lemma Raises_rethrow {A} (msg : string) (m : M A) : Q (JsErr msg) -> Raises Q (rethrow msg m).
Proof.
  intros H e. unfold rethrow. rewrite outcome_try_catch.
  destruct (outcome m); [discriminate|]. intros E. injection E as <-. exact H.
Qed.

Lemma Raises_forOf {A S} (xs : list A) (body : A -> S -> M S) (acc : S) :
  (forall x s, Raises Q (body x s)) -> Raises Q (forOf xs body acc).
Proof.
  intros H. revert acc. induction xs as [|x xs IH]; intros acc; simpl.
  - apply Raises_ret.
  - apply Raises_bind; [apply H | exact IH].
Qed.
End RaisesFacts.

Ltac raises_step :=
  match goal with
  | |- Raises _ (ret _) => apply Raises_ret
  | |- Raises _ (throw _) => apply Raises_throw
  | |- Raises _ (call _ _) => apply Raises_call; intros ?
  | |- Raises _ (rethrow _ _) => apply Raises_rethrow
  | |- Raises _ (bind _ _) => apply Raises_bind; [|intros ?]
  | |- Raises _ (forOf _ _ _) => apply Raises_forOf; intros ? ?
  | |- Raises _ (if ?c then _ else _) => destruct c
  | |- Raises _ (match ?x with _ => _ end) => destruct x
  end.

Ltac raises := repeat raises_step; try reflexivity.

(** [getTimeValue] throws its own error, or what [ms] threw. *)
Lemma getTimeValue_raises (ctx : Context) (t : string) (e : Thrown) :
  getTimeValue ctx t = Err e ->
  match ms (ext ctx) t with
  | Resolved _ => e = JsErr "Invalid config time value"
  | Rejected reason => e = Foreign reason
  end.
Proof.
  unfold getTimeValue. destruct (ms (ext ctx) t) as [[v|]|reason]; [|congruence|congruence].
  destruct ((v =? 0) || (v <=? 0))%bool; congruence.
Qed.

(** What [afterLimits] sends, and what it can throw once somebody is left
    to assign. *)
Lemma afterLimits_calls (ctx : Context) (issue : Issue) (s : User)
  (cands toAssign : list string) (h : option string) :
  Only (fun c => inLimitStage c = false /\
                 (forall n l, c = issues_addAssignees n l ->
                              n = issue_number issue /\ l = toAssign))
    (afterLimits ctx issue s cands toAssign h).
Proof.
  unfold afterLimits, checkCollaborators, commit, fetchUserIds, addAssignees,
    confirmMultiAssignment, addCommentToIssue.
  repeat only_step;
    (split; [reflexivity | intros ? ? H; try discriminate; injection H as ? ?; subst; auto]).
Qed.

Lemma afterLimits_raises (ctx : Context) (issue : Issue) (s : User)
  (cands toAssign : list string) (h : option string) :
  toAssign <> [] ->
  Raises (fun e => isLimitRejection e = false) (afterLimits ctx issue s cands toAssign h).
Proof.
  intros Hne. unfold afterLimits.
  destruct toAssign as [|u r]; [contradiction|]. cbn [List.length Nat.eqb andb].
  unfold checkCollaborators, commit, fetchUserIds, addAssignees,
    confirmMultiAssignment, addCommentToIssue.
  raises.
  apply Raises_lift. intros e E. apply getTimeValue_raises in E.
  destruct (ms (ext ctx) _); subst e; reflexivity.
Qed.

Lemma hasUserBeenUnassigned_trace (ctx : Context) (b : bool) :
  outcome (hasUserBeenUnassigned ctx) = Ok b ->
  trace (hasUserBeenUnassigned ctx) = [historyCheckCall ctx].
Proof.
  unfold hasUserBeenUnassigned, getAssignmentEvents, rethrow, lift, call, historyCheckCall.
  destruct (getAppId ctx) as [appId|e]; simpl; [|discriminate].
  destruct (rest_issues_listEventsForTimeline _ _ _ _ _); simpl; [reflexivity | discriminate].
Qed.

(** An accepted contributor has been through the history check. *)
Lemma handleTaskLimitChecks_accepts (username : string) (ctx : Context) (sender : string) :
  outcome (handleTaskLimitChecks username ctx sender) = Ok true ->
  outcome (hasUserBeenUnassigned ctx) = Ok false /\
  In (historyCheckCall ctx) (trace (handleTaskLimitChecks username ctx sender)).
Proof.
  unfold handleTaskLimitChecks.
  rewrite !outcome_bind, !trace_bind.
  destruct (outcome (getAvailableOpenedPullRequests ctx username)) as [[approved changes]|e];
    [|discriminate].
  rewrite !outcome_bind, !trace_bind.
  destruct (outcome (getAssignedIssues ctx username)) as [assigned|e]; [|discriminate].
  rewrite !outcome_bind, !trace_bind.
  destruct (outcome (call (ext_getUserRoleAndTaskLimit username)
                       (getUserRoleAndTaskLimit (ext ctx) username))) as [[role limit]|e];
    [|discriminate].
  destruct (limit <=? _); [discriminate|].
  rewrite !outcome_bind, !trace_bind.
  destruct (outcome (hasUserBeenUnassigned ctx)) as [[|]|e] eqn:E; try discriminate.
  intros _. split; [reflexivity|].
  rewrite (hasUserBeenUnassigned_trace ctx false E).
  rewrite !in_app_iff. right. right. right. left. left. reflexivity.
Qed.

End StartFacts.

(* ===================================================================== *)
(** ** Properties of the orchestrator *)
(* ===================================================================== *)

Module StartProperties.

Import CheckAssignments IssueUtils Start StartFacts Fixtures MoreFixtures Vocabulary.

Lemma find_none_iff {A} (f : A -> bool) (l : list A) :
  (forall x, In x l -> f x = false) -> find f l = None.
Proof.
  induction l as [|x l IH]; intros H; simpl; [reflexivity|].
  rewrite (H x (or_introl eq_refl)). apply IH. intros y Hy. apply H. right. exact Hy.
Qed.

Lemma parentComment_run (ctx : Context) :
  addCommentToIssue ctx (Some msgParentComment) =
  ([issues_createComment msgParentComment],
   match rest_issues_createComment (octokit ctx) msgParentComment with
   | Resolved _ => Ok tt
   | Rejected _ => Err (JsErr "Adding a comment failed!")
   end).
Proof.
  unfold addCommentToIssue, rethrow, call. simpl.
  destruct (rest_issues_createComment (octokit ctx) msgParentComment) as [[]|]; reflexivity.
Qed.

Lemma existsb_assigneeIs (who : string) (l : list (option User)) :
  existsb (assigneeIs who) l = true <-> exists a, In (Some a) l /\ login a = who.
Proof.
  rewrite existsb_exists. split.
  - intros ([a|] & Hin & H); simpl in H; [|discriminate].
    exists a. split; [exact Hin | apply String.eqb_eq; exact H].
  - intros (a & Hin & H). exists (Some a). split; [exact Hin|].
    simpl. apply String.eqb_eq. exact H.
Qed.

(** C8. A request on an issue that already has an assignee is rejected,
    whatever else holds, and nobody is assigned. When the request reaches
    the assignment test (there is a sender, the issue is neither a parent
    issue nor closed), the reason is "You are already assigned to this
    task." if the sender is one of the assignees and "This issue is already
    assigned. Please choose another unassigned task." otherwise. *)
Theorem already_assigned_rejected (ctx : Context) (issue : Issue) (sender : option User)
  (tm : list string) (l : list (option User)) :
  issue_assignees issue = Some l -> l <> [] ->
  (exists e, outcome (start ctx issue sender tm) = Err e) /\
  Only (fun c => forall n a, c <> issues_addAssignees n a) (start ctx issue sender tm) /\
  (forall s, sender = Some s -> isParent issue = false ->
             issue_state issue <> ISSUE_TYPE_CLOSED ->
     ((exists a, In (Some a) l /\ login a = login s) ->
      outcome (start ctx issue sender tm) = Err (LogErr msgSelfAssigned)) /\
     ((forall a, In (Some a) l -> login a <> login s) ->
      outcome (start ctx issue sender tm) = Err (LogErr msgOtherAssigned))).
Proof.
  intros Hl Hne.
  assert (Hassigned : negb (List.length (assigneesOf issue) =? 0)%nat = true).
  { unfold assigneesOf. rewrite Hl. destruct l; [contradiction | reflexivity]. }
  assert (Hof : assigneesOf issue = l) by (unfold assigneesOf; rewrite Hl; reflexivity).
  destruct sender as [s|].
  - rewrite start_run, Hassigned, Hof.
    split; [|split].
    + destruct (isParent issue); [eexists; reflexivity|].
      destruct (String.eqb _ _); eexists; reflexivity.
    + unfold Only.
      destruct (isParent issue).
      * rewrite parentComment_run. cbn [trace fst]. repeat constructor. discriminate.
      * destruct (String.eqb _ _); cbn [trace fst]; repeat constructor; discriminate.
    + intros s' Hs Hpar Hopen. injection Hs as <-. rewrite Hpar.
      destruct (String.eqb_spec (issue_state issue) ISSUE_TYPE_CLOSED) as [E|_];
        [contradiction|].
      cbn [outcome snd]. split.
      * intros H. apply existsb_assigneeIs in H. rewrite H. reflexivity.
      * intros H. destruct (existsb (assigneeIs (login s)) l) eqn:E; [|reflexivity].
        apply existsb_assigneeIs in E as (a & Hin & Ha). exfalso. exact (H a Hin Ha).
  - split; [|split].
    + eexists; reflexivity.
    + constructor.
    + intros s Hs. discriminate.
Qed.

Lemma already_assigned_rejected_witness :
  (exists e, outcome (start ctxQuiet (mkIssue [Some bob] [priceLabel]) (Some alice) []) = Err e) /\
  Only (fun c => forall n a, c <> issues_addAssignees n a)
    (start ctxQuiet (mkIssue [Some bob] [priceLabel]) (Some alice) []) /\
  (forall s, Some alice = Some s -> isParent (mkIssue [Some bob] [priceLabel]) = false ->
             issue_state (mkIssue [Some bob] [priceLabel]) <> ISSUE_TYPE_CLOSED ->
     ((exists a, In (Some a) [Some bob] /\ login a = login s) ->
      outcome (start ctxQuiet (mkIssue [Some bob] [priceLabel]) (Some alice) [])
      = Err (LogErr msgSelfAssigned)) /\
     ((forall a, In (Some a) [Some bob] -> login a <> login s) ->
      outcome (start ctxQuiet (mkIssue [Some bob] [priceLabel]) (Some alice) [])
      = Err (LogErr msgOtherAssigned))).
Proof.
  apply (already_assigned_rejected ctxQuiet (mkIssue [Some bob] [priceLabel]) (Some alice) []
           [Some bob]); [reflexivity | discriminate].
Defined.

Lemma afterLimits_no_price (ctx : Context) (issue : Issue) (s : User)
  (cands toAssign : list string) (h : option string) :
  find isPriceLabel (labelsOf issue) = None ->
  afterLimits ctx issue s cands toAssign h = ([], Err (LogErr msgAllTeammatesLimit)) \/
  afterLimits ctx issue s cands toAssign h = ([], Err (LogErr msgSelfLimit)) \/
  (toAssign <> [] /\
   afterLimits ctx issue s cands toAssign h = ([], Err (LogErr msgNoPriceLabel))).
Proof.
  intros Hnone. unfold afterLimits. rewrite Hnone.
  destruct toAssign as [|u r]; simpl.
  - destruct (1 <? List.length cands)%nat; auto.
  - right. right. split; [discriminate | reflexivity].
Qed.

Lemma limitStage_not_write (c : Call) : inLimitStage c = true -> isWrite c = false.
Proof. destruct c; simpl; congruence. Qed.

(** C9. On an issue without a label whose name starts with "Price: " the
    request is always rejected; nobody is assigned and the only comment that
    can have been posted is the notice on parent issues. When the rejection
    is the one for the missing price label, no comment and no assignee
    update has been sent at all. *)
Theorem no_price_label_rejected (ctx : Context) (issue : Issue) (sender : option User)
  (tm : list string) :
  (forall lb, In lb (labelsOf issue) -> Js.startsWith (label_name lb) "Price: " = false) ->
  (exists e, outcome (start ctx issue sender tm) = Err e) /\
  Only (fun c => (forall n a, c <> issues_addAssignees n a) /\
                 (forall b, c = issues_createComment b -> b = msgParentComment))
    (start ctx issue sender tm) /\
  (outcome (start ctx issue sender tm) = Err (LogErr msgNoPriceLabel) ->
   Only (fun c => isWrite c = false) (start ctx issue sender tm)).
Proof.
  intros Hlabels.
  assert (Hnone : find isPriceLabel (labelsOf issue) = None)
    by (apply find_none_iff; exact Hlabels).
  destruct sender as [s|];
    [|split; [eexists; reflexivity | split; [constructor | intros _; constructor]]].
  rewrite start_run.
  destruct (isParent issue).
  { rewrite parentComment_run. cbn [trace outcome fst snd]. split; [eexists; reflexivity|].
    split.
    - repeat constructor; [discriminate | intros b H; injection H as <-; reflexivity].
    - destruct (rest_issues_createComment (octokit ctx) msgParentComment); discriminate. }
  destruct (String.eqb (issue_state issue) ISSUE_TYPE_CLOSED).
  { split; [eexists; reflexivity|]. split; [|discriminate].
    repeat constructor; discriminate. }
  destruct (negb (List.length (assigneesOf issue) =? 0)%nat).
  { split; [eexists; reflexivity|]. split.
    - repeat constructor; discriminate.
    - intros _. repeat constructor. }
  pose proof (checkLimits_limitStage ctx (login s) (candidates tm s)) as Hstage.
  assert (Hread : Forall (fun c => isWrite c = false)
                    (trace (checkLimits ctx (login s) (candidates tm s)))).
  { revert Hstage. apply Forall_impl. exact limitStage_not_write. }
  assert (Hquiet : Forall (fun c => (forall n a, c <> issues_addAssignees n a) /\
                                    (forall b, c = issues_createComment b -> b = msgParentComment))
                     (trace (checkLimits ctx (login s) (candidates tm s)))).
  { revert Hstage. apply Forall_impl. intros c Hc.
    split; [intros n a H | intros b H]; subst c; discriminate. }
  destruct (outcome (checkLimits ctx (login s) (candidates tm s))) as [toAssign|e].
  - destruct (afterLimits_no_price ctx issue s (candidates tm s) toAssign (commitHashOf ctx) Hnone)
      as [E | [E | [_ E]]]; rewrite E; cbn [trace outcome fst snd]; rewrite app_nil_r;
      (split; [eexists; reflexivity|]); (split; [|intros _]); unfold Only; cbn [trace fst];
      constructor; try assumption; try discriminate;
      split; intros; discriminate.
  - split; [eexists; reflexivity|]. split; [|intros _]; unfold Only; cbn [trace fst];
      constructor; try assumption; try discriminate; split; intros; discriminate.
Qed.

Lemma no_price_label_rejected_witness :
  (exists e, outcome (start ctxNoPrice (mkIssue [] []) (Some alice) ["bob"]) = Err e) /\
  Only (fun c => (forall n a, c <> issues_addAssignees n a) /\
                 (forall b, c = issues_createComment b -> b = msgParentComment))
    (start ctxNoPrice (mkIssue [] []) (Some alice) ["bob"]) /\
  (outcome (start ctxNoPrice (mkIssue [] []) (Some alice) ["bob"])
   = Err (LogErr msgNoPriceLabel) ->
   Only (fun c => isWrite c = false) (start ctxNoPrice (mkIssue [] []) (Some alice) ["bob"])).
Proof.
  apply (no_price_label_rejected ctxNoPrice (mkIssue [] []) (Some alice) ["bob"]).
  intros lb H. simpl in H. contradiction.
Defined.

(** On an open, unassigned issue without labels the run ends on the missing
    price label. *)
Example no_price_label_run :
  outcome (start ctxNoPrice (mkIssue [] []) (Some alice) ["bob"])
  = Err (LogErr msgNoPriceLabel).
Proof. reflexivity. Qed.

(** Every assignee update of a run carries the candidates that
    [handleTaskLimitChecks] accepted, as they stand in the candidate list. *)
Lemma start_assignee_write (ctx : Context) (issue : Issue) (s : User) (tm : list string)
  (n : Z) (l : list string) :
  In (issues_addAssignees n l) (trace (start ctx issue (Some s) tm)) ->
  n = issue_number issue /\ l = filter (passes ctx (login s)) (candidates tm s).
Proof.
  rewrite start_run.
  destruct (isParent issue).
  { rewrite parentComment_run. cbn [trace fst]. intros [H|[]]. discriminate. }
  destruct (String.eqb (issue_state issue) ISSUE_TYPE_CLOSED).
  { cbn [trace fst]. intros [H|[]]. discriminate. }
  destruct (negb (List.length (assigneesOf issue) =? 0)%nat).
  { cbn [trace fst]. intros [H|[]]. discriminate. }
  pose proof (checkLimits_limitStage ctx (login s) (candidates tm s)) as Hstage.
  unfold Only in Hstage. rewrite Forall_forall in Hstage.
  destruct (outcome (checkLimits ctx (login s) (candidates tm s))) as [toAssign|e] eqn:E;
    cbn [trace fst].
  - intros [H|H]; [discriminate|]. apply in_app_or in H as [H|H].
    + apply Hstage in H. discriminate.
    + pose proof (afterLimits_calls ctx issue s (candidates tm s) toAssign (commitHashOf ctx))
        as Hafter.
      unfold Only in Hafter. rewrite Forall_forall in Hafter.
      destruct (Hafter _ H) as [_ Hw]. destruct (Hw n l eq_refl) as [-> ->].
      split; [reflexivity | apply checkLimits_inv; exact E].
  - intros [H|H]; [discriminate|]. apply Hstage in H. discriminate.
Qed.

(** C6 fails when the sender names themselves: the candidate list and the
    assignee update both hold "alice" twice. *)
Lemma candidates_not_deduplicated :
  ~ NoDup (candidates ["alice"] alice) /\
  In (issues_addAssignees 7 ["alice"; "alice"])
    (trace (start ctxOpen (mkIssue [] [priceLabel]) (Some alice) ["alice"])) /\
  ~ Deduplicated ctxOpen (mkIssue [] [priceLabel]) alice ["alice"].
Proof.
  assert (Hdup : ~ NoDup ["alice"; "alice"]).
  { intros H. inversion H as [|x l Hnot _]. apply Hnot. left. reflexivity. }
  split; [exact Hdup|]. split.
  - vm_compute. tauto.
  - intros [H _]. exact (Hdup H).
Qed.

(** C6, amended. The candidates are the named teammates, in the order and
    with the multiplicity they were named, followed by the sender: the sender
    is always among them, and nothing is removed. Every assignee update
    carries exactly the candidates that the per-contributor check accepted,
    in that order. *)
Theorem candidates_are_teammates_then_sender (ctx : Context) (issue : Issue) (s : User)
  (tm : list string) :
  candidates tm s = tm ++ [login s] /\
  In (login s) (candidates tm s) /\
  (forall u, count_occ string_dec (candidates tm s) u
             = (count_occ string_dec tm u + (if string_dec (login s) u then 1 else 0))%nat) /\
  (forall n l, In (issues_addAssignees n l) (trace (start ctx issue (Some s) tm)) ->
               n = issue_number issue /\
               l = filter (passes ctx (login s)) (candidates tm s)).
Proof.
  split; [reflexivity|]. split; [|split].
  - unfold candidates. apply in_or_app. right. left. reflexivity.
  - intros u. unfold candidates. rewrite count_occ_app. simpl.
    destruct (string_dec (login s) u); reflexivity.
  - intros n l. apply start_assignee_write.
Qed.

(** C7. Suppose the request reaches the limit checks and every candidate's
    check returns. Then [toAssign] is the list of accepted candidates: a
    candidate over the limit is left out and the others stay. If nobody is
    left the request is rejected, with "All teammates have reached their max
    task limit..." when teammates were named and "You have reached your max
    task limit..." when the sender stands alone; if somebody is left, neither
    rejection is produced and any assignee update carries the list. *)
Theorem limit_drops_individually (ctx : Context) (issue : Issue) (s : User) (tm : list string) :
  isParent issue = false ->
  issue_state issue <> ISSUE_TYPE_CLOSED ->
  assigneesOf issue = [] ->
  (forall u, In u (candidates tm s) ->
             exists b, outcome (handleTaskLimitChecks u ctx (login s)) = Ok b) ->
  outcome (checkLimits ctx (login s) (candidates tm s))
  = Ok (filter (passes ctx (login s)) (candidates tm s)) /\
  (forall u, In u (candidates tm s) ->
             outcome (handleTaskLimitChecks u ctx (login s)) = Ok false ->
             ~ In u (filter (passes ctx (login s)) (candidates tm s))) /\
  (forall u, In u (candidates tm s) ->
             outcome (handleTaskLimitChecks u ctx (login s)) = Ok true ->
             In u (filter (passes ctx (login s)) (candidates tm s))) /\
  (filter (passes ctx (login s)) (candidates tm s) = [] -> tm <> [] ->
   outcome (start ctx issue (Some s) tm) = Err (LogErr msgAllTeammatesLimit)) /\
  (filter (passes ctx (login s)) (candidates tm s) = [] -> tm = [] ->
   outcome (start ctx issue (Some s) tm) = Err (LogErr msgSelfLimit)) /\
  (filter (passes ctx (login s)) (candidates tm s) <> [] ->
   outcome (start ctx issue (Some s) tm) <> Err (LogErr msgAllTeammatesLimit) /\
   outcome (start ctx issue (Some s) tm) <> Err (LogErr msgSelfLimit) /\
   forall n l, In (issues_addAssignees n l) (trace (start ctx issue (Some s) tm)) ->
               l = filter (passes ctx (login s)) (candidates tm s)).
Proof.
  intros Hpar Hopen Hfree Hall.
  pose proof (checkLimits_ok ctx (login s) (candidates tm s) Hall) as Hloop.
  assert (Hrun : outcome (start ctx issue (Some s) tm) =
                 outcome (afterLimits ctx issue s (candidates tm s)
                            (filter (passes ctx (login s)) (candidates tm s))
                            (commitHashOf ctx))).
  { rewrite start_run, Hpar, Hfree, Hloop.
    destruct (String.eqb_spec (issue_state issue) ISSUE_TYPE_CLOSED); [contradiction|].
    reflexivity. }
  split; [exact Hloop|].
  split; [|split; [|split; [|split]]].
  - intros u _ Hu Hin. apply filter_In in Hin as [_ Hp].
    unfold passes in Hp. rewrite Hu in Hp. discriminate.
  - intros u Hin Hu. apply filter_In. split; [exact Hin|].
    unfold passes. rewrite Hu. reflexivity.
  - intros Hempty Htm. rewrite Hrun, Hempty. unfold afterLimits, candidates.
    rewrite length_app. destruct tm as [|t r]; [contradiction|].
    simpl. rewrite Nat.add_comm. reflexivity.
  - intros Hempty ->. rewrite Hrun, Hempty. reflexivity.
  - intros Hne.
    pose proof (afterLimits_raises ctx issue s (candidates tm s) _ (commitHashOf ctx) Hne)
      as Hr.
    split; [|split].
    + rewrite Hrun. intros E. apply Hr in E. discriminate.
    + rewrite Hrun. intros E. apply Hr in E. discriminate.
    + intros n l H. apply start_assignee_write in H. apply H.
Qed.

Lemma limit_drops_individually_witness :
  outcome (checkLimits ctxBobBusy "alice" (candidates ["bob"; "carol"] alice))
  = Ok (filter (passes ctxBobBusy "alice") (candidates ["bob"; "carol"] alice)) /\
  (forall u, In u (candidates ["bob"; "carol"] alice) ->
             outcome (handleTaskLimitChecks u ctxBobBusy "alice") = Ok false ->
             ~ In u (filter (passes ctxBobBusy "alice") (candidates ["bob"; "carol"] alice))) /\
  (forall u, In u (candidates ["bob"; "carol"] alice) ->
             outcome (handleTaskLimitChecks u ctxBobBusy "alice") = Ok true ->
             In u (filter (passes ctxBobBusy "alice") (candidates ["bob"; "carol"] alice))) /\
  (filter (passes ctxBobBusy "alice") (candidates ["bob"; "carol"] alice) = [] ->
   ["bob"; "carol"] <> [] ->
   outcome (start ctxBobBusy (mkIssue [] [priceLabel]) (Some alice) ["bob"; "carol"])
   = Err (LogErr msgAllTeammatesLimit)) /\
  (filter (passes ctxBobBusy "alice") (candidates ["bob"; "carol"] alice) = [] ->
   ["bob"; "carol"] = [] ->
   outcome (start ctxBobBusy (mkIssue [] [priceLabel]) (Some alice) ["bob"; "carol"])
   = Err (LogErr msgSelfLimit)) /\
  (filter (passes ctxBobBusy "alice") (candidates ["bob"; "carol"] alice) <> [] ->
   outcome (start ctxBobBusy (mkIssue [] [priceLabel]) (Some alice) ["bob"; "carol"])
   <> Err (LogErr msgAllTeammatesLimit) /\
   outcome (start ctxBobBusy (mkIssue [] [priceLabel]) (Some alice) ["bob"; "carol"])
   <> Err (LogErr msgSelfLimit) /\
   forall n l,
     In (issues_addAssignees n l)
       (trace (start ctxBobBusy (mkIssue [] [priceLabel]) (Some alice) ["bob"; "carol"])) ->
     l = filter (passes ctxBobBusy "alice") (candidates ["bob"; "carol"] alice)).
Proof.
  apply (limit_drops_individually ctxBobBusy (mkIssue [] [priceLabel]) alice ["bob"; "carol"]).
  - reflexivity.
  - discriminate.
  - reflexivity.
  - intros u [<- | [<- | [<- | []]]]; eexists; vm_compute; reflexivity.
Defined.

(** In that run Bob is left out and the two others are assigned. *)
Example limit_drops_bob :
  filter (passes ctxBobBusy "alice") (candidates ["bob"; "carol"] alice) = ["carol"; "alice"] /\
  In (issues_addAssignees 7 ["carol"; "alice"])
    (trace (start ctxBobBusy (mkIssue [] [priceLabel]) (Some alice) ["bob"; "carol"])) /\
  outcome (start ctxBobBusy (mkIssue [] [priceLabel]) (Some alice) ["bob"; "carol"])
  = Ok {| content := "Task assigned successfully"; status := 200 |}.
Proof. vm_compute. tauto. Qed.

(** C2 fails on an issue without price label whose sender the application
    had removed: the history check is sent, and it is its verdict that
    rejects the request. *)
Lemma history_checked_before_price_label :
  In (historyCheckCall ctxBarredNoPrice)
    (trace (start ctxBarredNoPrice (mkIssue [] []) (Some alice) [])) /\
  find isPriceLabel (labelsOf (mkIssue [] [])) = None /\
  outcome (start ctxBarredNoPrice (mkIssue [] []) (Some alice) [])
  = Err (LogErr (msgPreviouslyUnassigned "alice")) /\
  ~ HistoryAfterGates ctxBarredNoPrice (mkIssue [] []) alice [].
Proof.
  assert (Hin : In (historyCheckCall ctxBarredNoPrice)
                  (trace (start ctxBarredNoPrice (mkIssue [] []) (Some alice) []))).
  { vm_compute. tauto. }
  split; [exact Hin|]. split; [reflexivity|]. split; [reflexivity|].
  intros H. destruct (H Hin) as (toAssign & lb & _ & _ & Hprice & _). discriminate.
Qed.

(** The limit check of one candidate whose three reads resolve: the reads,
    the limit test, and only for who passes it the history check, whose
    verdict "barred" is thrown from here. *)
Lemma handleTaskLimitChecks_run (ctx : Context) (username sender : string)
  (approved changes assignedIssues : list SearchItem) (role : string) (limit : Z) :
  outcome (getAvailableOpenedPullRequests ctx username) = Ok (approved, changes) ->
  outcome (getAssignedIssues ctx username) = Ok assignedIssues ->
  getUserRoleAndTaskLimit (ext ctx) username = Resolved (role, limit) ->
  handleTaskLimitChecks username ctx sender =
  if limit <=? Z.abs (Z.of_nat (List.length assignedIssues) - Z.of_nat (List.length approved)
                      + Z.of_nat (List.length changes))
  then (limitReads ctx username, Ok false)
  else (limitReads ctx username ++ trace (hasUserBeenUnassigned ctx),
        match outcome (hasUserBeenUnassigned ctx) with
        | Ok true => Err (LogErr (msgPreviouslyUnassigned username))
        | Ok false => Ok true
        | Err e => Err e
        end).
Proof.
  intros Hpr Hiss Hlim. unfold handleTaskLimitChecks, limitReads.
  rewrite (bind_trace_outcome (getAvailableOpenedPullRequests ctx username)), Hpr.
  rewrite (bind_trace_outcome (getAssignedIssues ctx username)), Hiss.
  rewrite Hlim, (bind_trace_outcome (call _ (Resolved (role, limit)))).
  cbn [call trace outcome fst snd].
  change (adjustedAssignedIssues assignedIssues approved changes)
    with (Z.of_nat (List.length assignedIssues) - Z.of_nat (List.length approved)
          + Z.of_nat (List.length changes)).
  destruct (limit <=? _).
  - reflexivity.
  - rewrite (bind_trace_outcome (hasUserBeenUnassigned ctx)).
    rewrite <- !app_assoc.
    destruct (outcome (hasUserBeenUnassigned ctx)) as [[|]|e];
      cbn [throw ret trace outcome fst snd app]; rewrite ?app_nil_r; reflexivity.
Qed.

(** The loop over the candidates takes them in turn and stops at the first
    one whose check throws. *)
Lemma checkLimits_loop_run (ctx : Context) (sender : string) (l acc : list string) :
  (forall v, In v l -> exists b, outcome (handleTaskLimitChecks v ctx sender) = Ok b) ->
  forOf l (fun user toAssign =>
             ok <- handleTaskLimitChecks user ctx sender ;;
             ret (if ok then toAssign ++ [user] else toAssign)) acc
  = (flat_map (fun v => trace (handleTaskLimitChecks v ctx sender)) l,
     Ok (acc ++ filter (passes ctx sender) l)).
Proof.
  revert acc. induction l as [|u l IH]; intros acc Hall; cbn [forOf flat_map filter].
  - rewrite app_nil_r. reflexivity.
  - destruct (Hall u (or_introl eq_refl)) as [b Hb].
    rewrite bind_trace_outcome, outcome_bind, trace_bind, Hb.
    cbn [ret trace outcome fst snd]. rewrite app_nil_r.
    rewrite IH by (intros v Hv; apply Hall; right; exact Hv).
    cbn [trace outcome fst snd]. unfold passes at 2. rewrite Hb.
    destruct b; rewrite <- ?app_assoc; reflexivity.
Qed.

Lemma checkLimits_loop_stops (ctx : Context) (sender : string) (before : list string)
  (u : string) (after acc : list string) (e : Thrown) :
  (forall v, In v before -> exists b, outcome (handleTaskLimitChecks v ctx sender) = Ok b) ->
  outcome (handleTaskLimitChecks u ctx sender) = Err e ->
  forOf (before ++ u :: after)
    (fun user toAssign =>
       ok <- handleTaskLimitChecks user ctx sender ;;
       ret (if ok then toAssign ++ [user] else toAssign)) acc
  = (flat_map (fun v => trace (handleTaskLimitChecks v ctx sender)) before
       ++ trace (handleTaskLimitChecks u ctx sender), Err e).
Proof.
  intros Hall Hu. revert acc. induction before as [|v before IH]; intros acc;
    cbn [app forOf flat_map].
  - rewrite bind_trace_outcome, outcome_bind, trace_bind, Hu. reflexivity.
  - destruct (Hall v (or_introl eq_refl)) as [b Hb].
    rewrite bind_trace_outcome, outcome_bind, trace_bind, Hb.
    cbn [ret trace outcome fst snd]. rewrite app_nil_r.
    rewrite IH by (intros w Hw; apply Hall; right; exact Hw).
    cbn [trace outcome fst snd]. rewrite app_assoc. reflexivity.
Qed.

(** What follows the limit checks, gate by gate. *)
Lemma afterLimits_run (ctx : Context) (issue : Issue) (s : User)
  (cands toAssign : list string) (h : option string) :
  afterLimits ctx issue s cands toAssign h =
  match toAssign with
  | [] => ([], Err (LogErr (if (1 <? List.length cands)%nat
                            then msgAllTeammatesLimit else msgSelfLimit)))
  | _ :: _ =>
      match find isPriceLabel (labelsOf issue) with
      | None => ([], Err (LogErr msgNoPriceLabel))
      | Some _ =>
          match outcome (checkCollaborators ctx (labelsOf issue) toAssign) with
          | Err e => (trace (checkCollaborators ctx (labelsOf issue) toAssign), Err e)
          | Ok _ =>
              (trace (checkCollaborators ctx (labelsOf issue) toAssign)
                 ++ trace (commit ctx issue s (labelsOf issue) toAssign h),
               outcome (commit ctx issue s (labelsOf issue) toAssign h))
          end
      end
  end.
Proof.
  unfold afterLimits. destruct toAssign as [|u r]; cbn [List.length Nat.eqb andb].
  - destruct (1 <? List.length cands)%nat; reflexivity.
  - destruct (find isPriceLabel (labelsOf issue)); [|reflexivity].
    rewrite bind_trace_outcome.
    destruct (outcome (checkCollaborators ctx (labelsOf issue) (u :: r))); reflexivity.
Qed.

(** The assignment itself: the identifiers first, then the assignment
    comment is computed, then the assignees are written, and a comment is the
    last thing there can be. *)
Lemma commit_run (ctx : Context) (issue : Issue) (s : User) (labels : list Label)
  (toAssign : list string) (h : option string) :
  (forall e, outcome (fetchUserIds ctx toAssign) = Err e ->
             commit ctx issue s labels toAssign h = (trace (fetchUserIds ctx toAssign), Err e)) /\
  (forall ids reason,
      outcome (fetchUserIds ctx toAssign) = Ok ids ->
      generateAssignmentComment (ext ctx) (issue_created_at issue) (issue_number issue) (id s)
        (getDeadline (ext ctx) labels) = Rejected reason ->
      commit ctx issue s labels toAssign h
      = (trace (fetchUserIds ctx toAssign) ++ [ext_generateAssignmentComment],
         Err (Foreign reason))) /\
  (forall ids ac,
      outcome (fetchUserIds ctx toAssign) = Ok ids ->
      generateAssignmentComment (ext ctx) (issue_created_at issue) (issue_number issue) (id s)
        (getDeadline (ext ctx) labels) = Resolved ac ->
      exists tail,
        trace (commit ctx issue s labels toAssign h)
        = trace (fetchUserIds ctx toAssign)
            ++ ext_generateAssignmentComment
            :: trace (addAssignees ctx (issue_number issue) toAssign) ++ tail /\
        (tail = [] \/ exists body, tail = [issues_createComment body])).
Proof.
  unfold commit, call, lift.
  remember (fetchUserIds ctx toAssign) as F eqn:EF. destruct F as [tF rF].
  cbn [outcome trace fst snd]. split; [|split].
  - intros e ->. reflexivity.
  - intros ids reason -> ->. reflexivity.
  - intros ids ac -> ->. cbn [bind].
    remember (addAssignees ctx (issue_number issue) toAssign) as W eqn:EW.
    destruct W as [tW [[]|e]]; cbn [bind trace fst app].
    + destruct (getTimeValue ctx (taskStaleTimeoutDuration (config ctx))) as [st|e];
        cbn [bind trace fst app].
      * unfold addCommentToIssue.
        destruct (Js.truthy _).
        { unfold rethrow, call.
          destruct (rest_issues_createComment (octokit ctx) _) as [[]|];
            cbn [try_catch throw ret bind trace fst app];
            (eexists; split; [reflexivity | right; eexists; reflexivity]). }
        { cbn [ret bind trace fst app]. exists []. split; [rewrite ?app_nil_r; reflexivity|].
          left. reflexivity. }
      * exists []. split; [rewrite ?app_nil_r; reflexivity | left; reflexivity].
    + exists []. split; [rewrite ?app_nil_r; reflexivity | left; reflexivity].
Qed.

(** C2, amended. The gates fire in the order 1, 2, 3, 4, 5, 6, 7, 9, 10 of
    the list, and the history check (8) is part of step 4. In the order of
    the conjuncts:
    - a parent issue is rejected with nothing sent but the notice;
    - then a closed issue, with only the commit hash asked for, also when it
      has assignees;
    - then an issue with assignees, before any limit check;
    - then the limit checks take the candidates in turn and stop at the
      first one whose check throws; when none throws they return the
      accepted candidates; whatever they throw ends the request there,
      whatever the labels of the issue;
    - the check of one candidate reads the counts and the limit, turns the
      candidate down at the limit without a history check, and otherwise
      runs the history check at once: "barred" is thrown from here, inside
      step 4;
    - then an empty set is rejected, also when the price label is missing;
    - then a missing price label, before any collaborator is looked up;
    - then the collaborator test, before any identifier is looked up;
    - then the identifiers, before the assignment comment is computed;
    - then the assignment: the comment is computed, the assignees are
      written, and a comment is posted last;
    - once the limit checks have returned, no history check is sent any
      more. *)
Theorem gates_in_order_history_inside_limits (ctx : Context) (issue : Issue) (s : User)
  (tm : list string) :
  let run := start ctx issue (Some s) tm in
  let cands := candidates tm s in
  let limits := checkLimits ctx (login s) cands in
  let labels := labelsOf issue in
  (isParent issue = true ->
   run = ([issues_createComment msgParentComment],
          Err (match rest_issues_createComment (octokit ctx) msgParentComment with
               | Resolved _ => LogErr msgParent
               | Rejected _ => JsErr "Adding a comment failed!"
               end))) /\
  (isParent issue = false -> issue_state issue = ISSUE_TYPE_CLOSED ->
   run = ([repos_getCommit], Err (LogErr msgClosed))) /\
  (isParent issue = false -> issue_state issue <> ISSUE_TYPE_CLOSED ->
   assigneesOf issue <> [] ->
   run = ([repos_getCommit],
          Err (LogErr (if existsb (assigneeIs (login s)) (assigneesOf issue)
                       then msgSelfAssigned else msgOtherAssigned)))) /\
  (forall before u after e,
      cands = before ++ u :: after ->
      (forall v, In v before ->
                 exists b, outcome (handleTaskLimitChecks v ctx (login s)) = Ok b) ->
      outcome (handleTaskLimitChecks u ctx (login s)) = Err e ->
      limits = (flat_map (fun v => trace (handleTaskLimitChecks v ctx (login s))) before
                  ++ trace (handleTaskLimitChecks u ctx (login s)), Err e)) /\
  ((forall v, In v cands -> exists b, outcome (handleTaskLimitChecks v ctx (login s)) = Ok b) ->
   limits = (flat_map (fun v => trace (handleTaskLimitChecks v ctx (login s))) cands,
             Ok (filter (passes ctx (login s)) cands))) /\
  (Workable issue ->
   forall e, outcome limits = Err e -> run = (repos_getCommit :: trace limits, Err e)) /\
  (forall u approved changes assignedIssues role limit,
      outcome (getAvailableOpenedPullRequests ctx u) = Ok (approved, changes) ->
      outcome (getAssignedIssues ctx u) = Ok assignedIssues ->
      getUserRoleAndTaskLimit (ext ctx) u = Resolved (role, limit) ->
      handleTaskLimitChecks u ctx (login s) =
      if limit <=? Z.abs (Z.of_nat (List.length assignedIssues)
                          - Z.of_nat (List.length approved) + Z.of_nat (List.length changes))
      then (limitReads ctx u, Ok false)
      else (limitReads ctx u ++ trace (hasUserBeenUnassigned ctx),
            match outcome (hasUserBeenUnassigned ctx) with
            | Ok true => Err (LogErr (msgPreviouslyUnassigned u))
            | Ok false => Ok true
            | Err e => Err e
            end)) /\
  (Workable issue -> outcome limits = Ok [] ->
   run = (repos_getCommit :: trace limits,
          Err (LogErr (if (1 <? List.length cands)%nat
                       then msgAllTeammatesLimit else msgSelfLimit)))) /\
  (Workable issue ->
   forall toAssign, outcome limits = Ok toAssign -> toAssign <> [] ->
   find isPriceLabel labels = None ->
   run = (repos_getCommit :: trace limits, Err (LogErr msgNoPriceLabel))) /\
  (Workable issue ->
   forall toAssign priceLabel e, outcome limits = Ok toAssign -> toAssign <> [] ->
   find isPriceLabel labels = Some priceLabel ->
   outcome (checkCollaborators ctx labels toAssign) = Err e ->
   run = (repos_getCommit :: trace limits ++ trace (checkCollaborators ctx labels toAssign),
          Err e)) /\
  (Workable issue ->
   forall toAssign priceLabel e, outcome limits = Ok toAssign -> toAssign <> [] ->
   find isPriceLabel labels = Some priceLabel ->
   outcome (checkCollaborators ctx labels toAssign) = Ok tt ->
   outcome (fetchUserIds ctx toAssign) = Err e ->
   run = (repos_getCommit :: trace limits ++ trace (checkCollaborators ctx labels toAssign)
            ++ trace (fetchUserIds ctx toAssign),
          Err e)) /\
  (Workable issue ->
   forall toAssign priceLabel ids ac, outcome limits = Ok toAssign -> toAssign <> [] ->
   find isPriceLabel labels = Some priceLabel ->
   outcome (checkCollaborators ctx labels toAssign) = Ok tt ->
   outcome (fetchUserIds ctx toAssign) = Ok ids ->
   generateAssignmentComment (ext ctx) (issue_created_at issue) (issue_number issue) (id s)
     (getDeadline (ext ctx) labels) = Resolved ac ->
   exists tail,
     trace run
     = repos_getCommit :: trace limits ++ trace (checkCollaborators ctx labels toAssign)
         ++ trace (fetchUserIds ctx toAssign)
         ++ ext_generateAssignmentComment
         :: trace (addAssignees ctx (issue_number issue) toAssign) ++ tail /\
     (tail = [] \/ exists body, tail = [issues_createComment body])) /\
  (Workable issue ->
   forall toAssign, outcome limits = Ok toAssign ->
   exists post,
     trace run = repos_getCommit :: trace limits ++ post /\
     ~ In (historyCheckCall ctx) post).
Proof.
  cbv zeta.
  assert (Hrun := start_run ctx issue s tm).
  assert (Hpast : Workable issue ->
                  start ctx issue (Some s) tm =
                  match outcome (checkLimits ctx (login s) (candidates tm s)) with
                  | Err e =>
                      (repos_getCommit :: trace (checkLimits ctx (login s) (candidates tm s)),
                       Err e)
                  | Ok toAssign =>
                      (repos_getCommit :: trace (checkLimits ctx (login s) (candidates tm s))
                         ++ trace (afterLimits ctx issue s (candidates tm s) toAssign
                                     (commitHashOf ctx)),
                       outcome (afterLimits ctx issue s (candidates tm s) toAssign
                                  (commitHashOf ctx)))
                  end).
  { intros (Hpar & Hopen & Hfree). rewrite Hrun, Hpar, Hfree.
    destruct (String.eqb_spec (issue_state issue) ISSUE_TYPE_CLOSED); [contradiction|].
    reflexivity. }
  repeat match goal with |- _ /\ _ => split end.
  - intros Hpar. rewrite Hrun, Hpar, parentComment_run. cbn [trace outcome fst snd].
    destruct (rest_issues_createComment (octokit ctx) msgParentComment); reflexivity.
  - intros Hpar Hclosed. rewrite Hrun, Hpar, Hclosed. reflexivity.
  - intros Hpar Hopen Hassigned. rewrite Hrun, Hpar.
    destruct (String.eqb_spec (issue_state issue) ISSUE_TYPE_CLOSED); [contradiction|].
    destruct (assigneesOf issue); [contradiction | reflexivity].
  - intros before u after e Hc Hall Hu. unfold checkLimits. rewrite Hc.
    apply checkLimits_loop_stops; assumption.
  - intros Hall. unfold checkLimits.
    rewrite (checkLimits_loop_run ctx (login s) (candidates tm s) [] Hall). reflexivity.
  - intros Hw e He. rewrite (Hpast Hw), He. reflexivity.
  - intros u approved changes assignedIssues role limit.
    apply handleTaskLimitChecks_run.
  - intros Hw He. rewrite (Hpast Hw), He, afterLimits_run.
    cbn [trace outcome fst snd]. rewrite app_nil_r. reflexivity.
  - intros Hw toAssign He Hne Hprice. rewrite (Hpast Hw), He, afterLimits_run.
    destruct toAssign; [contradiction|]. rewrite Hprice.
    cbn [trace outcome fst snd]. rewrite app_nil_r. reflexivity.
  - intros Hw toAssign pl e He Hne Hprice Hcol. rewrite (Hpast Hw), He, afterLimits_run.
    destruct toAssign; [contradiction|]. rewrite Hprice, Hcol. reflexivity.
  - intros Hw toAssign pl e He Hne Hprice Hcol Hids. rewrite (Hpast Hw), He, afterLimits_run.
    destruct toAssign as [|u r]; [contradiction|]. rewrite Hprice, Hcol.
    rewrite (proj1 (commit_run ctx issue s (labelsOf issue) (u :: r) (commitHashOf ctx)) e Hids).
    reflexivity.
  - intros Hw toAssign pl ids ac He Hne Hprice Hcol Hids Hgen.
    rewrite (Hpast Hw), He, afterLimits_run.
    destruct toAssign as [|u r]; [contradiction|]. rewrite Hprice, Hcol.
    destruct (proj2 (proj2 (commit_run ctx issue s (labelsOf issue) (u :: r) (commitHashOf ctx)))
                ids ac Hids Hgen) as (tail & Htrace & Htail).
    exists tail. split; [|exact Htail]. cbn [trace fst]. rewrite Htrace. reflexivity.
  - intros Hw toAssign He. rewrite (Hpast Hw), He. cbn [trace fst].
    eexists. split; [reflexivity|].
    pose proof (afterLimits_calls ctx issue s (candidates tm s) toAssign (commitHashOf ctx))
      as Hafter.
    unfold Only in Hafter. rewrite Forall_forall in Hafter.
    intros Hin. destruct (Hafter _ Hin) as [Hstage _]. discriminate.
Qed.

(** The order at work, where two gates would fail at once: a closed issue
    with an assignee; a barred sender on an issue without price label;
    nobody with capacity on an issue without price label; no price label on
    an issue restricted to collaborators, with Bob who is none; Bob again on
    a restricted issue with a price label; and a sender without
    identifier. Then the check of one candidate, with the history check
    right after the limit test and without it at the limit, and the loop
    that stops at the first candidate whose check throws. *)
Lemma gates_in_order_history_inside_limits_witness :
  start ctxOpen closedIssue (Some alice) []
  = ([repos_getCommit], Err (LogErr msgClosed)) /\
  start ctxBarredNoPrice (mkIssue [] []) (Some alice) []
  = ([repos_getCommit;
      search_issuesAndPullRequests "org:ubiquity assignee:alice is:open is:issue";
      ext_getUserRoleAndTaskLimit "alice";
      issues_listEventsForTimeline false "ubiquity" "work" 7],
     Err (LogErr (msgPreviouslyUnassigned "alice"))) /\
  start ctxFullNoPrice (mkIssue [] []) (Some alice) ["bob"]
  = ([repos_getCommit;
      search_issuesAndPullRequests "org:ubiquity assignee:bob is:open is:issue";
      ext_getUserRoleAndTaskLimit "bob";
      search_issuesAndPullRequests "org:ubiquity assignee:alice is:open is:issue";
      ext_getUserRoleAndTaskLimit "alice"],
     Err (LogErr msgAllTeammatesLimit)) /\
  start ctxStrict (mkIssue [] [restrictedLabel]) (Some alice) ["bob"]
  = ([repos_getCommit;
      search_issuesAndPullRequests "org:ubiquity assignee:bob is:open is:issue";
      ext_getUserRoleAndTaskLimit "bob";
      issues_listEventsForTimeline false "ubiquity" "work" 7;
      search_issuesAndPullRequests "org:ubiquity assignee:alice is:open is:issue";
      ext_getUserRoleAndTaskLimit "alice";
      issues_listEventsForTimeline false "ubiquity" "work" 7],
     Err (LogErr msgNoPriceLabel)) /\
  start ctxStrict (mkIssue [] [priceLabel; restrictedLabel]) (Some alice) ["bob"]
  = ([repos_getCommit;
      search_issuesAndPullRequests "org:ubiquity assignee:bob is:open is:issue";
      ext_getUserRoleAndTaskLimit "bob";
      issues_listEventsForTimeline false "ubiquity" "work" 7;
      search_issuesAndPullRequests "org:ubiquity assignee:alice is:open is:issue";
      ext_getUserRoleAndTaskLimit "alice";
      issues_listEventsForTimeline false "ubiquity" "work" 7;
      ext_isUserCollaborator "bob"],
     Err (LogErr msgCollaboratorsOnly)) /\
  start ctxNoIdentifier (mkIssue [] [priceLabel]) (Some alice) []
  = ([repos_getCommit;
      search_issuesAndPullRequests "org:ubiquity assignee:alice is:open is:issue";
      ext_getUserRoleAndTaskLimit "alice";
      issues_listEventsForTimeline false "ubiquity" "work" 7;
      users_getByUsername "alice"],
     Err (JsErr "Error while fetching user ids")) /\
  handleTaskLimitChecks "alice" ctxBarredNoPrice (login alice)
  = ([search_issuesAndPullRequests "org:ubiquity assignee:alice is:open is:issue";
      ext_getUserRoleAndTaskLimit "alice";
      issues_listEventsForTimeline false "ubiquity" "work" 7],
     Err (LogErr (msgPreviouslyUnassigned "alice"))) /\
  handleTaskLimitChecks "bob" ctxFullNoPrice (login alice)
  = ([search_issuesAndPullRequests "org:ubiquity assignee:bob is:open is:issue";
      ext_getUserRoleAndTaskLimit "bob"],
     Ok false) /\
  checkLimits ctxAliceRemoved (login alice) (candidates ["bob"] alice)
  = ([search_issuesAndPullRequests "org:ubiquity assignee:bob is:open is:issue";
      ext_getUserRoleAndTaskLimit "bob";
      issues_listEventsForTimeline false "ubiquity" "work" 7],
     Err (LogErr (msgPreviouslyUnassigned "bob"))).
Proof.
  assert (Hw : forall labels, Workable (mkIssue [] labels)).
  { intros labels. repeat split. discriminate. }
  split; [|split; [|split; [|split; [|split; [|split; [|split; [|split]]]]]]].
  - destruct (gates_in_order_history_inside_limits ctxOpen closedIssue alice [])
      as (_ & G & _).
    exact (G eq_refl eq_refl).
  - destruct (gates_in_order_history_inside_limits ctxBarredNoPrice (mkIssue [] []) alice [])
      as (_ & _ & _ & _ & _ & G & _).
    exact (G (Hw []) (LogErr (msgPreviouslyUnassigned "alice")) eq_refl).
  - destruct (gates_in_order_history_inside_limits ctxFullNoPrice (mkIssue [] []) alice ["bob"])
      as (_ & _ & _ & _ & _ & _ & _ & G & _).
    exact (G (Hw []) eq_refl).
  - destruct (gates_in_order_history_inside_limits ctxStrict (mkIssue [] [restrictedLabel])
                alice ["bob"])
      as (_ & _ & _ & _ & _ & _ & _ & _ & G & _).
    exact (G (Hw _) ["bob"; "alice"] eq_refl ltac:(discriminate) eq_refl).
  - destruct (gates_in_order_history_inside_limits ctxStrict
                (mkIssue [] [priceLabel; restrictedLabel]) alice ["bob"])
      as (_ & _ & _ & _ & _ & _ & _ & _ & _ & G & _).
    exact (G (Hw _) ["bob"; "alice"] priceLabel (LogErr msgCollaboratorsOnly)
             eq_refl ltac:(discriminate) eq_refl eq_refl).
  - destruct (gates_in_order_history_inside_limits ctxNoIdentifier (mkIssue [] [priceLabel])
                alice [])
      as (_ & _ & _ & _ & _ & _ & _ & _ & _ & _ & G & _).
    exact (G (Hw _) ["alice"] priceLabel (JsErr "Error while fetching user ids")
             eq_refl ltac:(discriminate) eq_refl eq_refl eq_refl).
  - destruct (gates_in_order_history_inside_limits ctxBarredNoPrice (mkIssue [] []) alice [])
      as (_ & _ & _ & _ & _ & _ & G & _).
    exact (G "alice" [] [] [] "contributor" 2 eq_refl eq_refl eq_refl).
  - destruct (gates_in_order_history_inside_limits ctxFullNoPrice (mkIssue [] []) alice ["bob"])
      as (_ & _ & _ & _ & _ & _ & G & _).
    exact (G "bob" [] [] [] "contributor" 0 eq_refl eq_refl eq_refl).
  - destruct (gates_in_order_history_inside_limits ctxAliceRemoved (mkIssue [] [priceLabel])
                alice ["bob"])
      as (_ & _ & _ & G & _).
    exact (G [] "bob" ["alice"] (LogErr (msgPreviouslyUnassigned "bob")) eq_refl
             (fun v (H : In v []) => match H with end) eq_refl).
Defined.

End StartProperties.

(* ===================================================================== *)
(** ** The two revisions of [getAvailableOpenedPullRequests] *)
(* ===================================================================== *)

Module RevisionComparison.

Import Fixtures Vocabulary.

Lemma lastN_all {A} (n : nat) (l : list A) : (List.length l <= n)%nat -> lastN n l = l.
Proof.
  intros H. unfold lastN. replace (List.length l - n)%nat with 0%nat by lia. reflexivity.
Qed.

Lemma filter_all {A} (f : A -> bool) (l : list A) : forallb f l = true -> filter f l = l.
Proof.
  induction l as [|x l IH]; simpl; [reflexivity|].
  intros H. apply andb_prop in H as [Hx Hl]. rewrite Hx, IH by exact Hl. reflexivity.
Qed.

Lemma hasState_nodes (s : string) (rs : list Review) :
  existsb (fun review => String.eqb (node_state review) s) (map toNode rs) = hasState s rs.
Proof. unfold hasState. rewrite existsb_map. reflexivity. Qed.

Lemma findState_hasState (s : string) (rs : list Review) :
  match IssueUtilsPrev.findState s rs with Some _ => true | None => false end = hasState s rs.
Proof.
  unfold IssueUtilsPrev.findState, hasState.
  induction rs as [|r rs IH]; simpl; [reflexivity|].
  destruct (String.eqb (review_state r) s); simpl; [reflexivity | exact IH].
Qed.

(** C10 fails on a fresh pull request without review: the current revision
    counts it as approved, the earlier one does not. *)
Lemma revisions_differ_on_fresh_unreviewed :
  SameReviews ctxFresh /\
  outcome (IssueUtils.getOpenedPullRequestsForUser ctxFresh "alice") = Ok [pr 1 4000] /\
  outcome (IssueUtilsPrev.getOpenedPullRequests ctxFresh "alice") = Ok [pr 1 4000] /\
  outcome (IssueUtils.getAvailableOpenedPullRequests ctxFresh "alice") = Ok ([pr 1 4000], []) /\
  outcome (IssueUtilsPrev.getAvailableOpenedPullRequests ctxFresh "alice") = Ok ([], []) /\
  ~ Equivalent ctxFresh "alice".
Proof.
  assert (Hsame : SameReviews ctxFresh).
  { intros owner repo n. exists []. split; reflexivity. }
  split; [exact Hsame|]. repeat (split; [reflexivity|]).
  intros H. destruct (H Hsame [pr 1 4000] [] [] [] eq_refl eq_refl) as [E _]. discriminate.
Qed.

Ltac open_iterations Hurl Hprev Hnow :=
  unfold IssueUtils.classifyPullRequest, IssueUtilsPrev.classifyPullRequest,
    IssueUtilsPrev.getOwnerRepoFromHtmlUrl, IssueUtilsPrev.getTimeValue;
  rewrite !outcome_bind; unfold lift; cbn [outcome snd]; rewrite Hurl; cbv beta iota;
  rewrite !outcome_bind, Hprev, Hnow;
  cbn [IssueUtils.latestReview IssueUtils.hasUnresolvedChanges].

(** On a settled pull request one iteration of either loop adds the same
    pull requests to [approved] and as many entries to [changes]. *)
Lemma settled_iteration (ctx : Context) (tol : string) (pr : SearchItem)
  (A C1 : list SearchItem) (C2 : list Review) :
  Settled ctx tol pr ->
  exists dA d1 d2,
    outcome (IssueUtils.classifyPullRequest ctx tol pr (A, C1)) = Ok (A ++ dA, C1 ++ d1) /\
    outcome (IssueUtilsPrev.classifyPullRequest ctx tol pr (A, C2)) = Ok (A ++ dA, C2 ++ d2) /\
    List.length d1 = List.length d2.
Proof.
  intros (owner & repo & rs & Hurl & Hrest & Hgql & Hlen & Hauth & Hcase).
  rewrite (lastN_all 10 rs Hlen) in Hgql.
  assert (Hprev : outcome (IssueUtilsPrev.getAllPullRequestReviews ctx (number pr) owner repo)
                  = Ok rs).
  { unfold IssueUtilsPrev.getAllPullRequestReviews, rethrow, call. rewrite Hrest. simpl.
    f_equal. apply filter_all. exact Hauth. }
  assert (Hnow : outcome (IssueUtils.getLatestReviewStatus ctx owner repo (number pr))
                 = Ok {| IssueUtils.latestReview := IssueUtils.lastNode (map toNode rs);
                         IssueUtils.hasUnresolvedChanges := hasState "CHANGES_REQUESTED" rs |}).
  { unfold IssueUtils.getLatestReviewStatus, call. rewrite Hgql. simpl.
    rewrite hasState_nodes. reflexivity. }
  pose proof (findState_hasState "APPROVED" rs) as Hfa.
  pose proof (findState_hasState "CHANGES_REQUESTED" rs) as Hfc.
  destruct Hcase as [[-> (tv & Htv & Hold)] | [[Happ Hnocr] | Hcr]].
  - (* no review, tolerance elapsed *)
    exists [pr], [], []. open_iterations Hurl Hprev Hnow.
    simpl. unfold lift. rewrite Htv. simpl.
    apply Z.leb_le in Hold. rewrite Hold. simpl. rewrite !app_nil_r. auto.
  - (* approved, no request for changes *)
    exists [pr], [], []. open_iterations Hurl Hprev Hnow.
    rewrite Hnocr. rewrite orb_true_r.
    destruct rs as [|r rs']; [discriminate|].
    rewrite Hnocr in Hfc. rewrite Happ in Hfa.
    destruct (IssueUtilsPrev.findState "APPROVED" (r :: rs')); [|discriminate].
    destruct (IssueUtilsPrev.findState "CHANGES_REQUESTED" (r :: rs')); [discriminate|].
    simpl. rewrite !app_nil_r. auto.
  - (* changes requested, not followed by a review request *)
    destruct Hcr as (latest & reqs & Hlast & Hstate & Hnoapp & Hreqs & Hnot).
    assert (Hhas : hasState "CHANGES_REQUESTED" rs = true).
    { rewrite <- hasState_nodes. apply existsb_exists. exists latest.
      split; [apply ReviewProperties.lastNode_In; exact Hlast|]. rewrite Hstate. reflexivity. }
    rewrite Hnoapp in Hfa. rewrite Hhas in Hfc.
    destruct rs as [|r rs']; [discriminate|].
    destruct (IssueUtilsPrev.findState "APPROVED" (r :: rs')) eqn:Ea; [discriminate|].
    destruct (IssueUtilsPrev.findState "CHANGES_REQUESTED" (r :: rs')) as [cr|] eqn:Ec;
      [|discriminate].
    exists [], [pr], [cr]. open_iterations Hurl Hprev Hnow.
    rewrite Hlast, Hhas, Ea, Ec. cbn [option_map]. rewrite Hstate.
    replace ("CHANGES_REQUESTED" =? "APPROVED")%string with false by reflexivity.
    replace ("CHANGES_REQUESTED" =? "CHANGES_REQUESTED")%string with true by reflexivity.
    cbn [orb negb]. rewrite outcome_bind, Hreqs, Hnot.
    unfold IssueUtils.unreviewedTail. simpl. rewrite !app_nil_r. auto.
Qed.

Lemma settled_loop (ctx : Context) (tol : string) (prs : list SearchItem)
  (A C1 : list SearchItem) (C2 : list Review) :
  Forall (Settled ctx tol) prs ->
  List.length C1 = List.length C2 ->
  exists approved c1 c2,
    outcome (forOf prs (IssueUtils.classifyPullRequest ctx tol) (A, C1)) = Ok (approved, c1) /\
    outcome (forOf prs (IssueUtilsPrev.classifyPullRequest ctx tol) (A, C2)) = Ok (approved, c2) /\
    List.length c1 = List.length c2.
Proof.
  intros Hall. revert A C1 C2.
  induction Hall as [|pr prs Hpr _ IH]; intros A C1 C2 Hlen; cbn [forOf].
  - exists A, C1, C2. auto.
  - destruct (settled_iteration ctx tol pr A C1 C2 Hpr) as (dA & d1 & d2 & H1 & H2 & Hd).
    rewrite !outcome_bind, H1, H2. apply IH. rewrite !length_app. lia.
Qed.

(** C10, amended. The two revisions are not equivalent; they return the same
    [approved] and as many [changes] when they read the same list of open
    pull requests and every one of them is settled in the sense above. *)
Theorem revisions_agree_on_settled (ctx : Context) (username tol : string)
  (prs : list SearchItem) :
  reviewDelayTolerance (config ctx) = Some tol -> Js.truthy tol = true ->
  outcome (IssueUtils.getOpenedPullRequestsForUser ctx username) = Ok prs ->
  outcome (IssueUtilsPrev.getOpenedPullRequests ctx username) = Ok prs ->
  Forall (Settled ctx tol) prs ->
  exists approved c1 c2,
    outcome (IssueUtils.getAvailableOpenedPullRequests ctx username) = Ok (approved, c1) /\
    outcome (IssueUtilsPrev.getAvailableOpenedPullRequests ctx username) = Ok (approved, c2) /\
    List.length c1 = List.length c2.
Proof.
  intros Htol Htruthy Hnow Hprev Hall.
  unfold IssueUtils.getAvailableOpenedPullRequests,
    IssueUtilsPrev.getAvailableOpenedPullRequests.
  rewrite Htol, Htruthy. cbn [negb].
  rewrite !outcome_bind, Hnow, Hprev.
  apply settled_loop; [exact Hall | reflexivity].
Qed.

Lemma ctxChangesPending_settled : Settled ctxChangesPending "1 Day" (pr 1 4000).
Proof.
  exists "ubiquity", "work",
    [{| review_state := "CHANGES_REQUESTED"; review_submitted_at := Some 100;
        author_association := "MEMBER" |}].
  repeat split; try reflexivity; [simpl; lia|].
  right. right.
  exists {| node_state := "CHANGES_REQUESTED"; submittedAt := Some 100 |}, [reviewRequested 50].
  repeat split; reflexivity.
Qed.

Lemma revisions_agree_on_settled_witness :
  exists approved c1 c2,
    outcome (IssueUtils.getAvailableOpenedPullRequests ctxChangesPending "alice")
    = Ok (approved, c1) /\
    outcome (IssueUtilsPrev.getAvailableOpenedPullRequests ctxChangesPending "alice")
    = Ok (approved, c2) /\
    List.length c1 = List.length c2.
Proof.
  apply (revisions_agree_on_settled ctxChangesPending "alice" "1 Day" [pr 1 4000]);
    try reflexivity.
  constructor; [exact ctxChangesPending_settled | constructor].
Defined.

(** Without a configured tolerance both revisions return empty buckets. *)
Lemma revisions_agree_without_tolerance (ctx : Context) (username : string) :
  reviewDelayTolerance (config ctx) = None \/ reviewDelayTolerance (config ctx) = Some "" ->
  IssueUtils.getAvailableOpenedPullRequests ctx username = ret ([], []) /\
  IssueUtilsPrev.getAvailableOpenedPullRequests ctx username = ret ([], []).
Proof.
  unfold IssueUtils.getAvailableOpenedPullRequests,
    IssueUtilsPrev.getAvailableOpenedPullRequests.
  intros [-> | ->]; split; reflexivity.
Qed.

End RevisionComparison.

(* ===================================================================== *)
(** ** More on the reassignment history *)
(* ===================================================================== *)

Module HistoryExtras.

Import CheckAssignments Vocabulary MoreVocabulary HistoryFacts Fixtures MoreFixtures.

(** X1. [getAppId] yields positive identifiers only, and every failure is
    "Invalid APP_ID"; when it fails, [hasUserBeenUnassigned] throws that
    error before any request is sent. *)
Theorem invalid_app_id_stops_history_check (ctx : Context) :
  (forall n, getAppId ctx = Ok n -> 0 < n) /\
  (forall e, getAppId ctx = Err e ->
             e = JsErr "Invalid APP_ID" /\
             hasUserBeenUnassigned ctx = ([], Err (JsErr "Invalid APP_ID"))) /\
  (APP_ID (env ctx) = ParsedNumber 0 -> getAppId ctx = Err (JsErr "Invalid APP_ID")).
Proof.
  unfold hasUserBeenUnassigned, getAppId, invalidAppId, lift.
  split; [|split].
  - intros n. destruct (APP_ID (env ctx)) as [|k|s]; [discriminate| |].
    + destruct (Z.ltb_spec 0 k) as [Hk|Hk]; [|discriminate].
      intros H. injection H as <-. exact Hk.
    + destruct (Js.parseInt s) as [k|]; [|discriminate].
      destruct (Z.ltb_spec 0 k) as [Hk|Hk]; [|discriminate].
      intros H. injection H as <-. exact Hk.
  - intros e. destruct (APP_ID (env ctx)) as [|k|s].
    + intros H. injection H as <-. split; reflexivity.
    + destruct (0 <? k); [discriminate|]. intros H. injection H as <-. split; reflexivity.
    + destruct (Js.parseInt s) as [k|].
      * destruct (0 <? k); [discriminate|]. intros H. injection H as <-. split; reflexivity.
      * intros H. injection H as <-. split; reflexivity.
  - intros ->. reflexivity.
Qed.

Lemma invalid_app_id_stops_history_check_witness :
  hasUserBeenUnassigned ctxNoAppId = ([], Err (JsErr "Invalid APP_ID")).
Proof.
  exact (proj2 (proj1 (proj2 (invalid_app_id_stops_history_check ctxNoAppId))
                  (JsErr "Invalid APP_ID") eq_refl)).
Defined.

(** X2. When the timeline of the issue cannot be read, [hasUserBeenUnassigned]
    throws, after that one request, an error whose message is the logger's
    text for "Error while getting assignment events" at level "error", and
    so does [handleTaskLimitChecks] for a contributor under the limit: the
    contributor is not taken for "not barred". *)
Theorem timeline_failure_is_fatal (ctx : Context) (appId : Z) (reason : string)
  (username sender : string) (approved changes assignedIssues : list SearchItem)
  (role : string) (limit : Z) :
  getAppId ctx = Ok appId ->
  rest_issues_listEventsForTimeline (octokit ctx) false
    (repo_owner_login (repository (payload ctx))) (repo_name (repository (payload ctx)))
    (issue_number (issue (payload ctx))) = Rejected reason ->
  outcome (IssueUtils.getAvailableOpenedPullRequests ctx username) = Ok (approved, changes) ->
  outcome (IssueUtils.getAssignedIssues ctx username) = Ok assignedIssues ->
  getUserRoleAndTaskLimit (ext ctx) username = Resolved (role, limit) ->
  Z.abs (Start.adjustedAssignedIssues assignedIssues approved changes) < limit ->
  hasUserBeenUnassigned ctx
  = ([historyCheckCall ctx],
     Err (JsErr (logMessage_diff (ext ctx) "error" "Error while getting assignment events"))) /\
  outcome (Start.handleTaskLimitChecks username ctx sender)
  = Err (JsErr (logMessage_diff (ext ctx) "error" "Error while getting assignment events")).
Proof.
  intros Happ Htl Hpr Hiss Hlim Hunder.
  assert (Hrun : hasUserBeenUnassigned ctx
                 = ([historyCheckCall ctx],
                    Err (JsErr (logMessage_diff (ext ctx) "error"
                                  "Error while getting assignment events")))).
  { unfold hasUserBeenUnassigned, getAssignmentEvents, rethrow, lift, call, historyCheckCall.
    rewrite Happ, Htl. reflexivity. }
  split; [exact Hrun|].
  rewrite (LimitProperties.handleTaskLimitChecks_outcome ctx username sender
             approved changes assignedIssues role limit Hpr Hiss Hlim).
  destruct (Z.leb_spec limit (Z.abs (Start.adjustedAssignedIssues assignedIssues approved changes)));
    [lia|].
  rewrite Hrun. reflexivity.
Qed.

Lemma timeline_failure_is_fatal_witness :
  hasUserBeenUnassigned ctxTimelineDown
  = ([historyCheckCall ctxTimelineDown],
     Err (JsErr (diffBlock "error" "Error while getting assignment events"))) /\
  outcome (Start.handleTaskLimitChecks "bob" ctxTimelineDown "alice")
  = Err (JsErr (diffBlock "error" "Error while getting assignment events")).
Proof.
  apply (timeline_failure_is_fatal ctxTimelineDown 99 "502" "bob" "alice" [] [] []
           "contributor" 2); try reflexivity.
Defined.

Lemma insertBy_sorted (x : AssignmentEvent) (l : list AssignmentEvent) :
  createdAt x <> None ->
  Forall (fun e => createdAt e <> None) l ->
  StronglySorted notLater l ->
  StronglySorted notLater (insertBy byCreatedAt x l).
Proof.
  intros Hx Hall Hs. induction Hs as [|y l Hs IH Hy]; simpl.
  - repeat constructor.
  - inversion Hall as [|? ? Hty Hall']; subst.
    destruct (createdAt x) as [tx|] eqn:Ex; [|contradiction].
    destruct (createdAt y) as [ty|] eqn:Ey; [|contradiction].
    unfold byCreatedAt. rewrite Ex, Ey.
    destruct (Z.ltb_spec 0 (tx - ty)) as [Hgt|Hle].
    + constructor; [apply IH; exact Hall'|].
      eapply Permutation_Forall.
      * apply Permutation_sym, insertBy_perm.
      * constructor; [exists ty, tx; repeat split; try assumption; lia | exact Hy].
    + constructor; [constructor; assumption|].
      constructor; [exists tx, ty; repeat split; try assumption; lia|].
      revert Hy. apply Forall_impl. intros z (a & b & Ha & Hb & Hab).
      rewrite Ey in Ha. injection Ha as <-.
      exists tx, b. repeat split; try assumption. lia.
Qed.

Lemma sortBy_sorted (l : list AssignmentEvent) :
  Forall (fun e => createdAt e <> None) l ->
  StronglySorted notLater (sortBy byCreatedAt l).
Proof.
  induction l as [|x l IH]; intros Hall; simpl; [constructor|].
  inversion Hall as [|? ? Hx Hall']; subst.
  apply insertBy_sorted; [exact Hx | | apply IH; exact Hall'].
  eapply Permutation_Forall; [apply Permutation_sym, sortBy_perm | exact Hall'].
Qed.

(** X3. When the timeline can be read and each of its assigned/unassigned
    entries names an actor and an assignee, [getAssignmentEvents] returns
    exactly those entries, converted, in chronological order. *)
Theorem assignment_events_chronological (ctx : Context) (data : list TimelineEvent) :
  rest_issues_listEventsForTimeline (octokit ctx) false
    (repo_owner_login (repository (payload ctx))) (repo_name (repository (payload ctx)))
    (issue_number (issue (payload ctx))) = Resolved data ->
  (forall e, In e data -> isAssignmentKind (te_event e) = true -> complete e) ->
  exists events,
    getAssignmentEvents ctx = ([historyCheckCall ctx], Ok events) /\
    Permutation events
      (map toAssignmentEvent (filter (fun e => isAssignmentKind (te_event e)) data)) /\
    StronglySorted notLater events /\
    (forall e, In e events -> event e = "assigned" \/ event e = "unassigned").
Proof.
  intros Htl Hcomplete.
  set (kept := filter (fun e => isAssignmentKind (te_event e)) data).
  assert (Hrun : getAssignmentEvents ctx
                 = ([historyCheckCall ctx], Ok (sortBy byCreatedAt (map toAssignmentEvent kept)))).
  { unfold getAssignmentEvents, rethrow, call, historyCheckCall. rewrite Htl. reflexivity. }
  exists (sortBy byCreatedAt (map toAssignmentEvent kept)).
  split; [exact Hrun|]. split; [apply sortBy_perm|]. split.
  - apply sortBy_sorted. apply Forall_forall. intros a Ha.
    apply in_map_iff in Ha as (e & <- & He). apply filter_In in He as [Hin Hk].
    destruct (Hcomplete e Hin Hk) as [Hact Hass].
    unfold toAssignmentEvent.
    destruct (te_actor e); [|contradiction]. destruct (te_assignee e); [|contradiction].
    rewrite Hk. discriminate.
  - intros a Ha.
    apply (Permutation_in _ (sortBy_perm byCreatedAt (map toAssignmentEvent kept))) in Ha.
    apply in_map_iff in Ha as (e & <- & He). apply filter_In in He as [_ Hk].
    assert (Hev : event (toAssignmentEvent e) = te_event e).
    { unfold toAssignmentEvent. destruct (te_actor e), (te_assignee e);
        try destruct (isAssignmentKind (te_event e)); reflexivity. }
    rewrite Hev. unfold isAssignmentKind in Hk. apply orb_prop in Hk as [H|H];
      apply String.eqb_eq in H; auto.
Qed.

Lemma assignment_events_chronological_witness :
  exists events,
    getAssignmentEvents ctxAliceBack = ([historyCheckCall ctxAliceBack], Ok events) /\
    Permutation events
      (map toAssignmentEvent
         (filter (fun e => isAssignmentKind (te_event e)) aliceRemovedThenBack)) /\
    StronglySorted notLater events /\
    (forall e, In e events -> event e = "assigned" \/ event e = "unassigned").
Proof.
  apply (assignment_events_chronological ctxAliceBack aliceRemovedThenBack); [reflexivity|].
  intros e [<- | [<- | [<- | [<- | []]]]] _; split; discriminate.
Defined.

(** X4. A bar does not lapse: once the check answers "barred" on a timeline, it
    answers "barred" on every timeline that still holds those entries,
    whatever was added and in whatever order the entries come. *)
Theorem bar_is_permanent (ctx ctx' : Context) (appId : Z) (data data' : list TimelineEvent) :
  getAppId ctx = Ok appId -> getAppId ctx' = Ok appId ->
  senderLogin ctx = senderLogin ctx' ->
  rest_issues_listEventsForTimeline (octokit ctx) false
    (repo_owner_login (repository (payload ctx))) (repo_name (repository (payload ctx)))
    (issue_number (issue (payload ctx))) = Resolved data ->
  rest_issues_listEventsForTimeline (octokit ctx') false
    (repo_owner_login (repository (payload ctx'))) (repo_name (repository (payload ctx')))
    (issue_number (issue (payload ctx'))) = Resolved data' ->
  incl data data' ->
  outcome (hasUserBeenUnassigned ctx) = Ok true ->
  outcome (hasUserBeenUnassigned ctx') = Ok true.
Proof.
  intros Happ Happ' Hsame Htl Htl' Hincl.
  rewrite (hasUserBeenUnassigned_outcome ctx appId data Happ Htl).
  rewrite (hasUserBeenUnassigned_outcome ctx' appId data' Happ' Htl').
  intros H. injection H as H. f_equal.
  apply existsb_exists in H as (e & Hin & He).
  apply existsb_exists. exists e. split; [apply Hincl; exact Hin|].
  rewrite <- Hsame. exact He.
Qed.

Lemma bar_is_permanent_witness :
  outcome (hasUserBeenUnassigned ctxAliceBack) = Ok true.
Proof.
  apply (bar_is_permanent ctxAliceRemoved ctxAliceBack 99
           aliceRemovedByBot aliceRemovedThenBack); try reflexivity.
  intros e [<- | [<- | []]]; simpl; auto.
Defined.

End HistoryExtras.

(* ===================================================================== *)
(** ** More on [src/utils/issue.ts] *)
(* ===================================================================== *)

Module IssueUtilsExtras.

Import IssueUtils Vocabulary ReadVocabulary MoreVocabulary Fixtures MoreFixtures.

Lemma isParentIssue_skip (pre body : string) :
  isParentIssue body = true -> isParentIssue (String.append pre body) = true.
Proof.
  intros H. induction pre as [|c pre IH]; simpl; [exact H|].
  rewrite IH. apply orb_true_r.
Qed.

Lemma skipSpaces_run (w t : string) (c : ascii) :
  allSpaces w = true -> Js.isSpace c = false ->
  Js.skipSpaces (String.append w (String c t)) = String c t.
Proof.
  intros Hw Hc. induction w as [|d w IH]; simpl.
  - rewrite Hc. reflexivity.
  - simpl in Hw. apply andb_prop in Hw as [Hd Hw]. rewrite Hd. apply IH. exact Hw.
Qed.

(** X5. A checklist line that refers to an issue, anywhere in the body and
    whatever surrounds it, makes the body that of a parent issue: a dash,
    white space, a box that is empty or ticked with "x", white space, "#" and
    a digit. *)
Theorem checklist_reference_makes_parent (pre post ws1 ws2 : string) (mark d : ascii) :
  whitespace ws1 = true -> whitespace ws2 = true ->
  mark = " "%char \/ mark = "x"%char ->
  Js.isDigit d = true ->
  isParentIssue
    (String.append pre
       (String "-" (String.append ws1
          (String "[" (String mark (String "]" (String.append ws2
             (String "#" (String d post))))))))) = true.
Proof.
  intros H1 H2 Hmark Hd. apply isParentIssue_skip.
  unfold whitespace in H1, H2.
  destruct ws1 as [|c1 w1]; [discriminate|]. destruct ws2 as [|c2 w2]; [discriminate|].
  simpl in H1, H2. apply andb_prop in H1 as [Hc1 Hw1]. apply andb_prop in H2 as [Hc2 Hw2].
  cbn [isParentIssue]. apply orb_true_iff. left.
  cbn [String.append parentPatternHere]. rewrite Hc1.
  rewrite (skipSpaces_run w1 _ "[" Hw1 eq_refl).
  cbn [String.append]. rewrite Hc2.
  rewrite (skipSpaces_run w2 _ "#" Hw2 eq_refl).
  destruct Hmark as [-> | ->]; simpl; exact Hd.
Qed.

Lemma checklist_reference_makes_parent_witness :
  isParentIssue
    (String.append "Tasks: "
       (String "-" (String.append " "
          (String "[" (String "x" (String "]" (String.append "  "
             (String "#" (String "4" "2 and more"))))))))) = true.
Proof.
  apply (checklist_reference_makes_parent "Tasks: " "2 and more" " " "  " "x" "4");
    try reflexivity.
  right. reflexivity.
Defined.

Lemma occurs_skipSpaces (c : ascii) (s : string) :
  occurs c (Js.skipSpaces s) = true -> occurs c s = true.
Proof.
  induction s as [|d s IH]; simpl; [auto|].
  destruct (Js.isSpace d); simpl; [|auto].
  intros H. rewrite (IH H). apply orb_true_r.
Qed.

Lemma parentPatternHere_occurs (s : string) :
  parentPatternHere s = true ->
  occurs "-" s = true /\ occurs "[" s = true /\ occurs "]" s = true /\ occurs "#" s = true.
Proof.
  unfold parentPatternHere.
  destruct s as [|c0 s]; [discriminate|].
  destruct (Ascii.eqb_spec c0 "-") as [->|Hne].
  2:{ destruct c0 as [[] [] [] [] [] [] [] []]; try discriminate. contradiction. }
  destruct s as [|c r]; [discriminate|].
  destruct (Js.isSpace c) eqn:Hc; [|discriminate].
  destruct (Js.skipSpaces r) as [|b0 t] eqn:Hr; [discriminate|].
  destruct (Ascii.eqb_spec b0 "[") as [->|Hb].
  2:{ destruct b0 as [[] [] [] [] [] [] [] []]; try discriminate. contradiction. }
  destruct t as [|b t]; [discriminate|]. destruct t as [|b1 t]; [discriminate|].
  destruct (Ascii.eqb_spec b1 "]") as [->|Hb1].
  2:{ destruct b1 as [[] [] [] [] [] [] [] []]; try discriminate. contradiction. }
  destruct t as [|c2 r2]; [discriminate|].
  destruct ((Ascii.eqb b " " || Ascii.eqb b "x") && Js.isSpace c2)%bool; [|discriminate].
  destruct (Js.skipSpaces r2) as [|h0 t2] eqn:Hr2; [discriminate|].
  destruct (Ascii.eqb_spec h0 "#") as [->|Hh].
  2:{ destruct h0 as [[] [] [] [] [] [] [] []]; try discriminate. contradiction. }
  intros _.
  assert (Hin : forall x, occurs x (Js.skipSpaces r) = true ->
                          occurs x (String "-" (String c r)) = true).
  { intros x Hx. apply occurs_skipSpaces in Hx. simpl. rewrite Hx. rewrite !orb_true_r.
    reflexivity. }
  assert (Hhash : occurs "#" (Js.skipSpaces r) = true).
  { rewrite Hr. cbn [occurs].
    assert (H : occurs "#" r2 = true)
      by (apply occurs_skipSpaces; rewrite Hr2; reflexivity).
    rewrite H. rewrite !orb_true_r. reflexivity. }
  repeat split.
  - apply Hin. rewrite Hr. reflexivity.
  - apply Hin. rewrite Hr. simpl. rewrite !orb_true_r. reflexivity.
  - apply Hin. exact Hhash.
Qed.

(** X6. A body is taken for that of a parent issue only if it holds a dash, both
    square brackets and a "#": without one of them [isParentIssue] is
    false. *)
Theorem parent_needs_checklist_characters (body : string) :
  isParentIssue body = true ->
  occurs "-" body = true /\ occurs "[" body = true /\
  occurs "]" body = true /\ occurs "#" body = true.
Proof.
  induction body as [|c body IH].
  - discriminate.
  - intros H. cbn [isParentIssue] in H. apply orb_prop in H as [H|H].
    + apply parentPatternHere_occurs. exact H.
    + destruct (IH H) as (H1 & H2 & H3 & H4). cbn [occurs].
      rewrite H1, H2, H3, H4, !orb_true_r. auto.
Qed.

Lemma parent_needs_checklist_characters_witness :
  occurs "-" "- [ ] #12" = true /\ occurs "[" "- [ ] #12" = true /\
  occurs "]" "- [ ] #12" = true /\ occurs "#" "- [ ] #12" = true.
Proof. apply (parent_needs_checklist_characters "- [ ] #12"). reflexivity. Defined.

(** X7. [getAssignedIssues] keeps, of what the search returns, the open items
    assigned to [username], and sends that one request; when the search is
    rejected it asks [getAssignedIssuesFallback] once and returns or throws
    what the fallback does, unfiltered. *)
Theorem assigned_issues_filtered_or_fallback (ctx : Context) (username : string) :
  let q := str ["org:"; repo_owner_login (repository (payload ctx));
                " assignee:"; username; " is:open is:issue"] in
  (forall items, rest_search_issuesAndPullRequests (octokit ctx) q = Resolved items ->
     exists kept,
       getAssignedIssues ctx username = ([search_issuesAndPullRequests q], Ok kept) /\
       (forall it, In it kept <->
                   In it items /\ state it = "open" /\ AssignedTo username it)) /\
  (forall reason, rest_search_issuesAndPullRequests (octokit ctx) q = Rejected reason ->
     getAssignedIssues ctx username
     = ([search_issuesAndPullRequests q; ext_getAssignedIssuesFallback username],
        answerRes (getAssignedIssuesFallback (ext ctx) username))).
Proof.
  intros q. split.
  - intros items Hq. eexists. split.
    + unfold getAssignedIssues, call. fold q. rewrite Hq. reflexivity.
    + intros it. rewrite filter_In. unfold isAssignedTo, AssignedTo.
      split.
      * intros [Hin H]. apply andb_prop in H as [Hopen Hass].
        apply String.eqb_eq in Hopen. repeat split; try assumption.
        apply orb_prop in Hass as [H|H].
        -- left. destruct (assignee it) as [u|]; [|discriminate].
           exists u. split; [reflexivity | apply String.eqb_eq; exact H].
        -- right. destruct (assignees it) as [us|]; [|discriminate].
           apply existsb_exists in H as (u & Hu & Hl).
           exists us, u. repeat split; [exact Hu | apply String.eqb_eq; exact Hl].
      * intros (Hin & Hopen & Hass). split; [exact Hin|].
        apply String.eqb_eq in Hopen. rewrite Hopen. simpl.
        destruct Hass as [(u & Hu & Hl) | (us & u & Hus & Hu & Hl)].
        -- rewrite Hu. apply String.eqb_eq in Hl. rewrite Hl. reflexivity.
        -- rewrite Hus. apply orb_true_iff. right.
           apply existsb_exists. exists u. split; [exact Hu | apply String.eqb_eq; exact Hl].
  - intros reason Hq. unfold getAssignedIssues, call, answerRes. fold q. rewrite Hq. simpl.
    destruct (getAssignedIssuesFallback (ext ctx) username); reflexivity.
Qed.

Lemma assigned_issues_filtered_or_fallback_witness :
  getAssignedIssues ctxSearchDown "bob"
  = ([search_issuesAndPullRequests "org:ubiquity assignee:bob is:open is:issue";
      ext_getAssignedIssuesFallback "bob"], Ok []).
Proof.
  exact (proj2 (assigned_issues_filtered_or_fallback ctxSearchDown "bob") "503" eq_refl).
Defined.

(** X8. [getAllPullRequestsWithRetry] returns the search result as it is after
    one request; when the search is rejected, its error is dropped and
    [getAllPullRequestsFallback] is asked once, with the same state and
    user: the outcome is the fallback's. *)
Theorem pull_requests_retry_once (ctx : Context) (state username : string) :
  (forall items,
      rest_search_issuesAndPullRequests (octokit ctx) (pullRequestQuery ctx state username)
      = Resolved items ->
      getAllPullRequestsWithRetry ctx state username
      = ([search_issuesAndPullRequests (pullRequestQuery ctx state username)], Ok items)) /\
  (forall reason,
      rest_search_issuesAndPullRequests (octokit ctx) (pullRequestQuery ctx state username)
      = Rejected reason ->
      getAllPullRequestsWithRetry ctx state username
      = ([search_issuesAndPullRequests (pullRequestQuery ctx state username);
          ext_getAllPullRequestsFallback username],
         answerRes (getAllPullRequestsFallback (ext ctx) state username))).
Proof.
  unfold getAllPullRequestsWithRetry, getAllPullRequests, rethrow, call, answerRes.
  split.
  - intros items Hq. rewrite Hq. reflexivity.
  - intros reason Hq. rewrite Hq. simpl.
    destruct (getAllPullRequestsFallback (ext ctx) state username); reflexivity.
Qed.

Lemma pull_requests_retry_once_witness :
  getAllPullRequestsWithRetry ctxSearchDown "open" "bob"
  = ([search_issuesAndPullRequests (pullRequestQuery ctxSearchDown "open" "bob");
      ext_getAllPullRequestsFallback "bob"], Ok []).
Proof.
  exact (proj2 (pull_requests_retry_once ctxSearchDown "open" "bob") "503" eq_refl).
Defined.

(** X9. [getReviewRequestsTimeline] never throws: it sends one request and
    returns the "review_requested" and "review_request_removed" entries of
    the answer, and the empty list when the request is rejected. *)
Theorem review_requests_timeline_never_throws (ctx : Context) (pullNumber : Z)
  (owner repo : string) :
  exists requests,
    getReviewRequestsTimeline ctx pullNumber owner repo
    = ([issues_listEventsForTimeline true owner repo pullNumber], Ok requests) /\
    (forall r, In r requests ->
               te_event r = "review_requested" \/ te_event r = "review_request_removed") /\
    (forall data,
        rest_issues_listEventsForTimeline (octokit ctx) true owner repo pullNumber
        = Resolved data ->
        forall r, In r requests <-> In r data /\ isReviewRequestKind (te_event r) = true) /\
    (forall reason,
        rest_issues_listEventsForTimeline (octokit ctx) true owner repo pullNumber
        = Rejected reason -> requests = []).
Proof.
  unfold getReviewRequestsTimeline, call.
  destruct (rest_issues_listEventsForTimeline (octokit ctx) true owner repo pullNumber)
    as [data|reason]; simpl; eexists; (split; [reflexivity|]); split.
  - intros r Hr. apply filter_In in Hr as [_ Hk]. unfold isReviewRequestKind in Hk.
    apply orb_prop in Hk as [H|H]; apply String.eqb_eq in H; auto.
  - split; [|discriminate]. intros d Hd. injection Hd as <-. intros r. apply filter_In.
  - intros r [].
  - split; [discriminate | reflexivity].
Qed.

(** X10. [addAssignees] sends the assignee update first. If the update is
    rejected it throws "Adding the assignee failed" and nothing else is sent;
    with fewer than two usernames the update is all it sends; with two or
    more it re-reads the issue, and an issue that then shows no assignee
    makes it throw although the update has been sent. *)
Theorem add_assignees_then_confirm (ctx : Context) (issueNo : Z) (usernames : list string) :
  (forall reason,
      rest_issues_addAssignees (octokit ctx) issueNo usernames = Rejected reason ->
      addAssignees ctx issueNo usernames
      = ([issues_addAssignees issueNo usernames], Err (JsErr "Adding the assignee failed"))) /\
  (rest_issues_addAssignees (octokit ctx) issueNo usernames = Resolved tt ->
   (List.length usernames < 2)%nat ->
   addAssignees ctx issueNo usernames = ([issues_addAssignees issueNo usernames], Ok tt)) /\
  (rest_issues_addAssignees (octokit ctx) issueNo usernames = Resolved tt ->
   (2 <= List.length usernames)%nat ->
   (rest_issues_get (octokit ctx) issueNo = Resolved None \/
    rest_issues_get (octokit ctx) issueNo = Resolved (Some [])) ->
   addAssignees ctx issueNo usernames
   = ([issues_addAssignees issueNo usernames; issues_get issueNo],
      Err (LogErr "We detected that this task was not assigned to anyone. Please report this to the maintainers."))).
Proof.
  unfold addAssignees, confirmMultiAssignment, rethrow, call.
  split; [|split].
  - intros reason ->. reflexivity.
  - intros -> Hlen. apply Nat.ltb_lt in Hlen. rewrite Hlen. reflexivity.
  - intros -> Hlen Hget.
    assert (E : (List.length usernames <? 2)%nat = false) by (apply Nat.ltb_ge; exact Hlen).
    rewrite E. destruct Hget as [-> | ->]; reflexivity.
Qed.

Lemma add_assignees_then_confirm_witness :
  addAssignees ctxSearchDown 7 ["alice"; "bob"]
  = ([issues_addAssignees 7 ["alice"; "bob"]; issues_get 7],
     Err (LogErr "We detected that this task was not assigned to anyone. Please report this to the maintainers.")).
Proof.
  exact (proj2 (proj2 (add_assignees_then_confirm ctxSearchDown 7 ["alice"; "bob"]))
           eq_refl (le_n 2) (or_intror eq_refl)).
Defined.

(** X11. After an update for two or more usernames, on a private repository that
    shows one assignee only, [addAssignees] posts as a comment the logger's
    text for the notice about private repositories (level "info"), unless
    that text is empty; on a public one, or with two assignees shown, it
    posts nothing. *)
Theorem private_repository_notice (ctx : Context) (issueNo : Z) (usernames : list string)
  (shown : list User) :
  rest_issues_addAssignees (octokit ctx) issueNo usernames = Resolved tt ->
  (2 <= List.length usernames)%nat ->
  rest_issues_get (octokit ctx) issueNo = Resolved (Some shown) ->
  shown <> [] ->
  (repo_private (repository (payload ctx)) = true -> List.length shown = 1%nat ->
   trace (addAssignees ctx issueNo usernames)
   = [issues_addAssignees issueNo usernames; issues_get issueNo]
     ++ (if Js.truthy (logMessage_diff (ext ctx) "info" privateRepoNotice)
         then [issues_createComment (logMessage_diff (ext ctx) "info" privateRepoNotice)]
         else [])) /\
  (repo_private (repository (payload ctx)) = false \/ (2 <= List.length shown)%nat ->
   addAssignees ctx issueNo usernames
   = ([issues_addAssignees issueNo usernames; issues_get issueNo], Ok tt)).
Proof.
  intros Hw Hlen Hget Hne.
  assert (E : (List.length usernames <? 2)%nat = false) by (apply Nat.ltb_ge; exact Hlen).
  unfold addAssignees, confirmMultiAssignment, rethrow, call.
  rewrite Hw, E. cbn [try_catch bind]. rewrite Hget.
  destruct shown as [|u rest]; [contradiction|].
  split.
  - intros Hpriv Hone. rewrite Hpriv. simpl in Hone.
    destruct rest; [|discriminate]. simpl.
    destruct (Js.truthy (logMessage_diff (ext ctx) "info" privateRepoNotice));
      [|reflexivity].
    destruct (rest_issues_createComment (octokit ctx) _); reflexivity.
  - intros [Hpub | Htwo].
    + rewrite Hpub. reflexivity.
    + destruct rest as [|v rest]; [simpl in Htwo; lia|].
      rewrite andb_false_r. reflexivity.
Qed.

Lemma private_repository_notice_witness :
  trace (addAssignees ctxPrivate 7 ["alice"; "bob"])
  = [issues_addAssignees 7 ["alice"; "bob"]; issues_get 7;
     issues_createComment (diffBlock "info" privateRepoNotice)] /\
  addAssignees Fixtures.ctxOpen 7 ["alice"; "bob"]
  = ([issues_addAssignees 7 ["alice"; "bob"]; issues_get 7], Ok tt).
Proof.
  split.
  - apply (proj1 (private_repository_notice ctxPrivate 7 ["alice"; "bob"] [alice]
                    eq_refl (le_n 2) eq_refl (fun H => nil_cons (eq_sym H)))).
    + reflexivity.
    + reflexivity.
  - apply (proj2 (private_repository_notice Fixtures.ctxOpen 7 ["alice"; "bob"] [alice; bob]
                    eq_refl (le_n 2) eq_refl (fun H => nil_cons (eq_sym H)))).
    left. reflexivity.
Defined.

Lemma append_assoc' (a b c : string) :
  String.append (String.append a b) c = String.append a (String.append b c).
Proof. induction a as [|x a IH]; simpl; [reflexivity | rewrite IH; reflexivity]. Qed.

Lemma append_nil_r' (a : string) : String.append a "" = a.
Proof. induction a as [|x a IH]; simpl; [reflexivity | rewrite IH; reflexivity]. Qed.

Lemma splitAux_segment (seg t cur : string) :
  slashFree seg = true ->
  Js.splitAux "/" (String.append seg t) cur = Js.splitAux "/" t (String.append cur seg).
Proof.
  revert cur. induction seg as [|c seg IH]; intros cur Hfree; simpl.
  - rewrite append_nil_r'. reflexivity.
  - unfold slashFree in Hfree. simpl in Hfree. apply negb_true_iff in Hfree.
    apply orb_false_elim in Hfree as [Hc Hseg]. rewrite Hc.
    rewrite IH by (unfold slashFree; rewrite Hseg; reflexivity).
    rewrite append_assoc'. reflexivity.
Qed.

Lemma splitAux_concat (seg : string) (segs : list string) (cur : string) :
  Forall (fun s => slashFree s = true) (seg :: segs) ->
  Js.splitAux "/" (String.concat "/" (seg :: segs)) cur = String.append cur seg :: segs.
Proof.
  revert seg cur. induction segs as [|next segs IH]; intros seg cur Hall.
  - inversion Hall as [|? ? Hseg _]; subst. cbn [String.concat].
    rewrite <- (append_nil_r' seg) at 1. rewrite splitAux_segment by exact Hseg. reflexivity.
  - inversion Hall as [|? ? Hseg Hrest]; subst.
    change (String.concat "/" (seg :: next :: segs))
      with (String.append seg (String "/" (String.concat "/" (next :: segs)))).
    rewrite splitAux_segment by exact Hseg. cbn [Js.splitAux Ascii.eqb Bool.eqb].
    rewrite (IH next "" Hrest). reflexivity.
Qed.

(** X12. [getOwnerRepoFromHtmlUrl] reads a URL as its pieces between slashes:
    with five pieces or more it returns the fourth and the fifth, so for
    "https://github.com/<owner>/<repo>/..." the owner and the repository;
    with fewer pieces it throws "Invalid URL". *)
Theorem owner_and_repo_from_url (segs : list string) :
  Forall (fun s => slashFree s = true) segs ->
  ((5 <= List.length segs)%nat ->
   getOwnerRepoFromHtmlUrl (String.concat "/" segs) = Ok (nth 3 segs "", nth 4 segs "")) /\
  ((List.length segs < 5)%nat ->
   getOwnerRepoFromHtmlUrl (String.concat "/" segs) = Err (JsErr "Invalid URL")).
Proof.
  intros Hall. unfold getOwnerRepoFromHtmlUrl, Js.split.
  destruct segs as [|seg segs].
  - split; [simpl; lia | reflexivity].
  - rewrite (splitAux_concat seg segs "" Hall). cbn [String.append].
    split; intros Hlen.
    + apply Nat.ltb_ge in Hlen. rewrite Hlen. reflexivity.
    + apply Nat.ltb_lt in Hlen. rewrite Hlen. reflexivity.
Qed.

Lemma owner_and_repo_from_url_witness :
  ((5 <= List.length ["https:"; ""; "github.com"; "ubiquity"; "work"; "pull"; "12"])%nat ->
   getOwnerRepoFromHtmlUrl
     (String.concat "/" ["https:"; ""; "github.com"; "ubiquity"; "work"; "pull"; "12"])
   = Ok (nth 3 ["https:"; ""; "github.com"; "ubiquity"; "work"; "pull"; "12"] "",
         nth 4 ["https:"; ""; "github.com"; "ubiquity"; "work"; "pull"; "12"] "")) /\
  ((List.length ["https:"; ""; "github.com"; "ubiquity"; "work"; "pull"; "12"] < 5)%nat ->
   getOwnerRepoFromHtmlUrl
     (String.concat "/" ["https:"; ""; "github.com"; "ubiquity"; "work"; "pull"; "12"])
   = Err (JsErr "Invalid URL")).
Proof.
  apply (owner_and_repo_from_url ["https:"; ""; "github.com"; "ubiquity"; "work"; "pull"; "12"]).
  repeat constructor.
Defined.

(** The URL of that witness, written out. *)
Example owner_and_repo_of_pull_request :
  getOwnerRepoFromHtmlUrl "https://github.com/ubiquity/work/pull/12" = Ok ("ubiquity", "work").
Proof. reflexivity. Qed.

(** X13. The value of [reviewDelayTolerance] is never read by the loop of
    [getAvailableOpenedPullRequests]: an iteration runs the same under any
    two values, since the branch that parses it needs a pull request with no
    latest review, and such a pull request has been counted as approved
    before. In particular a pull request without any review is counted as
    approved whatever its age, after the one review query. *)
Theorem tolerance_value_is_never_read (ctx : Context) (pr : SearchItem) (b : Buckets) :
  (forall tol tol', classifyPullRequest ctx tol pr b = classifyPullRequest ctx tol' pr b) /\
  (forall tol owner repo,
      getOwnerRepoFromHtmlUrl (html_url pr) = Ok (owner, repo) ->
      graphql_pullRequest_reviews (octokit ctx) owner repo (number pr) = Resolved [] ->
      classifyPullRequest ctx tol pr b
      = ([graphql_reviews owner repo (number pr)], Ok (fst b ++ [pr], snd b))).
Proof.
  destruct b as [A C]. split.
  - intros tol tol'.
    unfold classifyPullRequest, unreviewedTail, getLatestReviewStatus, lift, call.
    destruct (getOwnerRepoFromHtmlUrl (html_url pr)) as [[owner repo]|e]; [|reflexivity].
    cbn [bind].
    destruct (graphql_pullRequest_reviews (octokit ctx) owner repo (number pr)) as [nodes|];
      [|reflexivity].
    destruct nodes as [|n nodes]; [reflexivity|].
    cbn [bind ret lastNode latestReview hasUnresolvedChanges option_map].
    reflexivity.
  - intros tol owner repo Hurl Hq.
    unfold classifyPullRequest, getLatestReviewStatus, lift, call.
    rewrite Hurl. cbn [bind]. rewrite Hq. reflexivity.
Qed.

Lemma tolerance_value_is_never_read_witness :
  classifyPullRequest ctxFresh "1 Day" (pr 1 4000) ([], [])
  = ([graphql_reviews "ubiquity" "work" 1], Ok ([pr 1 4000], [])).
Proof.
  exact (proj2 (tolerance_value_is_never_read ctxFresh (pr 1 4000) ([], []))
           "1 Day" "ubiquity" "work" eq_refl eq_refl).
Defined.

(** X14. The latest review decides, together with the last ten: a pull request
    whose latest review is "APPROVED", or none of whose last ten reviews is
    "CHANGES_REQUESTED", is counted as approved, earlier requests for
    changes notwithstanding; one whose latest review is neither "APPROVED"
    nor "CHANGES_REQUESTED" while an earlier one requested changes is
    counted in neither bucket. *)
Theorem latest_review_decides (ctx : Context) (tol : string) (pr : SearchItem)
  (owner repo : string) (nodes : list ReviewNode) (latest : ReviewNode)
  (A C : list SearchItem) :
  getOwnerRepoFromHtmlUrl (html_url pr) = Ok (owner, repo) ->
  graphql_pullRequest_reviews (octokit ctx) owner repo (number pr) = Resolved nodes ->
  lastNode nodes = Some latest ->
  (node_state latest = "APPROVED" \/ anyChangesRequested nodes = false ->
   classifyPullRequest ctx tol pr (A, C)
   = ([graphql_reviews owner repo (number pr)], Ok (A ++ [pr], C))) /\
  (node_state latest <> "APPROVED" -> node_state latest <> "CHANGES_REQUESTED" ->
   anyChangesRequested nodes = true ->
   classifyPullRequest ctx tol pr (A, C)
   = ([graphql_reviews owner repo (number pr)], Ok (A, C))).
Proof.
  intros Hurl Hq Hlast.
  unfold classifyPullRequest, unreviewedTail, getLatestReviewStatus, lift, call.
  rewrite Hurl. cbn [bind]. rewrite Hq.
  cbn [bind ret latestReview hasUnresolvedChanges]. rewrite Hlast. cbn [option_map].
  fold (anyChangesRequested nodes).
  split.
  - intros [Happ | Hnone].
    + rewrite Happ. reflexivity.
    + rewrite Hnone. rewrite orb_true_r. reflexivity.
  - intros Hna Hnc Hany. rewrite Hany.
    destruct (String.eqb_spec (node_state latest) "APPROVED"); [contradiction|].
    destruct (String.eqb_spec (node_state latest) "CHANGES_REQUESTED"); [contradiction|].
    reflexivity.
Qed.

Lemma latest_review_decides_witness :
  (node_state {| node_state := "APPROVED"; submittedAt := Some 300 |} = "APPROVED"
   \/ anyChangesRequested
        [{| node_state := "CHANGES_REQUESTED"; submittedAt := Some 100 |};
         {| node_state := "APPROVED"; submittedAt := Some 300 |}] = false ->
   classifyPullRequest ctxApprovedLater "1 Day" (pr 1 4000) ([], [])
   = ([graphql_reviews "ubiquity" "work" 1], Ok ([] ++ [pr 1 4000], []))) /\
  (node_state {| node_state := "APPROVED"; submittedAt := Some 300 |} <> "APPROVED" ->
   node_state {| node_state := "APPROVED"; submittedAt := Some 300 |} <> "CHANGES_REQUESTED" ->
   anyChangesRequested
     [{| node_state := "CHANGES_REQUESTED"; submittedAt := Some 100 |};
      {| node_state := "APPROVED"; submittedAt := Some 300 |}] = true ->
   classifyPullRequest ctxApprovedLater "1 Day" (pr 1 4000) ([], [])
   = ([graphql_reviews "ubiquity" "work" 1], Ok ([], []))).
Proof.
  apply (latest_review_decides ctxApprovedLater "1 Day" (pr 1 4000) "ubiquity" "work"
           [{| node_state := "CHANGES_REQUESTED"; submittedAt := Some 100 |};
            {| node_state := "APPROVED"; submittedAt := Some 300 |}]
           {| node_state := "APPROVED"; submittedAt := Some 300 |} [] []); reflexivity.
Defined.

(** What one iteration adds to empty buckets: the pull request to one of
    them, or nothing. *)
Lemma classifyPullRequest_adds_one (ctx : Context) (tol : string) (pr : SearchItem)
  (dA dC : list SearchItem) :
  outcome (classifyPullRequest ctx tol pr ([], [])) = Ok (dA, dC) ->
  (dA = [pr] /\ dC = []) \/ (dA = [] /\ dC = [pr]) \/ (dA = [] /\ dC = []).
Proof.
  unfold classifyPullRequest, unreviewedTail, getLatestReviewStatus,
    getReviewRequestsTimeline, lift, call.
  destruct (getOwnerRepoFromHtmlUrl (html_url pr)) as [[owner repo]|e]; simpl; [|discriminate].
  destruct (graphql_pullRequest_reviews (octokit ctx) owner repo (number pr)) as [nodes|];
    simpl; [|discriminate].
  destruct (lastNode nodes) as [latest|]; simpl.
  - destruct (String.eqb (node_state latest) "APPROVED"
              || negb (existsb (fun review => String.eqb (node_state review) "CHANGES_REQUESTED")
                         nodes))%bool; simpl.
    { intros H. injection H as <- <-. auto. }
    destruct (String.eqb (node_state latest) "CHANGES_REQUESTED"); simpl.
    2:{ intros H. injection H as <- <-. auto. }
    destruct (rest_issues_listEventsForTimeline (octokit ctx) true owner repo (number pr))
      as [data|]; simpl;
      destruct (isReviewRequestedAfterChanges _ _); simpl;
      intros H; injection H as <- <-; auto.
  - destruct (negb (existsb _ nodes)); simpl.
    { intros H. injection H as <- <-. auto. }
    destruct (getTimeValue ctx tol) as [tv|e]; simpl; [|discriminate].
    destruct (tv <=? now ctx - created_at pr); simpl; intros H; injection H as <- <-; auto.
Qed.

(** X15. Whatever [getAvailableOpenedPullRequests] returns, each open pull
    request of the user is counted at most once: the two buckets together
    are no longer than the list of pull requests and hold pull requests of
    that list only. *)
Theorem buckets_count_each_pull_request_once (ctx : Context) (username : string)
  (prs approved changes : list SearchItem) :
  outcome (getOpenedPullRequestsForUser ctx username) = Ok prs ->
  outcome (getAvailableOpenedPullRequests ctx username) = Ok (approved, changes) ->
  (List.length approved + List.length changes <= List.length prs)%nat /\
  incl approved prs /\ incl changes prs.
Proof.
  intros Hprs. unfold getAvailableOpenedPullRequests.
  destruct (reviewDelayTolerance (config ctx)) as [tol|].
  2:{ intros H. injection H as <- <-. repeat split; simpl; try lia; intros x []. }
  destruct (negb (Js.truthy tol)).
  { intros H. injection H as <- <-. repeat split; simpl; try lia; intros x []. }
  rewrite outcome_bind, Hprs. clear Hprs. revert approved changes.
  induction prs as [|pr prs IH]; intros approved changes; cbn [forOf].
  - intros H. injection H as <- <-. repeat split; simpl; try lia; intros x [].
  - rewrite outcome_bind.
    destruct (outcome (classifyPullRequest ctx tol pr ([], []))) as [[dA dC]|e] eqn:E;
      [|discriminate].
    rewrite ReviewProperties.classifyLoop_extend.
    destruct (outcome (forOf prs (classifyPullRequest ctx tol) ([], []))) as [[A' C']|e'] eqn:E';
      [|discriminate].
    cbn [extendRes extend fst snd]. intros H. injection H as <- <-.
    destruct (IH A' C' eq_refl) as (Hlen & HA & HC).
    apply classifyPullRequest_adds_one in E.
    destruct E as [[-> ->] | [[-> ->] | [-> ->]]]; simpl; repeat split; try lia;
      intros x Hx; simpl in Hx; simpl; try tauto;
      try (destruct Hx as [Hx|Hx]; [left; exact Hx | right; auto]); right; auto.
Qed.

Lemma buckets_count_each_pull_request_once_witness :
  (List.length [pr 1%Z 4000%Z] + List.length (@nil SearchItem)
   <= List.length [pr 1%Z 4000%Z])%nat /\
  incl [pr 1 4000] [pr 1 4000] /\ incl (@nil SearchItem) [pr 1 4000].
Proof.
  apply (buckets_count_each_pull_request_once ctxApprovedLater "alice"
           [pr 1 4000] [pr 1 4000] []); reflexivity.
Defined.

End IssueUtilsExtras.

(* ===================================================================== *)
(** ** More on the earlier revision of [src/utils/issue.ts] *)
(* ===================================================================== *)

Module IssueUtilsPrevExtras.

Import Vocabulary ReadVocabulary MoreVocabulary Fixtures MoreFixtures.

Lemma prev_reviews (ctx : Context) (pr : SearchItem) (owner repo : string) (all : list Review) :
  rest_pulls_listReviews (octokit ctx) owner repo (number pr) = Resolved all ->
  IssueUtilsPrev.getAllPullRequestReviews ctx (number pr) owner repo
  = ([pulls_listReviews owner repo (number pr)], Ok (filter (hasAuthority ctx) all)).
Proof.
  intros H. unfold IssueUtilsPrev.getAllPullRequestReviews, rethrow, call. rewrite H.
  reflexivity.
Qed.

(** X16. In the earlier revision only reviews by roles with review authority
    count. A pull request with such reviews is put in [approved] when one of
    them is "APPROVED" and, independently, the first of them that is
    "CHANGES_REQUESTED" is put in [changes]: a pull request with both is
    counted on both sides. The tolerance is not read. *)
Theorem earlier_revision_counts_reviews (ctx : Context) (tol : string) (pr : SearchItem)
  (owner repo : string) (all : list Review) (A : list SearchItem) (C : list Review) :
  IssueUtils.getOwnerRepoFromHtmlUrl (html_url pr) = Ok (owner, repo) ->
  rest_pulls_listReviews (octokit ctx) owner repo (number pr) = Resolved all ->
  filter (hasAuthority ctx) all <> [] ->
  IssueUtilsPrev.classifyPullRequest ctx tol pr (A, C)
  = ([pulls_listReviews owner repo (number pr)],
     Ok (if hasState "APPROVED" (filter (hasAuthority ctx) all) then A ++ [pr] else A,
         match IssueUtilsPrev.findState "CHANGES_REQUESTED" (filter (hasAuthority ctx) all) with
         | Some changesRequested => C ++ [changesRequested]
         | None => C
         end)) /\
  (hasState "APPROVED" (filter (hasAuthority ctx) all) = true ->
   hasState "CHANGES_REQUESTED" (filter (hasAuthority ctx) all) = true ->
   exists r, In r all /\ hasAuthority ctx r = true /\ review_state r = "CHANGES_REQUESTED" /\
             outcome (IssueUtilsPrev.classifyPullRequest ctx tol pr (A, C))
             = Ok (A ++ [pr], C ++ [r])).
Proof.
  intros Hurl Hrest Hne.
  set (rs := filter (hasAuthority ctx) all) in *.
  assert (Hrun : IssueUtilsPrev.classifyPullRequest ctx tol pr (A, C)
                 = ([pulls_listReviews owner repo (number pr)],
                    Ok (if hasState "APPROVED" rs then A ++ [pr] else A,
                        match IssueUtilsPrev.findState "CHANGES_REQUESTED" rs with
                        | Some changesRequested => C ++ [changesRequested]
                        | None => C
                        end))).
  { unfold IssueUtilsPrev.classifyPullRequest, IssueUtilsPrev.getOwnerRepoFromHtmlUrl, lift.
    rewrite Hurl. cbn [bind]. rewrite (prev_reviews ctx pr owner repo all Hrest). fold rs.
    pose proof (RevisionComparison.findState_hasState "APPROVED" rs) as Hfa.
    destruct rs as [|r rs']; [contradiction|].
    cbn [bind List.length Nat.ltb Nat.leb Nat.eqb].
    rewrite <- Hfa.
    destruct (IssueUtilsPrev.findState "APPROVED" (r :: rs'));
      destruct (IssueUtilsPrev.findState "CHANGES_REQUESTED" (r :: rs')); reflexivity. }
  split; [exact Hrun|].
  intros Happ Hcr. rewrite Hrun, Happ. cbn [outcome snd].
  pose proof (RevisionComparison.findState_hasState "CHANGES_REQUESTED" rs) as Hfc.
  rewrite Hcr in Hfc.
  destruct (IssueUtilsPrev.findState "CHANGES_REQUESTED" rs) as [r|] eqn:E; [|discriminate].
  unfold IssueUtilsPrev.findState in E. apply find_some in E as [Hin Hst].
  apply filter_In in Hin as [Hin Hauth]. apply String.eqb_eq in Hst.
  exists r. auto.
Qed.

Lemma earlier_revision_counts_reviews_witness :
  exists r, In r [{| review_state := "CHANGES_REQUESTED"; review_submitted_at := Some 100;
                     author_association := "MEMBER" |};
                  {| review_state := "APPROVED"; review_submitted_at := Some 300;
                     author_association := "MEMBER" |}] /\
            hasAuthority ctxApprovedLater r = true /\
            review_state r = "CHANGES_REQUESTED" /\
            outcome (IssueUtilsPrev.classifyPullRequest ctxApprovedLater "1 Day" (pr 1 4000)
                       ([], []))
            = Ok ([] ++ [pr 1 4000], [] ++ [r]).
Proof.
  apply (proj2 (earlier_revision_counts_reviews ctxApprovedLater "1 Day" (pr 1 4000)
                  "ubiquity" "work"
                  [{| review_state := "CHANGES_REQUESTED"; review_submitted_at := Some 100;
                      author_association := "MEMBER" |};
                   {| review_state := "APPROVED"; review_submitted_at := Some 300;
                      author_association := "MEMBER" |}] [] []
                  eq_refl eq_refl ltac:(discriminate))); reflexivity.
Defined.

(** X17. In the earlier revision a pull request without review by a role with
    authority is counted as approved exactly when the tolerance has elapsed
    since its creation, and an unusable tolerance makes the iteration throw
    "Invalid config time value", or what [ms] threw when it is [ms] that
    fails. *)
Theorem earlier_revision_waits_for_tolerance (ctx : Context) (tol : string) (pr : SearchItem)
  (owner repo : string) (all : list Review) (A : list SearchItem) (C : list Review) :
  IssueUtils.getOwnerRepoFromHtmlUrl (html_url pr) = Ok (owner, repo) ->
  rest_pulls_listReviews (octokit ctx) owner repo (number pr) = Resolved all ->
  filter (hasAuthority ctx) all = [] ->
  (forall tolerance, IssueUtils.getTimeValue ctx tol = Ok tolerance ->
     (tolerance <= now ctx - created_at pr ->
      outcome (IssueUtilsPrev.classifyPullRequest ctx tol pr (A, C)) = Ok (A ++ [pr], C)) /\
     (now ctx - created_at pr < tolerance ->
      outcome (IssueUtilsPrev.classifyPullRequest ctx tol pr (A, C)) = Ok (A, C))) /\
  (forall e, IssueUtils.getTimeValue ctx tol = Err e ->
     outcome (IssueUtilsPrev.classifyPullRequest ctx tol pr (A, C))
     = Err (match ms (ext ctx) tol with
            | Resolved _ => JsErr "Invalid config time value"
            | Rejected reason => Foreign reason
            end)).
Proof.
  intros Hurl Hrest Hnone.
  unfold IssueUtilsPrev.classifyPullRequest, IssueUtilsPrev.getOwnerRepoFromHtmlUrl,
    IssueUtilsPrev.getTimeValue, lift.
  rewrite Hurl. cbn [bind]. rewrite (prev_reviews ctx pr owner repo all Hrest), Hnone.
  cbn [bind List.length Nat.ltb Nat.leb Nat.eqb].
  split.
  - intros tolerance Htv. rewrite Htv. cbn [bind]. split; intros H.
    + apply Z.leb_le in H. rewrite H. reflexivity.
    + apply Z.leb_gt in H. rewrite H. reflexivity.
  - intros e He. rewrite He.
    apply StartFacts.getTimeValue_raises in He.
    destruct (ms (ext ctx) tol); subst e; reflexivity.
Qed.

Lemma earlier_revision_waits_for_tolerance_witness :
  outcome (IssueUtilsPrev.classifyPullRequest ctxFresh "1 Day" (pr 1 4000) ([], []))
  = Ok ([], []) /\
  outcome (IssueUtilsPrev.classifyPullRequest ctxStrict "soon" (pr 1 4000) ([], []))
  = Err (JsErr "Invalid config time value") /\
  outcome (IssueUtilsPrev.classifyPullRequest ctxNoTimeout "" (pr 1 4000) ([], []))
  = Err (Foreign "val is not a non-empty string or a valid number").
Proof.
  split; [|split].
  - destruct (earlier_revision_waits_for_tolerance ctxFresh "1 Day" (pr 1 4000)
                "ubiquity" "work" [] [] [] eq_refl eq_refl eq_refl) as [H _].
    apply (proj2 (H 86400000 eq_refl)). reflexivity.
  - destruct (earlier_revision_waits_for_tolerance ctxStrict "soon" (pr 1 4000)
                "ubiquity" "work" [] [] [] eq_refl eq_refl eq_refl) as [_ H].
    exact (H (JsErr "Invalid config time value") eq_refl).
  - destruct (earlier_revision_waits_for_tolerance ctxNoTimeout "" (pr 1 4000)
                "ubiquity" "work" [] [] [] eq_refl eq_refl eq_refl) as [_ H].
    exact (H (Foreign "val is not a non-empty string or a valid number") eq_refl).
Defined.

End IssueUtilsPrevExtras.

(* ===================================================================== *)
(** ** More on [src/handlers/shared/start.ts] *)
(* ===================================================================== *)

Module StartExtras.

Import CheckAssignments IssueUtils Start Vocabulary ReadVocabulary MoreVocabulary.
Import StartFacts Fixtures MoreFixtures.

(** X18. The three rejections that come first. Without sender nothing is sent. On
    a parent issue the notice is posted and nothing else is sent: the
    request ends on the parent error, or on "Adding a comment failed!" when
    the notice could not be posted. On a closed issue that is not a parent
    only the commit hash has been asked for, and the request ends on the
    closed error even when the issue has assignees. *)
Theorem early_rejections (ctx : Context) (issue : Issue) (s : User) (tm : list string) :
  start ctx issue None tm = ([], Err (LogErr msgNoSender)) /\
  (isParent issue = true ->
   start ctx issue (Some s) tm
   = ([issues_createComment msgParentComment],
      Err (match rest_issues_createComment (octokit ctx) msgParentComment with
           | Resolved _ => LogErr msgParent
           | Rejected _ => JsErr "Adding a comment failed!"
           end))) /\
  (isParent issue = false -> issue_state issue = ISSUE_TYPE_CLOSED ->
   start ctx issue (Some s) tm = ([repos_getCommit], Err (LogErr msgClosed))).
Proof.
  split; [reflexivity|]. split.
  - intros Hpar. rewrite start_run, Hpar, StartProperties.parentComment_run.
    cbn [trace outcome fst snd].
    destruct (rest_issues_createComment (octokit ctx) msgParentComment); reflexivity.
  - intros Hpar Hclosed. rewrite start_run, Hpar, Hclosed. reflexivity.
Qed.

Lemma early_rejections_witness :
  start ctxOpen closedIssue (Some alice) ["bob"] = ([repos_getCommit], Err (LogErr msgClosed)).
Proof.
  exact (proj2 (proj2 (early_rejections ctxOpen closedIssue alice ["bob"])) eq_refl eq_refl).
Defined.

Lemma fetchUserIds_loop (ctx : Context) (f : string -> Z) (usernames : list string)
  (acc : list Z) :
  (forall u, In u usernames -> rest_users_getByUsername (octokit ctx) u = Resolved (f u)) ->
  forOf usernames
    (fun user ids =>
       data_id <- call (users_getByUsername user) (rest_users_getByUsername (octokit ctx) user) ;;
       ret (ids ++ [data_id]))%m acc
  = (map users_getByUsername usernames, Ok (acc ++ map f usernames)).
Proof.
  revert acc. induction usernames as [|u us IH]; intros acc Hall; cbn [forOf map].
  - unfold ret. rewrite app_nil_r. reflexivity.
  - unfold call at 1. rewrite (Hall u (or_introl eq_refl)). cbn [bind ret app].
    rewrite IH by (intros v Hv; apply Hall; right; exact Hv).
    rewrite <- app_assoc. reflexivity.
Qed.

(** X19. When every lookup resolves, [fetchUserIds] looks every username up, in
    order, before it tests anything; it returns the identifiers in that
    order, and throws "Error while fetching user ids" when one of them is
    0. *)
Theorem user_ids_in_order (ctx : Context) (f : string -> Z) (usernames : list string) :
  (forall u, In u usernames -> rest_users_getByUsername (octokit ctx) u = Resolved (f u)) ->
  fetchUserIds ctx usernames
  = (map users_getByUsername usernames,
     if existsb (fun u => f u =? 0) usernames
     then Err (JsErr "Error while fetching user ids")
     else Ok (map f usernames)).
Proof.
  intros Hall. unfold fetchUserIds.
  rewrite (fetchUserIds_loop ctx f usernames [] Hall). cbn [bind app].
  rewrite filter_nonempty_existsb, existsb_map.
  destruct (existsb (fun u => f u =? 0) usernames); cbn [throw ret]; rewrite app_nil_r;
    reflexivity.
Qed.

Lemma user_ids_in_order_witness :
  fetchUserIds ctxOpen ["bob"; "alice"]
  = (map users_getByUsername ["bob"; "alice"],
     if existsb (fun u => (if String.eqb u "alice" then 1 else 2) =? 0) ["bob"; "alice"]
     then Err (JsErr "Error while fetching user ids")
     else Ok (map (fun u => if String.eqb u "alice" then 1 else 2) ["bob"; "alice"])).
Proof.
  apply (user_ids_in_order ctxOpen (fun u => if String.eqb u "alice" then 1 else 2)
           ["bob"; "alice"]).
  intros u _. simpl. destruct (String.eqb u "alice"); reflexivity.
Defined.

(** X20. A contributor whom the limit test turns down is not looked up in the
    issue's history: when [handleTaskLimitChecks] returns [false], the
    timeline of the issue has not been asked for. *)
Theorem over_limit_skips_history (username : string) (ctx : Context) (sender : string) :
  outcome (handleTaskLimitChecks username ctx sender) = Ok false ->
  ~ In (historyCheckCall ctx) (trace (handleTaskLimitChecks username ctx sender)).
Proof.
  set (P := fun c => c <> historyCheckCall ctx).
  assert (Hpr : Only P (getAvailableOpenedPullRequests ctx username)).
  { unfold getAvailableOpenedPullRequests, getOpenedPullRequestsForUser,
      getAllPullRequestsWithRetry, getAllPullRequests.
    repeat only_step; try (unfold P, historyCheckCall; discriminate).
    unfold classifyPullRequest, unreviewedTail, getLatestReviewStatus,
      getReviewRequestsTimeline.
    repeat only_step; unfold P, historyCheckCall; discriminate. }
  assert (Hiss : Only P (getAssignedIssues ctx username)).
  { unfold getAssignedIssues. repeat only_step; unfold P, historyCheckCall; discriminate. }
  unfold handleTaskLimitChecks. rewrite !outcome_bind, !trace_bind.
  destruct (outcome (getAvailableOpenedPullRequests ctx username)) as [[approved changes]|e];
    [|discriminate].
  rewrite !outcome_bind, !trace_bind.
  destruct (outcome (getAssignedIssues ctx username)) as [assigned|e]; [|discriminate].
  rewrite !outcome_bind, !trace_bind.
  destruct (outcome (call (ext_getUserRoleAndTaskLimit username)
                       (getUserRoleAndTaskLimit (ext ctx) username))) as [[role limit]|e];
    [|discriminate].
  destruct (limit <=? _).
  - intros _ Hin. cbn [trace ret fst call] in Hin. rewrite !in_app_iff in Hin.
    unfold Only in Hpr, Hiss. rewrite Forall_forall in Hpr, Hiss.
    destruct Hin as [Hin | [Hin | [[Hin | []] | []]]].
    + exact (Hpr _ Hin eq_refl).
    + exact (Hiss _ Hin eq_refl).
    + discriminate.
  - rewrite outcome_bind.
    destruct (outcome (hasUserBeenUnassigned ctx)) as [[|]|e]; discriminate.
Qed.

Lemma over_limit_skips_history_witness :
  ~ In (historyCheckCall ctxBobBusy) (trace (handleTaskLimitChecks "bob" ctxBobBusy "alice")).
Proof. apply (over_limit_skips_history "bob" ctxBobBusy "alice"). reflexivity. Defined.

Lemma collaborators_inner (ctx : Context) (toAssign : list string) :
  (outcome (forOf toAssign
              (fun user _ =>
                 isCollaborator <- call (ext_isUserCollaborator user)
                                     (isUserCollaborator (ext ctx) user) ;;
                 if isCollaborator then ret tt else throw (LogErr msgCollaboratorsOnly))%m
              tt) = Ok tt
   <-> forall u, In u toAssign -> isUserCollaborator (ext ctx) u = Resolved true) /\
  ((forall u, In u toAssign -> exists b, isUserCollaborator (ext ctx) u = Resolved b) ->
   (exists u, In u toAssign /\ isUserCollaborator (ext ctx) u = Resolved false) ->
   outcome (forOf toAssign
              (fun user _ =>
                 isCollaborator <- call (ext_isUserCollaborator user)
                                     (isUserCollaborator (ext ctx) user) ;;
                 if isCollaborator then ret tt else throw (LogErr msgCollaboratorsOnly))%m
              tt) = Err (LogErr msgCollaboratorsOnly)).
Proof.
  induction toAssign as [|u us [IH1 IH2]]; cbn [forOf].
  - split; [split; [intros _ v [] | reflexivity]|]. intros _ (v & [] & _).
  - rewrite !outcome_bind. unfold call at 1 3. cbn [outcome snd].
    split.
    + split.
      * destruct (isUserCollaborator (ext ctx) u) as [[|]|] eqn:E; cbn [outcome ret throw snd];
          try discriminate.
        intros H v [<- | Hv]; [exact E | apply IH1; assumption].
      * intros Hall. rewrite (Hall u (or_introl eq_refl)). cbn [outcome ret snd].
        apply IH1. intros v Hv. apply Hall. right. exact Hv.
    + intros Hres (v & Hv & Hfalse).
      destruct (Hres u (or_introl eq_refl)) as [b Hb]. rewrite Hb.
      destruct b; cbn [outcome ret throw snd]; [|reflexivity].
      apply IH2.
      * intros w Hw. apply Hres. right. exact Hw.
      * destruct Hv as [<- | Hv]; [congruence|]. exists v. auto.
Qed.

(** X21. The collaborator test. Without a label whose description holds
    "collaborator only" nobody is looked up. With such a label the test
    passes only if every contributor left to assign is answered to be a
    collaborator, and when all lookups answer and one answer is "no" it
    throws "Only collaborators can be assigned to this issue.". *)
Theorem restricted_labels_need_collaborators (ctx : Context) (labels : list Label)
  (toAssign : list string) :
  ((forall l, In l labels -> isCollaboratorOnly l = false) ->
   checkCollaborators ctx labels toAssign = ([], Ok tt)) /\
  ((exists l, In l labels /\ isCollaboratorOnly l = true) ->
   (outcome (checkCollaborators ctx labels toAssign) = Ok tt ->
    forall u, In u toAssign -> isUserCollaborator (ext ctx) u = Resolved true) /\
   ((forall u, In u toAssign -> exists b, isUserCollaborator (ext ctx) u = Resolved b) ->
    (exists u, In u toAssign /\ isUserCollaborator (ext ctx) u = Resolved false) ->
    outcome (checkCollaborators ctx labels toAssign) = Err (LogErr msgCollaboratorsOnly))).
Proof.
  unfold checkCollaborators.
  destruct (collaborators_inner ctx toAssign) as [Hin1 Hin2].
  induction labels as [|l labels IH]; cbn [forOf].
  - split; [reflexivity|]. intros (l & [] & _).
  - destruct IH as [IHa IHb]. split.
    + intros Hnone. rewrite (Hnone l (or_introl eq_refl)). rewrite bind_ret_l.
      apply IHa. intros l' Hl'. apply Hnone. right. exact Hl'.
    + intros (l' & Hl' & Hr). rewrite !outcome_bind.
      destruct (isCollaboratorOnly l) eqn:El.
      * split.
        -- destruct (outcome (forOf toAssign _ tt)) as [[]|e] eqn:E; [|discriminate].
           intros _. apply Hin1. reflexivity.
        -- intros Hres Hfalse. rewrite (Hin2 Hres Hfalse). reflexivity.
      * cbn [outcome ret snd].
        destruct Hl' as [<- | Hl']; [congruence|].
        apply IHb. exists l'. auto.
Qed.

Lemma restricted_labels_need_collaborators_witness :
  outcome (checkCollaborators ctxStrict [priceLabel; restrictedLabel] ["bob"; "alice"])
  = Err (LogErr msgCollaboratorsOnly).
Proof.
  apply (proj2 (proj2 (restricted_labels_need_collaborators ctxStrict
                         [priceLabel; restrictedLabel] ["bob"; "alice"])
                  (ex_intro _ restrictedLabel (conj (or_intror (or_introl eq_refl)) eq_refl)))).
  - intros u _. eexists. reflexivity.
  - exists "bob". split; [left; reflexivity | reflexivity].
Defined.

Lemma addAssignees_trace (ctx : Context) (n : Z) (us : list string) :
  exists rest,
    trace (addAssignees ctx n us) = issues_addAssignees n us :: rest /\
    Forall (fun c => forall body, c = issues_createComment body ->
                                  body = logMessage_diff (ext ctx) "info" privateRepoNotice)
      (trace (addAssignees ctx n us)).
Proof.
  assert (Hall : Only (fun c => forall body, c = issues_createComment body ->
                                             body = logMessage_diff (ext ctx) "info"
                                                      privateRepoNotice)
                   (addAssignees ctx n us)).
  { unfold addAssignees, confirmMultiAssignment, addCommentToIssue.
    repeat only_step; intros body H; try discriminate. injection H as <-. reflexivity. }
  split with (x := tl (trace (addAssignees ctx n us))). split; [|exact Hall].
  unfold addAssignees, rethrow, call. rewrite trace_bind, trace_try_catch.
  destruct (rest_issues_addAssignees (octokit ctx) n us); reflexivity.
Qed.

Lemma confirmation_body_truthy (a b c : string) :
  Js.truthy (String.concat nl [a; b; c]) = true.
Proof. destruct a; reflexivity. Qed.

Lemma confirmation_run (ctx : Context) (a b c : string) :
  addCommentToIssue ctx (Some (String.concat nl [a; b; c]))
  = ([issues_createComment (String.concat nl [a; b; c])],
     match rest_issues_createComment (octokit ctx) (String.concat nl [a; b; c]) with
     | Resolved _ => Ok tt
     | Rejected _ => Err (JsErr "Adding a comment failed!")
     end).
Proof.
  unfold addCommentToIssue. rewrite confirmation_body_truthy.
  unfold rethrow, call.
  destruct (rest_issues_createComment (octokit ctx) (String.concat nl [a; b; c])) as [[]|];
    reflexivity.
Qed.

Lemma afterLimits_reaches_commit (ctx : Context) (issue : Issue) (s : User)
  (cands toAssign : list string) (h : option string) (pl : Label) :
  toAssign <> [] ->
  find isPriceLabel (labelsOf issue) = Some pl ->
  outcome (checkCollaborators ctx (labelsOf issue) toAssign) = Ok tt ->
  afterLimits ctx issue s cands toAssign h
  = (trace (checkCollaborators ctx (labelsOf issue) toAssign)
       ++ trace (commit ctx issue s (labelsOf issue) toAssign h),
     outcome (commit ctx issue s (labelsOf issue) toAssign h)).
Proof.
  intros Hne Hpl Hcol. unfold afterLimits.
  destruct toAssign as [|u r]; [contradiction|]. cbn [List.length Nat.eqb andb].
  rewrite Hpl. rewrite bind_trace_outcome, Hcol. reflexivity.
Qed.

(** X22. An unusable [taskStaleTimeoutDuration] is found out too late. When the
    request has passed every test, the identifiers are resolved and the
    assignee update has gone through, the request still throws: "Invalid
    config time value" when [ms] answers no positive number, and what [ms]
    threw when it is [ms] that fails. The assignees are set, and the
    confirmation comment is never posted: the only comment there can be is
    the logger's text for the notice about private repositories. *)
Theorem stale_timeout_fails_after_assignment (ctx : Context) (issue : Issue) (s : User)
  (tm toAssign : list string) (pl : Label) (ids : list Z) (ac : AssignmentComment)
  (e : Thrown) :
  isParent issue = false ->
  issue_state issue <> ISSUE_TYPE_CLOSED ->
  assigneesOf issue = [] ->
  outcome (checkLimits ctx (login s) (candidates tm s)) = Ok toAssign ->
  toAssign <> [] ->
  find isPriceLabel (labelsOf issue) = Some pl ->
  outcome (checkCollaborators ctx (labelsOf issue) toAssign) = Ok tt ->
  outcome (fetchUserIds ctx toAssign) = Ok ids ->
  generateAssignmentComment (ext ctx) (issue_created_at issue) (issue_number issue) (id s)
    (getDeadline (ext ctx) (labelsOf issue)) = Resolved ac ->
  outcome (addAssignees ctx (issue_number issue) toAssign) = Ok tt ->
  getTimeValue ctx (taskStaleTimeoutDuration (config ctx)) = Err e ->
  outcome (start ctx issue (Some s) tm)
  = Err (match ms (ext ctx) (taskStaleTimeoutDuration (config ctx)) with
         | Resolved _ => JsErr "Invalid config time value"
         | Rejected reason => Foreign reason
         end) /\
  In (issues_addAssignees (issue_number issue) toAssign) (trace (start ctx issue (Some s) tm)) /\
  (forall body, In (issues_createComment body) (trace (start ctx issue (Some s) tm)) ->
                body = logMessage_diff (ext ctx) "info" privateRepoNotice).
Proof.
  intros Hpar Hopen Hfree Hlim Hne Hpl Hcol Hids Hgen Hadd Hstale.
  rewrite start_run, Hpar, Hfree, Hlim.
  destruct (String.eqb_spec (issue_state issue) ISSUE_TYPE_CLOSED); [contradiction|].
  cbn [List.length Nat.eqb negb].
  rewrite (afterLimits_reaches_commit ctx issue s _ toAssign _ pl Hne Hpl Hcol).
  cbn [trace outcome fst snd].
  assert (Hcommit : commit ctx issue s (labelsOf issue) toAssign (commitHashOf ctx)
                    = (trace (fetchUserIds ctx toAssign)
                         ++ ext_generateAssignmentComment
                         :: trace (addAssignees ctx (issue_number issue) toAssign),
                       Err (match ms (ext ctx) (taskStaleTimeoutDuration (config ctx)) with
                            | Resolved _ => JsErr "Invalid config time value"
                            | Rejected reason => Foreign reason
                            end))).
  { unfold commit, call, lift. rewrite Hgen, Hstale.
    apply getTimeValue_raises in Hstale.
    assert (He : e = match ms (ext ctx) (taskStaleTimeoutDuration (config ctx)) with
                     | Resolved _ => JsErr "Invalid config time value"
                     | Rejected reason => Foreign reason
                     end)
      by (destruct (ms (ext ctx) _); exact Hstale).
    rewrite <- He. clear He Hstale.
    remember (fetchUserIds ctx toAssign) as F eqn:EF. destruct F as [tF rF].
    cbn [outcome snd] in Hids. subst rF.
    remember (addAssignees ctx (issue_number issue) toAssign) as W eqn:EW.
    destruct W as [tW rW]. cbn [outcome snd] in Hadd. subst rW.
    cbn [bind trace fst app]. rewrite !app_nil_r. reflexivity. }
  rewrite Hcommit. cbn [trace outcome fst snd].
  destruct (addAssignees_trace ctx (issue_number issue) toAssign) as (rest & Hhead & Honly).
  split; [reflexivity|]. split.
  - right. apply in_or_app. right. apply in_or_app. right. apply in_or_app. right. right.
    rewrite Hhead. left. reflexivity.
  - intros body [H | H]; [discriminate|].
    apply in_app_or in H as [H | H].
    { pose proof (checkLimits_limitStage ctx (login s) (candidates tm s)) as Hst.
      unfold Only in Hst. rewrite Forall_forall in Hst. apply Hst in H. discriminate. }
    apply in_app_or in H as [H | H].
    { assert (Hc : Only (fun c => inLimitStage c = false /\ isWrite c = false)
                     (checkCollaborators ctx (labelsOf issue) toAssign)).
      { unfold checkCollaborators. repeat only_step; split; reflexivity. }
      unfold Only in Hc. rewrite Forall_forall in Hc. apply Hc in H as [_ H]. discriminate. }
    apply in_app_or in H as [H | [H | H]]; [|discriminate|].
    { assert (Hf : Only (fun c => isWrite c = false) (fetchUserIds ctx toAssign)).
      { unfold fetchUserIds. repeat only_step; reflexivity. }
      unfold Only in Hf. rewrite Forall_forall in Hf. apply Hf in H. discriminate. }
    rewrite Forall_forall in Honly. exact (Honly _ H body eq_refl).
Qed.

Lemma stale_timeout_fails_after_assignment_witness :
  (outcome (start ctxStrict (mkIssue [] [priceLabel]) (Some alice) [])
   = Err (JsErr "Invalid config time value") /\
   In (issues_addAssignees (issue_number (mkIssue [] [priceLabel])) ["alice"])
     (trace (start ctxStrict (mkIssue [] [priceLabel]) (Some alice) [])) /\
   (forall body,
       In (issues_createComment body)
         (trace (start ctxStrict (mkIssue [] [priceLabel]) (Some alice) [])) ->
       body = diffBlock "info" privateRepoNotice)) /\
  (outcome (start ctxNoTimeout (mkIssue [] [priceLabel]) (Some alice) [])
   = Err (Foreign "val is not a non-empty string or a valid number") /\
   In (issues_addAssignees (issue_number (mkIssue [] [priceLabel])) ["alice"])
     (trace (start ctxNoTimeout (mkIssue [] [priceLabel]) (Some alice) [])) /\
   (forall body,
       In (issues_createComment body)
         (trace (start ctxNoTimeout (mkIssue [] [priceLabel]) (Some alice) [])) ->
       body = diffBlock "info" privateRepoNotice)).
Proof.
  split.
  - apply (stale_timeout_fails_after_assignment ctxStrict (mkIssue [] [priceLabel]) alice []
             ["alice"] priceLabel [1] comment (JsErr "Invalid config time value"));
      try reflexivity; discriminate.
  - apply (stale_timeout_fails_after_assignment ctxNoTimeout (mkIssue [] [priceLabel]) alice []
             ["alice"] priceLabel [1] comment
             (Foreign "val is not a non-empty string or a valid number"));
      try reflexivity; discriminate.
Defined.

Lemma commit_ok (ctx : Context) (issue : Issue) (s : User) (labels : list Label)
  (toAssign : list string) (h : option string) (r : Result) :
  outcome (commit ctx issue s labels toAssign h) = Ok r ->
  r = {| content := "Task assigned successfully"; status := HttpStatusCode_OK |} /\
  In (issues_addAssignees (issue_number issue) toAssign)
    (trace (commit ctx issue s labels toAssign h)) /\
  exists pre body, trace (commit ctx issue s labels toAssign h)
                   = pre ++ [issues_createComment body].
Proof.
  destruct (addAssignees_trace ctx (issue_number issue) toAssign) as (rest & Hhead & _).
  unfold commit, call, lift.
  remember (fetchUserIds ctx toAssign) as F eqn:EF. destruct F as [tF [ids|e]];
    cbn [bind]; [|discriminate].
  destruct (generateAssignmentComment (ext ctx) (issue_created_at issue) (issue_number issue)
              (id s) (getDeadline (ext ctx) labels)) as [ac|]; cbn [bind]; [|discriminate].
  remember (addAssignees ctx (issue_number issue) toAssign) as W eqn:EW.
  destruct W as [tW [[]|e]]; cbn [bind]; [|discriminate].
  cbn [trace fst] in Hhead. subst tW.
  destruct (getTimeValue ctx (taskStaleTimeoutDuration (config ctx))) as [st|e];
    cbn [bind]; [|discriminate].
  rewrite confirmation_run.
  destruct (rest_issues_createComment (octokit ctx) _); cbn [bind ret outcome trace fst snd];
    [|discriminate].
  intros H. injection H as <-. split; [reflexivity|]. split.
  - apply in_or_app. right. simpl. auto.
  - eexists. eexists. rewrite !app_nil_r.
    rewrite app_assoc. change (?x :: ?l ++ ?y) with ((x :: l) ++ y).
    rewrite app_assoc. reflexivity.
Qed.

(** X23. What a successful request has done. [start] returns a result only for a
    request with a sender on an issue that is no parent issue, not closed,
    without assignee and with a price label; the result is "Task assigned
    successfully" with status 200; the assignee update has been sent, with
    the candidates the limit checks accepted, of whom there is at least one;
    and the last thing sent is the confirmation comment. *)
Theorem success_means_assigned (ctx : Context) (issue : Issue) (sender : option User)
  (tm : list string) (r : Result) :
  outcome (start ctx issue sender tm) = Ok r ->
  exists s pl pre body,
    sender = Some s /\
    isParent issue = false /\
    issue_state issue <> ISSUE_TYPE_CLOSED /\
    assigneesOf issue = [] /\
    find isPriceLabel (labelsOf issue) = Some pl /\
    filter (passes ctx (login s)) (candidates tm s) <> [] /\
    In (issues_addAssignees (issue_number issue)
          (filter (passes ctx (login s)) (candidates tm s)))
      (trace (start ctx issue sender tm)) /\
    trace (start ctx issue sender tm) = pre ++ [issues_createComment body] /\
    r = {| content := "Task assigned successfully"; status := 200 |}.
Proof.
  intros Hok. destruct sender as [s|]; [|discriminate Hok].
  pose proof (start_run ctx issue s tm) as Hrun.
  destruct (isParent issue) eqn:Hpar; [rewrite Hrun in Hok; discriminate Hok|].
  destruct (String.eqb_spec (issue_state issue) ISSUE_TYPE_CLOSED) as [|Hopen];
    [rewrite Hrun in Hok; discriminate Hok|].
  destruct (assigneesOf issue) as [|a l] eqn:Hfree; [|rewrite Hrun in Hok; discriminate Hok].
  cbn [List.length Nat.eqb negb] in Hrun.
  destruct (outcome (checkLimits ctx (login s) (candidates tm s))) as [toAssign|e] eqn:Hlim;
    [|rewrite Hrun in Hok; discriminate Hok].
  rewrite Hrun in Hok |- *. cbn [outcome trace fst snd] in Hok |- *. clear Hrun.
  pose proof (checkLimits_inv ctx (login s) (candidates tm s) toAssign Hlim) as Hto.
  assert (Hne : toAssign <> []).
  { intros ->. unfold afterLimits in Hok. cbn [List.length Nat.eqb andb] in Hok.
    destruct (1 <? List.length (candidates tm s))%nat; discriminate Hok. }
  destruct (find isPriceLabel (labelsOf issue)) as [pl|] eqn:Hpl.
  2:{ destruct (StartProperties.afterLimits_no_price ctx issue s (candidates tm s) toAssign
                  (commitHashOf ctx) Hpl) as [E | [E | [_ E]]];
        rewrite E in Hok; discriminate Hok. }
  assert (Hcol : outcome (checkCollaborators ctx (labelsOf issue) toAssign) = Ok tt).
  { unfold afterLimits in Hok. destruct toAssign as [|u rest]; [contradiction|].
    cbn [List.length Nat.eqb andb] in Hok. rewrite Hpl, outcome_bind in Hok.
    destruct (outcome (checkCollaborators ctx (labelsOf issue) (u :: rest))) as [[]|e];
      [reflexivity | discriminate Hok]. }
  rewrite (afterLimits_reaches_commit ctx issue s _ toAssign _ pl Hne Hpl Hcol) in Hok |- *.
  cbn [outcome trace fst snd] in Hok |- *.
  destruct (commit_ok ctx issue s (labelsOf issue) toAssign (commitHashOf ctx) r Hok)
    as (Hr & Hin & pre & body & Htr).
  exists s, pl.
  exists (repos_getCommit :: trace (checkLimits ctx (login s) (candidates tm s))
            ++ trace (checkCollaborators ctx (labelsOf issue) toAssign) ++ pre), body.
  rewrite <- Hto.
  repeat split; try assumption; try reflexivity.
  - right. apply in_or_app. right. apply in_or_app. right. exact Hin.
  - rewrite Htr. cbn [app]. rewrite <- !app_assoc. reflexivity.
Qed.

Lemma success_means_assigned_witness :
  exists s pl pre body,
    Some alice = Some s /\
    isParent (mkIssue [] [priceLabel]) = false /\
    issue_state (mkIssue [] [priceLabel]) <> ISSUE_TYPE_CLOSED /\
    assigneesOf (mkIssue [] [priceLabel]) = [] /\
    find isPriceLabel (labelsOf (mkIssue [] [priceLabel])) = Some pl /\
    filter (passes ctxOpen (login s)) (candidates ["bob"] s) <> [] /\
    In (issues_addAssignees (issue_number (mkIssue [] [priceLabel]))
          (filter (passes ctxOpen (login s)) (candidates ["bob"] s)))
      (trace (start ctxOpen (mkIssue [] [priceLabel]) (Some alice) ["bob"])) /\
    trace (start ctxOpen (mkIssue [] [priceLabel]) (Some alice) ["bob"])
    = pre ++ [issues_createComment body] /\
    {| content := "Task assigned successfully"; status := 200 |}
    = {| content := "Task assigned successfully"; status := 200 |}.
Proof.
  apply (success_means_assigned ctxOpen (mkIssue [] [priceLabel]) (Some alice) ["bob"]
           {| content := "Task assigned successfully"; status := 200 |}).
  reflexivity.
Defined.

End StartExtras.

(* ===================================================================== *)
(** ** Closing the pull requests linked to an issue *)
(* ===================================================================== *)

Module CloseExtras.

Import LinkedPullRequests CloseVocabulary MoreVocabulary Fixtures.

Lemma closePullRequest_ok (ctx : Context) (svc : CloseServices) (pr : GetLinkedResults) :
  closes ctx svc pr -> closePullRequest ctx svc pr = ([closing ctx pr], Ok tt).
Proof. unfold closes, closePullRequest, request, closing. intros ->. reflexivity. Qed.

Lemma closePullRequest_rejected (ctx : Context) (svc : CloseServices) (pr : GetLinkedResults)
  (reason : string) :
  rest_pulls_update svc (repo_owner_login (repository (payload ctx)))
    (repo_name (repository (payload ctx))) (pr_number pr) "closed" = Rejected reason ->
  closePullRequest ctx svc pr = ([closing ctx pr], Err (JsErr "Closing pull requests failed!")).
Proof. unfold closePullRequest, request, closing. intros ->. reflexivity. Qed.

Lemma eligible_split (n : Z) (owner author : string) (pr : GetLinkedResults) :
  eligible n owner author pr =
  (if (negb (String.eqb (pr_author pr) author)
       || negb (String.eqb (pr_organization pr) owner))%bool then false
   else if negb (issueLinkedViaPrBody (pr_body pr) n) then false else true).
Proof.
  unfold eligible.
  destruct (String.eqb (pr_author pr) author), (String.eqb (pr_organization pr) owner),
    (issueLinkedViaPrBody (pr_body pr) n); reflexivity.
Qed.

Lemma closeLinked_all (ctx : Context) (svc : CloseServices) (n : Z) (owner author : string)
  (linked : list GetLinkedResults) (comment : string) (isClosed : bool) :
  (forall pr, In pr linked -> eligible n owner author pr = true -> closes ctx svc pr) ->
  closeLinked ctx svc n owner author linked comment isClosed
  = (map (closing ctx) (filter (eligible n owner author) linked),
     Ok (String.append comment (closedList (filter (eligible n owner author) linked)),
         (isClosed || (0 <? List.length (filter (eligible n owner author) linked))%nat)%bool)).
Proof.
  revert comment isClosed.
  induction linked as [|pr rest IH]; intros comment isClosed Hall; cbn [closeLinked filter].
  - unfold done. cbn [map closedList List.length Nat.ltb Nat.leb].
    rewrite IssueUtilsExtras.append_nil_r', orb_false_r. reflexivity.
  - assert (Hrest : forall p, In p rest -> eligible n owner author p = true -> closes ctx svc p)
      by (intros p Hp; apply Hall; right; exact Hp).
    pose proof (eligible_split n owner author pr) as He.
    destruct (negb (String.eqb (pr_author pr) author)
              || negb (String.eqb (pr_organization pr) owner))%bool.
    { rewrite He. apply IH. exact Hrest. }
    destruct (negb (issueLinkedViaPrBody (pr_body pr) n)).
    { rewrite He. apply IH. exact Hrest. }
    rewrite He. rewrite (closePullRequest_ok ctx svc pr (Hall pr (or_introl eq_refl) He)).
    cbn [next]. rewrite (IH _ true Hrest). cbn [map closedList List.length app].
    rewrite IssueUtilsExtras.append_assoc', orb_true_r. reflexivity.
Qed.

(** X24. [closePullRequestForAnIssue] closes, in the order they are listed and
    with one update each, exactly the linked pull requests that [author]
    wrote in the organisation of [repository] and whose body links the issue;
    every update is addressed to the repository of the payload. It answers
    "No linked pull requests to close" when nothing is linked, "No PRs were
    closed" when nothing qualifies, and otherwise the list of what it
    closed. *)
Theorem closes_own_linked_pull_requests (ctx : Context) (svc : CloseServices)
  (issueNumber : Z) (repository : Repository) (author : string)
  (linked : list GetLinkedResults) :
  issueNumber <> 0 ->
  getLinkedPullRequests svc (repo_owner_login repository) (repo_name repository) issueNumber
  = Resolved linked ->
  (forall pr, In pr linked ->
              eligible issueNumber (repo_owner_login repository) author pr = true ->
              closes ctx svc pr) ->
  closePullRequestForAnIssue ctx svc issueNumber repository author
  = (ext_getLinkedPullRequests (repo_owner_login repository) (repo_name repository) issueNumber
       :: map (closing ctx)
            (filter (eligible issueNumber (repo_owner_login repository) author) linked),
     Ok (match linked with
         | [] => "No linked pull requests to close"
         | _ =>
             match filter (eligible issueNumber (repo_owner_login repository) author) linked with
             | [] => "No PRs were closed"
             | closed => String.append closedHeader (closedList closed)
             end
         end)).
Proof.
  intros Hn Hlinked Hall. unfold closePullRequestForAnIssue, request.
  destruct (Z.eqb_spec issueNumber 0); [contradiction|].
  rewrite Hlinked. cbn [next].
  destruct linked as [|pr rest]; [reflexivity|].
  rewrite (closeLinked_all ctx svc issueNumber _ author (pr :: rest) closedHeader false Hall).
  cbn [next orb].
  destruct (filter (eligible issueNumber (repo_owner_login repository) author) (pr :: rest));
    cbn [map List.length Nat.ltb Nat.leb done app]; rewrite ?app_nil_r; reflexivity.
Qed.

Lemma closes_own_linked_pull_requests_witness :
  closePullRequestForAnIssue ctxOpen closingWorks 7 repo "alice"
  = (ext_getLinkedPullRequests (repo_owner_login repo) (repo_name repo) 7
       :: map (closing ctxOpen) (filter (eligible 7 (repo_owner_login repo) "alice") linkedToSeven),
     Ok (match linkedToSeven with
         | [] => "No linked pull requests to close"
         | _ =>
             match filter (eligible 7 (repo_owner_login repo) "alice") linkedToSeven with
             | [] => "No PRs were closed"
             | closed => String.append closedHeader (closedList closed)
             end
         end)).
Proof.
  apply (closes_own_linked_pull_requests ctxOpen closingWorks 7 repo "alice" linkedToSeven).
  - discriminate.
  - reflexivity.
  - intros pr _ _. reflexivity.
Defined.

(** Of the five pull requests linked to issue 7, Alice's two in the
    organisation that name the issue are closed. *)
Example closes_two_of_five :
  fst (closePullRequestForAnIssue ctxOpen closingWorks 7 repo "alice")
  = [ext_getLinkedPullRequests "ubiquity" "work" 7;
     pulls_update "ubiquity" "work" 11 "closed"; pulls_update "ubiquity" "work" 15 "closed"].
Proof. vm_compute. reflexivity. Qed.

(** X25. How [closePullRequestForAnIssue] fails. For issue number 0 it throws
    "Issue is not defined" before asking anything. When the linked pull
    requests cannot be listed, it throws what the listing threw. When an
    update is rejected it throws "Closing pull requests failed!" at once: the
    pull requests listed after that one are left open. *)
Theorem closing_stops_at_first_failure (ctx : Context) (svc : CloseServices)
  (issueNumber : Z) (target : Repository) (author : string) :
  closePullRequestForAnIssue ctx svc 0 target author
  = ([], Err (JsErr "Issue is not defined")) /\
  (forall reason,
      issueNumber <> 0 ->
      getLinkedPullRequests svc (repo_owner_login target) (repo_name target) issueNumber
      = Rejected reason ->
      closePullRequestForAnIssue ctx svc issueNumber target author
      = ([ext_getLinkedPullRequests (repo_owner_login target) (repo_name target) issueNumber],
         Err (Foreign reason))) /\
  (forall before pr after reason,
      issueNumber <> 0 ->
      getLinkedPullRequests svc (repo_owner_login target) (repo_name target) issueNumber
      = Resolved (before ++ pr :: after) ->
      (forall p, In p before ->
                 eligible issueNumber (repo_owner_login target) author p = true ->
                 closes ctx svc p) ->
      eligible issueNumber (repo_owner_login target) author pr = true ->
      rest_pulls_update svc (repo_owner_login (repository (payload ctx)))
        (repo_name (repository (payload ctx))) (pr_number pr) "closed" = Rejected reason ->
      closePullRequestForAnIssue ctx svc issueNumber target author
      = (ext_getLinkedPullRequests (repo_owner_login target) (repo_name target) issueNumber
           :: map (closing ctx)
                (filter (eligible issueNumber (repo_owner_login target) author) before)
           ++ [closing ctx pr],
         Err (JsErr "Closing pull requests failed!"))).
Proof.
  split; [reflexivity|]. split.
  - intros reason Hn Hq. unfold closePullRequestForAnIssue, request.
    destruct (Z.eqb_spec issueNumber 0); [contradiction|]. rewrite Hq. reflexivity.
  - intros before pr after reason Hn Hq Hbefore Hpr Hrej.
    unfold closePullRequestForAnIssue, request.
    destruct (Z.eqb_spec issueNumber 0); [contradiction|]. rewrite Hq. cbn [next].
    assert (Hloop : forall comment isClosed,
               closeLinked ctx svc issueNumber (repo_owner_login target) author
                 (before ++ pr :: after) comment isClosed
               = (map (closing ctx)
                    (filter (eligible issueNumber (repo_owner_login target) author) before)
                    ++ [closing ctx pr],
                  Err (JsErr "Closing pull requests failed!"))).
    { clear Hq. induction before as [|p before IH]; intros comment isClosed;
        cbn [app closeLinked filter].
      - pose proof (eligible_split issueNumber (repo_owner_login target) author pr) as He.
        rewrite Hpr in He.
        destruct (negb (String.eqb (pr_author pr) author)
                  || negb (String.eqb (pr_organization pr) (repo_owner_login target)))%bool;
          [discriminate|].
        destruct (negb (issueLinkedViaPrBody (pr_body pr) issueNumber)); [discriminate|].
        rewrite (closePullRequest_rejected ctx svc pr reason Hrej). reflexivity.
      - assert (Hrest : forall q, In q before ->
                   eligible issueNumber (repo_owner_login target) author q = true ->
                   closes ctx svc q)
          by (intros q Hq; apply Hbefore; right; exact Hq).
        pose proof (eligible_split issueNumber (repo_owner_login target) author p) as He.
        destruct (negb (String.eqb (pr_author p) author)
                  || negb (String.eqb (pr_organization p) (repo_owner_login target)))%bool.
        { rewrite He. apply IH. exact Hrest. }
        destruct (negb (issueLinkedViaPrBody (pr_body p) issueNumber)).
        { rewrite He. apply IH. exact Hrest. }
        rewrite He.
        rewrite (closePullRequest_ok ctx svc p (Hbefore p (or_introl eq_refl) He)).
        cbn [next]. rewrite (IH Hrest). reflexivity. }
    destruct (before ++ pr :: after) as [|x l] eqn:E.
    { destruct before; discriminate. }
    rewrite Hloop. reflexivity.
Qed.

Lemma closing_stops_at_first_failure_witness :
  closePullRequestForAnIssue ctxOpen closingFails 7 repo "alice"
  = ([ext_getLinkedPullRequests "ubiquity" "work" 7; pulls_update "ubiquity" "work" 11 "closed"],
     Err (JsErr "Closing pull requests failed!")).
Proof.
  apply (proj2 (proj2 (closing_stops_at_first_failure ctxOpen closingFails 7 repo "alice"))
           [] (linkedPr 11 "alice" "ubiquity" (Some "Resolves #7"))
           (tl linkedToSeven) "422").
  - discriminate.
  - reflexivity.
  - intros p [].
  - vm_compute. reflexivity.
  - reflexivity.
Defined.

Lemma occurs_append (c : ascii) (a b : string) :
  occurs c (String.append a b) = (occurs c a || occurs c b)%bool.
Proof.
  induction a as [|x a IH]; simpl; [reflexivity|]. rewrite IH. apply orb_assoc.
Qed.

Lemma literal_rest (p s r : string) (c : ascii) :
  literal p s = Some r -> occurs c r = true -> occurs c s = true.
Proof.
  revert s. induction p as [|a p IH]; intros s; simpl.
  - intros H. injection H as <-. auto.
  - destruct s as [|b s]; [discriminate|].
    destruct (Ascii.eqb (Js.lowerAscii a) (Js.lowerAscii b)); [|discriminate].
    intros H Hc. simpl. rewrite (IH s H Hc). apply orb_true_r.
Qed.

Lemma lower_hash (b : ascii) :
  Ascii.eqb (Js.lowerAscii "#") (Js.lowerAscii b) = true -> b = "#"%char.
Proof.
  destruct b as [[] [] [] [] [] [] [] []]; vm_compute; intros H;
    first [reflexivity | discriminate H].
Qed.

Lemma lower_slash (b : ascii) :
  Ascii.eqb (Js.lowerAscii "/") (Js.lowerAscii b) = true -> b = "/"%char.
Proof.
  destruct b as [[] [] [] [] [] [] [] []]; vm_compute; intros H;
    first [reflexivity | discriminate H].
Qed.

Lemma literal_cons (a : ascii) (p s r : string) :
  literal (String a p) s = Some r ->
  exists b s', s = String b s' /\
               Ascii.eqb (Js.lowerAscii a) (Js.lowerAscii b) = true /\
               literal p s' = Some r.
Proof.
  cbn [literal]. destruct s as [|b s']; [discriminate|].
  destruct (Ascii.eqb (Js.lowerAscii a) (Js.lowerAscii b)) eqn:E; [|discriminate].
  intros H. exists b, s'. auto.
Qed.

Lemma literal_hash (s r : string) : literal "#" s = Some r -> s = String "#" r.
Proof.
  intros H. apply literal_cons in H as (b & s' & -> & E & H).
  apply lower_hash in E. subst b. cbn [literal] in H. injection H as <-. reflexivity.
Qed.

Lemma keywordReference_hash (ks : list string) (s r : string) :
  keywordReference ks s = Some r -> occurs "#" s = true.
Proof.
  induction ks as [|k ks IH]; cbn [keywordReference]; [discriminate|].
  unfold orElse, andThen at 1.
  destruct (literal k s) as [r1|] eqn:E1; [|exact IH].
  unfold andThen.
  destruct (literal " #" r1) as [r2|] eqn:E2; [|exact IH].
  intros _. apply (literal_rest k s r1 "#" E1).
  apply literal_cons in E2 as (b & s' & -> & _ & E2).
  apply literal_hash in E2. subst s'. simpl. apply orb_true_r.
Qed.

Lemma urlReference_slash (s r : string) : urlReference s = Some r -> occurs "/" s = true.
Proof.
  unfold urlReference, andThen.
  destruct (literal "https://" s) as [r1|] eqn:E; [|discriminate].
  intros _.
  do 6 (apply literal_cons in E as (? & ? & -> & _ & E)).
  apply literal_cons in E as (b & s' & -> & Hb & E).
  apply lower_slash in Hb. subst b. simpl. rewrite !orb_true_r. reflexivity.
Qed.

Lemma referenceHere_needs (s r : string) :
  referenceHere s = Some r -> occurs "#" s = true \/ occurs "/" s = true.
Proof.
  unfold referenceHere, orElse.
  destruct (keywordReference _ s) as [r1|] eqn:E1.
  { intros _. left. exact (keywordReference_hash _ s r1 E1). }
  destruct (urlReference s) as [r2|] eqn:E2.
  { intros _. right. exact (urlReference_slash s r2 E2). }
  unfold andThen. destruct (literal "#" s) as [r3|] eqn:E3; [|discriminate].
  intros _. left. apply literal_hash in E3. subst s. reflexivity.
Qed.

Lemma matches_none (s : string) (k : nat) :
  occurs "#" s = false -> occurs "/" s = false -> matches k s = [].
Proof.
  revert k. induction s as [|c s IH]; intros k Hh Hs; [reflexivity|].
  assert (Hh' : occurs "#" s = false) by (simpl in Hh; apply orb_false_elim in Hh; tauto).
  assert (Hs' : occurs "/" s = false) by (simpl in Hs; apply orb_false_elim in Hs; tauto).
  cbn [matches]. destruct k as [|k]; [|apply IH; assumption].
  destruct (referenceHere (String c s)) as [r|] eqn:E; [|apply IH; assumption].
  apply referenceHere_needs in E as [E|E]; congruence.
Qed.

Lemma removeComments_keeps (c : ascii) (s : string) (inside : bool) :
  occurs c (removeComments inside s) = true -> occurs c s = true.
Proof.
  revert inside. induction s as [|d s IH]; intros inside; [destruct inside; auto|].
  cbn [removeComments]. destruct inside.
  - intros H. apply IH in H. simpl. rewrite H. apply orb_true_r.
  - assert (Hkeep : occurs c (String d (removeComments false s)) = true ->
                    occurs c (String d s) = true).
    { simpl. intros H. apply orb_prop in H as [H|H]; [rewrite H; reflexivity|].
      apply IH in H. rewrite H. apply orb_true_r. }
    destruct s as [|e s']; [exact Hkeep|].
    destruct (Ascii.eqb_spec e "!") as [->|Hne].
    + destruct (Ascii.eqb d "<" && hasGt s')%bool; [|exact Hkeep].
      intros H. apply IH in H. cbn [occurs]. cbn [occurs] in H. rewrite H. apply orb_true_r.
    + assert (Hsame : match e with
                      | "!"%char =>
                          if (Ascii.eqb d "<" && hasGt s')%bool
                          then removeComments true (String e s')
                          else String d (removeComments false (String e s'))
                      | _ => String d (removeComments false (String e s'))
                      end = String d (removeComments false (String e s'))).
      { destruct e as [[] [] [] [] [] [] [] []]; try reflexivity. contradiction. }
      rewrite Hsame. exact Hkeep.
Qed.

(** X26. A body is linked to no issue unless it holds a "#" or a "/": every
    reference the expression recognises has one of the two. The same holds
    for a missing or empty body. *)
Theorem unreferenced_body_is_not_linked (body : string) (issueNumber : Z) :
  occurs "#" body = false -> occurs "/" body = false ->
  issueLinkedViaPrBody (Some body) issueNumber = false /\
  issueLinkedViaPrBody None issueNumber = false /\
  issueLinkedViaPrBody (Some "") issueNumber = false.
Proof.
  intros Hh Hs. split; [|split; reflexivity].
  unfold issueLinkedViaPrBody. destruct (negb (Js.truthy body)); [reflexivity|].
  rewrite matches_none; [reflexivity | |].
  - destruct (occurs "#" (removeComments false body)) eqn:E; [|reflexivity].
    apply removeComments_keeps in E. congruence.
  - destruct (occurs "/" (removeComments false body)) eqn:E; [|reflexivity].
    apply removeComments_keeps in E. congruence.
Qed.

Lemma unreferenced_body_is_not_linked_witness :
  issueLinkedViaPrBody (Some "Fixes the parser, see issue 7") 7 = false /\
  issueLinkedViaPrBody None 7 = false /\
  issueLinkedViaPrBody (Some "") 7 = false.
Proof.
  apply (unreferenced_body_is_not_linked "Fixes the parser, see issue 7" 7); reflexivity.
Defined.

Lemma digit_is_not (c x : ascii) :
  Js.isDigit c = true -> Js.isDigit x = false -> Ascii.eqb c x = false.
Proof. intros Hc Hx. destruct (Ascii.eqb_spec c x); [subst; congruence | reflexivity]. Qed.

Lemma digits_lack (x : ascii) (ds : string) :
  Js.isDigit x = false -> allDigits ds = true -> occurs x ds = false.
Proof.
  intros Hx. induction ds as [|d ds IH]; simpl; [reflexivity|].
  intros H. apply andb_prop in H as [Hd Hds].
  rewrite (digit_is_not d x Hd Hx), (IH Hds). reflexivity.
Qed.

Lemma skipDigits_all (ds : string) : allDigits ds = true -> skipDigits ds = "".
Proof.
  induction ds as [|d ds IH]; simpl; [reflexivity|].
  intros H. apply andb_prop in H as [Hd Hds]. rewrite Hd. exact (IH Hds).
Qed.

Lemma digits_all (ds : string) : allDigits ds = true -> ds <> "" -> digits ds = Some "".
Proof.
  destruct ds as [|d ds]; [contradiction|]. simpl.
  intros H _. apply andb_prop in H as [Hd Hds]. rewrite Hd, (skipDigits_all ds Hds).
  reflexivity.
Qed.

Lemma splitAux_lacking (sep : ascii) (s cur : string) :
  occurs sep s = false -> Js.splitAux sep s cur = [String.append cur s].
Proof.
  revert cur. induction s as [|c s IH]; intros cur; simpl.
  - rewrite IssueUtilsExtras.append_nil_r'. reflexivity.
  - intros H. apply orb_false_elim in H as [Hc Hs]. rewrite Hc, (IH _ Hs).
    rewrite IssueUtilsExtras.append_assoc'. reflexivity.
Qed.

Lemma removeComments_id (s : string) :
  occurs "<" s = false -> removeComments false s = s.
Proof.
  induction s as [|c s IH]; [reflexivity|].
  intros H. simpl in H. apply orb_false_elim in H as [Hc Hs].
  cbn [removeComments]. rewrite Hc. cbn [andb].
  rewrite (IH Hs). destruct s as [|e s']; [reflexivity|].
  destruct e as [[] [] [] [] [] [] [] []]; reflexivity.
Qed.

Lemma matches_skipped (s : string) (k : nat) :
  (String.length s <= k)%nat -> matches k s = [].
Proof.
  revert k. induction s as [|c s IH]; intros k H; [reflexivity|].
  simpl in H. destruct k as [|k]; [lia|]. cbn [matches]. apply IH. lia.
Qed.

Lemma take_all (s : string) : take (String.length s) s = s.
Proof. induction s as [|c s IH]; simpl; [reflexivity | rewrite IH; reflexivity]. Qed.

(** A body that is one reference from its first to its last character. *)
Lemma single_reference (s : string) (n : Z) :
  s <> "" -> removeComments false s = s -> referenceHere s = Some "" ->
  issueLinkedViaPrBody (Some s) n = String.eqb (issueIdOf s) (numberToString n).
Proof.
  intros Hne Hid Href. unfold issueLinkedViaPrBody.
  destruct s as [|c r]; [contradiction|]. cbn [Js.truthy negb]. rewrite Hid.
  cbn [matches]. rewrite Href.
  replace (String.length (String c r) - String.length "")%nat
    with (String.length (String c r)) by (simpl; lia).
  rewrite take_all. rewrite matches_skipped by (simpl; lia). reflexivity.
Qed.

(** Below 2^53 an integer is its own double, and nothing else reads as it. *)
Lemma toDouble_exact (c x : Z) : x < 2 ^ 53 -> Js.toDouble c = Some x -> c = x.
Proof.
  intros Hx. unfold Js.toDouble.
  destruct (Z.ltb_spec c (2 ^ 53)) as [Hc|Hc]; [congruence|].
  cbv zeta.
  set (e := Z.log2 c - 52).
  set (q := c / 2 ^ e).
  set (m := if ((2 ^ (e - 1) <? c mod 2 ^ e) || ((c mod 2 ^ e =? 2 ^ (e - 1)) && Z.odd q))%bool
            then q + 1 else q).
  assert (H53 : 53 <= Z.log2 c).
  { rewrite <- (Z.log2_pow2 53) by lia. apply Z.log2_le_mono. exact Hc. }
  assert (He : 1 <= e) by (unfold e; lia).
  assert (Hpos : 0 < c) by (assert (0 < 2 ^ 53) by (apply Z.pow_pos_nonneg; lia); lia).
  pose proof (Z.log2_spec c Hpos) as [Hlow _].
  replace (Z.log2 c) with (52 + e) in Hlow by (unfold e; lia).
  rewrite Z.pow_add_r in Hlow by lia.
  assert (H2e : 2 <= 2 ^ e).
  { change 2 with (2 ^ 1) at 1. apply Z.pow_le_mono_r; lia. }
  assert (Hq : 2 ^ 52 <= q).
  { unfold q. apply Z.div_le_lower_bound; [lia|]. rewrite Z.mul_comm. exact Hlow. }
  assert (Hm : 2 ^ 52 <= m) by (unfold m; destruct (_ || _)%bool; lia).
  assert (Hbig : 2 ^ 53 <= m * 2 ^ e).
  { change (2 ^ 53) with (2 ^ 52 * 2). apply Z.mul_le_mono_nonneg; lia. }
  destruct (2 ^ 1024 <=? m * 2 ^ e); [discriminate|].
  intros H. injection H as H. lia.
Qed.

Lemma shortest_exact (fuel : nat) (x p : Z) : x < 2 ^ 53 -> Js.shortest fuel x p = x.
Proof.
  intros Hx. revert p. induction fuel as [|fuel IH]; intros p; [reflexivity|].
  cbn [Js.shortest]. cbv zeta.
  set (lo := x / 10 ^ p * 10 ^ p).
  assert (Hreads : forall v, match Js.toDouble v with Some y => y =? x | None => false end = true
                             -> v = x).
  { intros v H. destruct (Js.toDouble v) as [y|] eqn:E; [|discriminate].
    apply Z.eqb_eq in H. subst y. exact (toDouble_exact v x Hx E). }
  destruct (match Js.toDouble lo with Some y => y =? x | None => false end) eqn:Elo;
    destruct (match Js.toDouble (lo + 10 ^ p) with Some y => y =? x | None => false end) eqn:Ehi;
    cbn [andb].
  - pose proof (Hreads _ Elo). pose proof (Hreads _ Ehi).
    repeat match goal with |- context [if ?c then _ else _] => destruct c end; assumption.
  - exact (Hreads _ Elo).
  - exact (Hreads _ Ehi).
  - apply IH.
Qed.

(** An integer from 0 to 2^53 - 1 is written in its decimal digits. *)
Lemma toString_decimal (n : Z) : 0 <= n -> n < 2 ^ 53 -> Js.toString n = Js.decimal n.
Proof.
  intros H0 H53. unfold Js.toString.
  rewrite Z.abs_eq by exact H0.
  assert (Hd : Js.toDouble n = Some n).
  { unfold Js.toDouble. destruct (Z.ltb_spec n (2 ^ 53)); [reflexivity | lia]. }
  rewrite Hd. destruct (Z.eqb_spec n 0) as [-> | Hn]; [reflexivity|].
  rewrite shortest_exact by exact H53.
  destruct (Z.ltb_spec n 0); [lia|].
  assert (Hlt : n < 10 ^ 21).
  { assert (2 ^ 53 < 10 ^ 21) by reflexivity. lia. }
  destruct (Z.ltb_spec n (10 ^ 21)); [reflexivity | lia].
Qed.

Lemma numberToString_digits (n : Z) :
  0 <= n -> n < 2 ^ 53 -> allDigits (numberToString n) = true /\ numberToString n <> "".
Proof.
  intros Hn H53. unfold numberToString. rewrite (toString_decimal n Hn H53).
  unfold Js.decimal.
  assert (Hu : forall d, allDigits (DecimalString.NilEmpty.string_of_uint d) = true).
  { induction d; simpl; auto. }
  assert (Hne : forall d, d <> Decimal.Nil ->
                          DecimalString.NilEmpty.string_of_uint d <> "").
  { intros d Hd. destruct d; simpl; try discriminate. contradiction. }
  destruct n as [|p|p]; [split; [reflexivity | discriminate] | | lia].
  simpl. unfold DecimalString.NilZero.string_of_uint.
  pose proof (DecimalPos.Unsigned.to_uint_nonnil p) as Hp.
  destruct (Pos.to_uint p) eqn:E; try contradiction;
    (split; [apply Hu | apply Hne; exact Hp]).
Qed.


Lemma length_append' (a b : string) :
  String.length (String.append a b) = (String.length a + String.length b)%nat.
Proof. induction a as [|c a IH]; simpl; [reflexivity | rewrite IH; reflexivity]. Qed.

Lemma take_append (m rest : string) : take (String.length m) (String.append m rest) = m.
Proof. induction m as [|c m IH]; simpl; [destruct rest; reflexivity | rewrite IH; reflexivity]. Qed.

Lemma matches_skip (t rest : string) :
  matches (String.length t) (String.append t rest) = matches 0 rest.
Proof.
  induction t as [|c t IH]; [reflexivity|]. exact IH.
Qed.

(** A match at the head of the text, and the search going on after it. *)
Lemma matches_here (m rest : string) :
  m <> "" -> referenceHere (String.append m rest) = Some rest ->
  matches 0 (String.append m rest) = m :: matches 0 rest.
Proof.
  intros Hne Href. destruct m as [|c m]; [contradiction|].
  change (String.append (String c m) rest) with (String c (String.append m rest)) in *.
  cbn [matches]. rewrite Href.
  replace (String.length (String c (String.append m rest)) - String.length rest)%nat
    with (S (String.length m)) by (cbn [String.length]; rewrite length_append'; lia).
  cbn [take]. rewrite take_append.
  replace (S (String.length m) - 1)%nat with (String.length m) by lia.
  rewrite matches_skip. reflexivity.
Qed.

Lemma space_is_no_digit (c : ascii) : Js.isSpace c = true -> Js.isDigit c = false.
Proof. destruct c as [[] [] [] [] [] [] [] []]; intros H; try reflexivity; discriminate H. Qed.

Lemma spaces_lack (x : ascii) (s : string) :
  Js.isSpace x = false -> allSpaces s = true -> occurs x s = false.
Proof.
  intros Hx. induction s as [|c s IH]; simpl; [reflexivity|].
  intros H. apply andb_prop in H as [Hc Hs]. rewrite (IH Hs).
  destruct (Ascii.eqb_spec c x); [subst; congruence | reflexivity].
Qed.

Lemma no_reference_at_space (c : ascii) (s : string) :
  Js.isSpace c = true -> referenceHere (String c s) = None.
Proof.
  destruct c as [[] [] [] [] [] [] [] []]; intros H; try discriminate H; reflexivity.
Qed.

Lemma matches_after_spaces (sep s : string) :
  allSpaces sep = true -> matches 0 (String.append sep s) = matches 0 s.
Proof.
  induction sep as [|c sep IH]; [reflexivity|].
  simpl. intros H. apply andb_prop in H as [Hc Hs].
  pose proof (no_reference_at_space c (String.append sep s) Hc) as Hn.
  unfold referenceHere in Hn. unfold referenceHere. rewrite Hn. exact (IH Hs).
Qed.

Lemma skipDigits_rest (ds rest : string) :
  allDigits ds = true ->
  match rest with String c _ => Js.isDigit c = false | EmptyString => True end ->
  skipDigits (String.append ds rest) = rest.
Proof.
  intros Hds Hrest. induction ds as [|d ds IH].
  - destruct rest as [|c r]; [reflexivity|]. simpl. rewrite Hrest. reflexivity.
  - simpl in *. apply andb_prop in Hds as [Hd Hds]. rewrite Hd. exact (IH Hds).
Qed.

Lemma digits_rest (ds rest : string) :
  allDigits ds = true -> ds <> "" ->
  match rest with String c _ => Js.isDigit c = false | EmptyString => True end ->
  digits (String.append ds rest) = Some rest.
Proof.
  destruct ds as [|d ds]; [contradiction|].
  intros H _ Hrest. simpl in H. apply andb_prop in H as [Hd Hds].
  simpl. rewrite Hd, (skipDigits_rest ds rest Hds Hrest). reflexivity.
Qed.

Lemma reference_read (p ds rest : string) :
  In p referencePrefixes -> allDigits ds = true -> ds <> "" ->
  match rest with String c _ => Js.isDigit c = false | EmptyString => True end ->
  referenceHere (String.append (reference p ds) rest) = Some rest.
Proof.
  intros Hp Hds Hne Hrest. unfold reference.
  rewrite IssueUtilsExtras.append_assoc'.
  change (String.append (String "#" ds) rest) with (String "#" (String.append ds rest)).
  pose proof (digits_rest ds rest Hds Hne Hrest) as Hd.
  remember (String.append ds rest) as tail eqn:Etail. clear Etail.
  unfold referenceHere.
  repeat (destruct Hp as [<- | Hp]; [cbv -[digits]; rewrite Hd; reflexivity|]).
  destruct Hp.
Qed.

Lemma issueIdOf_reference (p ds : string) :
  In p referencePrefixes -> allDigits ds = true -> issueIdOf (reference p ds) = ds.
Proof.
  intros Hp Hds.
  assert (Hhash : occurs "#" ds = false) by (apply digits_lack; [reflexivity | exact Hds]).
  unfold reference, issueIdOf, Js.split.
  repeat (destruct Hp as [<- | Hp];
          [cbn; rewrite (splitAux_lacking "#" ds "" Hhash); reflexivity|]).
  destruct Hp.
Qed.

Lemma reference_lacks_lt (p ds : string) :
  In p referencePrefixes -> allDigits ds = true -> occurs "<" (reference p ds) = false.
Proof.
  intros Hp Hds. unfold reference. rewrite occurs_append. cbn [occurs].
  rewrite (digits_lack "<" ds eq_refl Hds).
  repeat (destruct Hp as [<- | Hp]; [reflexivity|]). destruct Hp.
Qed.

Lemma reference_nonempty (p ds : string) : reference p ds <> "".
Proof. unfold reference. destruct p; discriminate. Qed.

(** X27. Of two references separated by white space, the second alone decides:
    the first is read and forgotten. *)
Theorem last_reference_decides (p1 ds1 sep p2 ds2 : string) (n : Z) :
  In p1 referencePrefixes -> allDigits ds1 = true -> ds1 <> "" ->
  whitespace sep = true ->
  In p2 referencePrefixes -> allDigits ds2 = true -> ds2 <> "" ->
  issueLinkedViaPrBody
    (Some (String.append (reference p1 ds1) (String.append sep (reference p2 ds2)))) n
  = String.eqb ds2 (numberToString n).
Proof.
  intros Hp1 Hd1 Hn1 Hsep Hp2 Hd2 Hn2.
  unfold whitespace in Hsep. apply andb_prop in Hsep as [Hsne Hsp].
  assert (Hrest : match String.append sep (reference p2 ds2) with
                  | String c _ => Js.isDigit c = false
                  | EmptyString => True
                  end).
  { destruct sep as [|w sep]; [discriminate Hsne|]. simpl in Hsp |- *.
    apply andb_prop in Hsp as [Hw _]. exact (space_is_no_digit w Hw). }
  unfold issueLinkedViaPrBody.
  assert (Hbody : Js.truthy (String.append (reference p1 ds1)
                               (String.append sep (reference p2 ds2))) = true).
  { pose proof (reference_nonempty p1 ds1) as Hr.
    destruct (reference p1 ds1); [contradiction | reflexivity]. }
  rewrite Hbody. cbn [negb].
  rewrite removeComments_id.
  2:{ rewrite !occurs_append, (reference_lacks_lt p1 ds1 Hp1 Hd1),
        (reference_lacks_lt p2 ds2 Hp2 Hd2), (spaces_lack "<" sep eq_refl Hsp).
      reflexivity. }
  rewrite (matches_here _ _ (reference_nonempty p1 ds1)
             (reference_read p1 ds1 _ Hp1 Hd1 Hn1 Hrest)).
  rewrite (matches_after_spaces sep _ Hsp).
  pose proof (reference_read p2 ds2 "" Hp2 Hd2 Hn2 I) as H2.
  rewrite <- (IssueUtilsExtras.append_nil_r' (reference p2 ds2)).
  rewrite (matches_here _ "" (reference_nonempty p2 ds2) H2).
  cbn [matches last]. rewrite (issueIdOf_reference p2 ds2 Hp2 Hd2). reflexivity.
Qed.

Lemma last_reference_decides_witness :
  issueLinkedViaPrBody
    (Some (String.append (reference "Resolves " "7") (String.append " " (reference "" "8")))) 7
  = String.eqb "8" (numberToString 7).
Proof.
  apply (last_reference_decides "Resolves " "7" " " "" "8" 7);
    first [reflexivity | discriminate | simpl; tauto].
Defined.

(** X28. A reference that is the whole body, "#" and digits alone or after one
    of the keywords, links the issue whose decimal writing is exactly those
    digits: "#7" links issue 7 and "#007" does not. *)
Theorem reference_is_compared_as_written (p ds : string) (n : Z) :
  In p referencePrefixes ->
  allDigits ds = true -> ds <> "" ->
  issueLinkedViaPrBody (Some (reference p ds)) n = String.eqb ds (numberToString n).
Proof.
  intros Hp Hds Hne.
  rewrite single_reference.
  - rewrite (issueIdOf_reference p ds Hp Hds). reflexivity.
  - apply reference_nonempty.
  - apply removeComments_id, reference_lacks_lt; assumption.
  - pose proof (reference_read p ds "" Hp Hds Hne I) as H.
    rewrite IssueUtilsExtras.append_nil_r' in H. exact H.
Qed.

Lemma reference_is_compared_as_written_witness :
  issueLinkedViaPrBody (Some (reference "Closes " "007")) 7
  = String.eqb "007" (numberToString 7).
Proof.
  apply (reference_is_compared_as_written "Closes " "007" 7);
    [simpl; tauto | reflexivity | discriminate].
Defined.

(** X29. An issue number from 0 to 2^53 - 1, the integers a number of
    JavaScript holds exactly, is written by [toString] in its decimal digits,
    and a body that refers to it so, alone or after a keyword, links that
    issue. *)
Theorem own_number_links (p : string) (n : Z) :
  In p referencePrefixes -> 0 <= n -> n < 2 ^ 53 ->
  numberToString n = Js.decimal n /\
  issueLinkedViaPrBody (Some (reference p (numberToString n))) n = true.
Proof.
  intros Hp Hn H53. split; [exact (toString_decimal n Hn H53)|].
  destruct (numberToString_digits n Hn H53) as [Hd Hne].
  pose proof (issueIdOf_reference p _ Hp Hd) as Hid.
  pose proof (reference_read p _ "" Hp Hd Hne I) as Href.
  rewrite IssueUtilsExtras.append_nil_r' in Href.
  rewrite (single_reference _ n (reference_nonempty p _)
             (removeComments_id _ (reference_lacks_lt p _ Hp Hd)) Href).
  rewrite Hid. apply String.eqb_refl.
Qed.

Lemma own_number_links_witness :
  numberToString 1204 = Js.decimal 1204 /\
  issueLinkedViaPrBody (Some (reference "fixes " (numberToString 1204))) 1204 = true.
Proof. apply (own_number_links "fixes " 1204); [simpl; tauto | lia | reflexivity]. Defined.

(** From 10^21 on a number is written with an exponent, and no reference in
    digits links it. *)
Example exponent_form_links_nothing :
  numberToString (10 ^ 21) = "1e+21" /\
  issueLinkedViaPrBody (Some "#1000000000000000000000") (10 ^ 21) = false.
Proof. split; reflexivity. Qed.

End CloseExtras.
